(** * TommySchool: the assessment platform's score utilities, PDF reports,
      in-memory store and REST update/list routes, embedded in Rocq.

    Sources embedded here:
    - client/src/lib/utils/format-data.ts   (formatScoreLevel, calculateScorePercentage)
    - client/src/lib/utils/pdf-generator.ts (generatePDFPreview, generatePdf)
    - server/storage.ts                     (MemStorage)
    - server/routes.ts                      (PUT routes, GET /api/assessments)
    - client/src/pages/assessor/results.tsx (the filters of the results page)
    - shared/schema.ts                      (entities and insert schemas)

    JavaScript numbers are IEEE-754 binary64 values: they are modelled by
    Rocq's primitive floats, whose operations are the same binary64
    operations.  Identifiers that index the store are integers ([Z]).

    A JavaScript string is a sequence of UTF-16 code units.  A Rocq string
    is a sequence of characters 0..255 and stands for the JavaScript string
    with those code units (the characters U+0000 to U+00FF): character 160
    is the no-break space U+00A0, and no string of the embedding holds a
    code unit above 255. *)

From Stdlib Require Import ZArith Floats Strings.String Strings.Ascii Lia DecimalString.
From Stdlib Require Uint63.
From Stdlib Require DecimalFacts DecimalPos DecimalN.
From stdpp Require Import gmap strings list fin_maps.

Set Warnings "-inexact-float,-register-all".

(** Milliseconds since the epoch: what a JavaScript [Date] holds. *)
Definition Date := Z.

(* ===================================================================== *)
(** * The JavaScript built-ins the sources rely on (ECMA-262) *)
(* ===================================================================== *)
Module JS.
Local Open Scope Z_scope.

(** [Number.isNaN] and [Number.isFinite]. *)
Definition Number_isNaN (x : float) : bool :=
  match Prim2SF x with S754_nan => true | _ => false end.

Definition Number_isFinite (x : float) : bool :=
  match Prim2SF x with
  | S754_zero _ | S754_finite _ _ _ => true
  | S754_nan | S754_infinity _ => false
  end.

(** [ToBoolean] on numbers: NaN, +0 and -0 are falsy. *)
Definition ToBoolean (x : float) : bool :=
  match Prim2SF x with
  | S754_nan | S754_zero _ => false
  | S754_infinity _ | S754_finite _ _ _ => true
  end.

(** [a || b] on numbers. *)
Definition or_else (a b : float) : float := if ToBoolean a then a else b.

(** [a || b] where [a] may be [undefined] (an absent property). *)
Definition or_else_undef (a : option float) (b : float) : float :=
  match a with
  | Some x => or_else x b
  | None => b
  end.

(** [s || d] on strings that may be [undefined]: the empty string is falsy. *)
Definition or_else_str (a : option string) (d : string) : string :=
  match a with
  | Some EmptyString | None => d
  | Some s => s
  end.

(** An integer as a number (exact below 2^53). *)
Definition Number_of_Z (z : Z) : float :=
  match z with
  | Z0 => 0%float
  | Zpos _ => of_uint63 (Uint63.of_Z z)
  | Zneg p => (- of_uint63 (Uint63.of_Z (Zpos p)))%float
  end.

(** An array length, a loop index. *)
Definition Number_of_nat (n : nat) : float := Number_of_Z (Z.of_nat n).

(** [Math.round]: the integer nearest to [x], ties towards +infinity;
    NaN, infinities and zeros are returned as they are, and a result that
    rounds a negative number to zero is -0. *)
Definition Math_round (x : float) : float :=
  match Prim2SF x with
  | S754_finite s m e =>
      if 0 <=? e then x
      else
        let d := 2 ^ (- e) in
        let n := (2 * (if s then Zneg m else Zpos m) + d) / (2 * d) in
        if n =? 0 then (if s then (-0)%float else 0%float) else Number_of_Z n
  | _ => x
  end.

(** Decimal digits of a non-negative integer. *)
Definition digits (z : Z) : string := NilZero.string_of_uint (N.to_uint (Z.to_N z)).

Definition zeros (n : Z) : string := string_of_list_ascii (repeat "0"%char (Z.to_nat n)).

Definition sub (a len : Z) (s : string) : string :=
  substring (Z.to_nat a) (Z.to_nat len) s.

(** A finite positive value [m * 2^e] as a fraction [V / D], with the
    interval [LO / D .. HI / D] of the reals that round to it (closed when
    the mantissa is even, as round-to-nearest-even has it). *)
Record interval := { LO : Z; V : Z; HI : Z; D : Z; closed : bool }.

Definition interval_of (m : positive) (e : Z) : interval :=
  let lo4 := 4 * Zpos m - (if (Zpos m =? 2 ^ 52) && (-1074 <? e) then 1 else 2) in
  let v4 := 4 * Zpos m in
  let hi4 := 4 * Zpos m + 2 in
  let ev := Z.even (Zpos m) in
  if 0 <=? e - 2
  then {| LO := lo4 * 2 ^ (e - 2); V := v4 * 2 ^ (e - 2);
          HI := hi4 * 2 ^ (e - 2); D := 1; closed := ev |}
  else {| LO := lo4; V := v4; HI := hi4; D := 2 ^ (2 - e); closed := ev |}.

(** The decimal [s * 10^t] as a fraction. *)
Definition dec_num (s t : Z) : Z := if 0 <=? t then s * 10 ^ t else s.
Definition dec_den (t : Z) : Z := if 0 <=? t then 1 else 10 ^ (- t).

Definition pow10_le (i : interval) (p : Z) : bool :=
  dec_num 1 p * D i <=? V i * dec_den p.

Fixpoint log10_up (fuel : nat) (i : interval) (p : Z) : Z :=
  match fuel with
  | O => p
  | S fuel' => if pow10_le i (p + 1) then log10_up fuel' i (p + 1) else p
  end.

(** The largest [p] with [10^p <= V / D], from an estimate below it. *)
Definition floor_log10 (i : interval) : Z :=
  let a := Z.log2 (V i) - Z.log2 (D i) - 1 in
  let p0 := (if 0 <=? a then a * 30102 else a * 30103) / 100000 - 1 in
  log10_up 6 i p0.

Definition in_interval (i : interval) (s t : Z) : bool :=
  let c := dec_num s t * D i in
  if closed i
  then (LO i * dec_den t <=? c) && (c <=? HI i * dec_den t)
  else (LO i * dec_den t <? c) && (c <? HI i * dec_den t).

Definition dist (i : interval) (s t : Z) : Z :=
  Z.abs (dec_num s t * D i - V i * dec_den t).

(** With [k] digits: the decimals just below and just above the value; the
    one that rounds back to it, the closer of the two, the even one on a tie. *)
Definition candidate (i : interval) (p k : Z) : option (Z * Z) :=
  let t := p - k + 1 in
  let s1 := (V i * dec_den t) / (D i * dec_num 1 t) in
  let s2 := s1 + 1 in
  match in_interval i s1 t, in_interval i s2 t with
  | true, true =>
      match dist i s1 t ?= dist i s2 t with
      | Lt => Some (s1, t)
      | Gt => Some (s2, t)
      | Eq => if Z.even s1 then Some (s1, t) else Some (s2, t)
      end
  | true, false => Some (s1, t)
  | false, true => Some (s2, t)
  | false, false => None
  end.

(** The fewest digits that round back to the value (at most 17). *)
Fixpoint shortest (fuel : nat) (i : interval) (p k : Z) : Z * Z :=
  match fuel with
  | O => ((V i * dec_den (p - k + 1)) / (D i * dec_num 1 (p - k + 1)), p - k + 1)
  | S fuel' =>
      match candidate i p k with
      | Some st => st
      | None => shortest fuel' i p (k + 1)
      end
  end.

(** Number::toString, steps 6 to 10: the digits [ds] (there are [k]) of a
    value [0.ds * 10^n]. *)
Definition fmt_decimal (ds : string) (k n : Z) : string :=
  if (k <=? n) && (n <=? 21) then ds +:+ zeros (n - k)
  else if (0 <? n) && (n <=? 21) then sub 0 n ds +:+ "." +:+ sub n (k - n) ds
  else if (-6 <? n) && (n <=? 0) then "0." +:+ zeros (- n) +:+ ds
  else
    let e := n - 1 in
    let es := (if e <? 0 then "-" else "+") +:+ digits (Z.abs e) in
    if k =? 1 then ds +:+ "e" +:+ es
    else sub 0 1 ds +:+ "." +:+ sub 1 (k - 1) ds +:+ "e" +:+ es.

Definition toString_pos (m : positive) (e : Z) : string :=
  let i := interval_of m e in
  let p := floor_log10 i in
  let '(s, t) := shortest 17 i p 1 in
  let '(s, t) := if s mod 10 =? 0 then (s / 10, t + 1) else (s, t) in
  let ds := digits s in
  let k := Z.of_nat (String.length ds) in
  fmt_decimal ds k (k + t).

(** Number::toString(x), radix 10: what a template literal prints. *)
Definition Number_toString (x : float) : string :=
  match Prim2SF x with
  | S754_nan => "NaN"
  | S754_zero _ => "0"
  | S754_infinity s => if s then "-Infinity" else "Infinity"
  | S754_finite s m e => (if s then "-" else "") +:+ toString_pos m e
  end.

Definition toFixed_pos (f : nat) (m : positive) (e : Z) : string :=
  let vn := if 0 <=? e then Zpos m * 2 ^ e else Zpos m in
  let vd := if 0 <=? e then 1 else 2 ^ (- e) in
  if 10 ^ 21 * vd <=? vn then toString_pos m e
  else
    let n := (2 * vn * 10 ^ Z.of_nat f + vd) / (2 * vd) in
    let ds := digits n in
    match f with
    | O => ds
    | _ =>
        let k := Z.of_nat (String.length ds) in
        let ds := if k <=? Z.of_nat f then zeros (Z.of_nat f + 1 - k) +:+ ds else ds in
        let k := Z.of_nat (String.length ds) in
        sub 0 (k - Z.of_nat f) ds +:+ "." +:+ sub (k - Z.of_nat f) (Z.of_nat f) ds
    end.

(** Number.prototype.toFixed(f). *)
Definition toFixed (f : nat) (x : float) : string :=
  match Prim2SF x with
  | S754_nan => "NaN"
  | S754_infinity s => if s then "-Infinity" else "Infinity"
  | S754_zero _ => match f with O => "0" | _ => "0." +:+ zeros (Z.of_nat f) end
  | S754_finite s m e => (if s then "-" else "") +:+ toFixed_pos f m e
  end.

(** An integer count or index in a template literal, and [n.toString()]. *)
Definition nat_toString (n : nat) : string := digits (Z.of_nat n).

(** White space of [String.prototype.trim], of [parseInt] and of the
    regular expression class [\s]: the WhiteSpace and LineTerminator code
    points of ECMA-262.  Those of them below U+0100 are TAB, LF, VT, FF, CR,
    SP and the no-break space U+00A0; the others (U+1680, U+2000 to U+200A,
    U+2028, U+2029, U+202F, U+205F, U+3000, U+FEFF) are above what a string
    of the embedding holds. *)
Definition is_space (c : ascii) : bool :=
  match nat_of_ascii c with
  | 9%nat | 10%nat | 11%nat | 12%nat | 13%nat | 32%nat | 160%nat => true
  | _ => false
  end.

Fixpoint trimStart (s : string) : string :=
  match s with
  | String c s' => if is_space c then trimStart s' else s
  | EmptyString => EmptyString
  end.

(** [s.trim() !== ""]: some character of [s] is not white space. *)
Definition trim_nonempty (s : string) : bool :=
  match trimStart s with EmptyString => false | _ => true end.

(** [s.replace(/\s+/g, r)]. *)
Fixpoint replace_spaces (r : string) (in_run : bool) (s : string) : string :=
  match s with
  | EmptyString => EmptyString
  | String c s' =>
      if is_space c
      then (if in_run then replace_spaces r true s' else r +:+ replace_spaces r true s')
      else String c (replace_spaces r false s')
  end.

(** [s.split("T")[0]]. *)
Fixpoint before_T (s : string) : string :=
  match s with
  | EmptyString => EmptyString
  | String c s' => if Ascii.eqb c "T"%char then EmptyString else String c (before_T s')
  end.

(** [hay.includes(needle)]. *)
Fixpoint includes (needle hay : string) : bool :=
  String.prefix needle hay ||
  match hay with
  | EmptyString => false
  | String _ hay' => includes needle hay'
  end.

End JS.

(* ===================================================================== *)
(** * client/src/lib/utils/format-data.ts *)
(* ===================================================================== *)
Module FormatData.
Import JS.
Local Open Scope float_scope.

(** Formats a score on a scale of 1-5 to a descriptive level. *)
Definition formatScoreLevel (score : float) : string :=
  if score <? 2 then "Needs Improvement"
  else if score <? 3 then "Developing"
  else if score <? 4 then "Proficient"
  else if score <? 4.5 then "Advanced"
  else "Exemplary".

(** Alias for formatScoreLevel. *)
Definition getScoreText : float -> string := formatScoreLevel.

(** [calculateScorePercentage(score, maxScore = 5)]: an absent second
    argument is [None]. *)
Definition calculateScorePercentage (score : float) (maxScore : option float) : float :=
  let maxScore := default 5 maxScore in
  Math_round ((score / maxScore) * 100).

(** Get appropriate color class based on score level. *)
Definition getScoreColorClass (score : float) : string :=
  if score <? 2 then "text-red-500"
  else if score <? 3 then "text-orange-500"
  else if score <? 4 then "text-blue-500"
  else "text-green-500".

(** Alias for getScoreColorClass. *)
Definition getScoreColor : float -> string := getScoreColorClass.

(** Get badge color class based on score. *)
Definition getScoreBadgeColor (score : float) : string :=
  if score <? 2 then "bg-red-100 text-red-800"
  else if score <? 3 then "bg-orange-100 text-orange-800"
  else if score <? 4 then "bg-blue-100 text-blue-800"
  else "bg-green-100 text-green-800".

(** The time intervals of [formatRelativeTime], in seconds, in the order
    [Object.entries] lists them. *)
Definition intervals : list (string * Z) :=
  [ ("year", 31536000); ("month", 2592000); ("week", 604800); ("day", 86400);
    ("hour", 3600); ("minute", 60); ("second", 1) ]%Z.

(** The numbers of [formatRelativeTime] are integers or NaN: [None] is
    NaN.  A comparison with NaN is false, and arithmetic on NaN gives NaN. *)
Definition lt_number (a : option Z) (b : Z) : bool :=
  match a with Some x => (x <? b)%Z | None => false end.

Definition ge_number (a : option Z) (b : Z) : bool :=
  match a with Some x => (b <=? x)%Z | None => false end.

(** [Math.floor(a / b)] for a positive integer [b]. *)
Definition floor_div (a : option Z) (b : Z) : option Z :=
  match a with Some x => Some (x / b)%Z | None => None end.

(** The loop over the intervals: the first unit of which the difference
    holds at least one, with the number of units; [None] when the loop runs
    out. *)
Fixpoint first_interval (seconds : option Z) (l : list (string * Z)) : option string :=
  match l with
  | [] => None
  | (unit, secondsInUnit) :: rest =>
      let interval := floor_div seconds secondsInUnit in
      if ge_number interval 1 then
        Some (match interval with
              | Some interval =>
                  if (interval =? 1)%Z then "1 " +:+ unit +:+ " ago"
                  else digits interval +:+ " " +:+ unit +:+ "s ago"
              | None => "NaN " +:+ unit +:+ "s ago"
              end)
      else first_interval seconds rest
  end.

(** [formatRelativeTime(date)]; [now] is what [new Date()] reads, a valid
    date.  [date] is the time value of the argument, an integer number of
    milliseconds, or [None] for NaN, the time value of an Invalid Date (what
    [new Date(s)] is of a string that is not a date,
    AssessmentResults.tsx:82).  The arithmetic on the differences is integer
    arithmetic ([Math.floor] of a quotient is the floor division), as it is
    in JavaScript for differences below 2^53. *)
Definition formatRelativeTime (now : Date) (date : option Z) : string :=
  let diff := match date with Some date => Some (now - date)%Z | None => None end in
  (* Convert time difference to seconds *)
  let seconds := floor_div diff 1000 in
  (* Handle future dates *)
  if lt_number seconds 0 then "in the future"
  (* Just now *)
  else if lt_number seconds 60 then "just now"
  else default "just now" (first_interval seconds intervals).

End FormatData.

(* ===================================================================== *)
(** * client/src/lib/utils/pdf-generator.ts *)
(* ===================================================================== *)
Module PdfGenerator.
Import JS.

(** ** The jsPDF document, as the calls made on it

    jsPDF and jspdf-autotable are third-party libraries.  A document is
    modelled by the drawing calls issued on it, each with the page that was
    current, and by the two things the code reads back from the library: the
    number of pages and the bottom of the last table. *)

Inductive Align := AlignLeft | AlignCenter | AlignRight.

Definition RGB : Type := Z * Z * Z.

Inductive Style :=
| FontStyle (s : string)
| FontSize (n : Z)
| Halign (a : Align)
| CellPadding (n : Z)
| TextColor (c : RGB)
| FillColor (c : RGB)
| CellWidth (w : string)
| MinCellHeight (n : Z).

Record Cell := { content : string; styles : list Style }.

(** A cell given as a bare string. *)
Definition cell (s : string) : Cell := {| content := s; styles := [] |}.

Record AutoTableOptions := {
  startY : float;
  tbl_head : list (list Cell);
  tbl_body : list (list Cell);
  theme : option string;
  tbl_styles : list Style;
  headStyles : list Style;
  columnStyles : list (nat * list Style)
}.

Inductive Op :=
| SetFillColor (r g b : Z)
| SetTextColor (r g b : Z)
| SetDrawColor (r g b : Z)
| SetFontSize (n : Z)
| Rect (x y w h : float) (style : string)
| Text (s : string) (x y : float) (align : option Align)
| Line (x1 y1 x2 y2 : float)
| AutoTable (o : AutoTableOptions)
| AddPage
| SetPage (i : nat)
| SaveAs (filename : string).

Record jsPDF := {
  ops : list (nat * Op);          (* (current page, call), oldest first *)
  page : nat;                     (* the current page, from 1 *)
  numberOfPages : nat;            (* doc.getNumberOfPages() *)
  lastAutoTable : option float    (* doc.lastAutoTable?.finalY *)
}.

(** [new jsPDF()]: one empty page. *)
Definition new_jsPDF : jsPDF :=
  {| ops := []; page := 1; numberOfPages := 1; lastAutoTable := None |}.

Definition draw (o : Op) (doc : jsPDF) : jsPDF :=
  {| ops := ops doc ++ [(page doc, o)]; page := page doc;
     numberOfPages := numberOfPages doc; lastAutoTable := lastAutoTable doc |}.

Definition doc_setFillColor (r g b : Z) := draw (SetFillColor r g b).
Definition doc_setTextColor (r g b : Z) := draw (SetTextColor r g b).
Definition doc_setDrawColor (r g b : Z) := draw (SetDrawColor r g b).
Definition doc_setFontSize (n : Z) := draw (SetFontSize n).
Definition doc_rect (x y w h : float) (style : string) := draw (Rect x y w h style).
Definition doc_text (s : string) (x y : float) (align : option Align) := draw (Text s x y align).
Definition doc_line (x1 y1 x2 y2 : float) := draw (Line x1 y1 x2 y2).
Definition doc_save (filename : string) := draw (SaveAs filename).

(** [doc.addPage()]: a new last page, which becomes the current one. *)
Definition doc_addPage (doc : jsPDF) : jsPDF :=
  {| ops := ops doc ++ [(page doc, AddPage)]; page := S (numberOfPages doc);
     numberOfPages := S (numberOfPages doc); lastAutoTable := lastAutoTable doc |}.

(** [doc.setPage(i)]: ignored when there is no page [i]. *)
Definition doc_setPage (i : nat) (doc : jsPDF) : jsPDF :=
  {| ops := ops doc ++ [(page doc, SetPage i)];
     page := if (1 <=? i)%nat && (i <=? numberOfPages doc)%nat then i else page doc;
     numberOfPages := numberOfPages doc; lastAutoTable := lastAutoTable doc |}.

(** Iteration as the sources write it. *)
Fixpoint forEach_from {A St : Type} (f : St -> A -> nat -> St) (index : nat) (l : list A) (s : St) : St :=
  match l with
  | [] => s
  | x :: l' => forEach_from f (S index) l' (f s x index)
  end.

(** [l.forEach((x, index) => ...)], threading the variables the body
    assigns to. *)
Definition forEach {A St : Type} (f : St -> A -> nat -> St) (l : list A) (s : St) : St :=
  forEach_from f 0 l s.

(** [for (let i = 1; i <= n; i++) ...]. *)
Definition for_1_to {St : Type} (n : nat) (f : St -> nat -> St) (s : St) : St :=
  fold_left f (seq 1 n) s.

(** ** The options of the two generators *)

Record Criterion := {
  name : string;
  description : option string;
  score : float;
  feedback : option string
}.

Record AssessmentPdfOptions := {
  studentName : string;
  assessorName : string;
  taskName : string;
  criteria : list Criterion;
  overallFeedback : option string;   (* defaults to the empty string *)
  totalScore : float;
  date : Date
}.

(** One element of [assessmentData: any[]], with the properties
    [generatePdf] reads: [a.student?.user?.fullName] and the like are [None]
    when a link of the chain is missing. *)
Record AssessmentData := {
  data_status : string;
  data_totalScore : float;
  data_student_fullName : option string;
  data_task_name : option string;
  data_assessor_fullName : option string;
  data_updatedAt : option Date
}.

Record PdfGenerationOptions := {
  title : string;
  period : option string;        (* defaults to "all time" *)
  schoolFilter : option string;  (* defaults to "all" *)
  classFilter : option string;   (* defaults to "all" *)
  assessmentData : list AssessmentData
}.

(** ** The two generators *)

Section Generators.
Local Open Scope float_scope.

(** What the environment and the libraries decide: the locale's date
    format, [Date.prototype.toISOString], the page size of the document, and
    jspdf-autotable's layout of a table on the document so far: the bottom
    [finalY] of the table and the number of pages it had to move on to. *)
Variable toLocaleDateString : Date -> string.
Variable toISOString : Date -> string.
Variable pageSize_width pageSize_height : float.
Variable autoTable_layout : jsPDF -> AutoTableOptions -> float * nat.

(** [autoTable(doc, o)]: the table is drawn from the current page on, moving
    to the next page, or adding one, each time it overflows. *)
Definition autoTable (o : AutoTableOptions) (doc : jsPDF) : jsPDF :=
  let '(finalY, moved) := autoTable_layout doc o in
  {| ops := ops doc ++ [(page doc, AutoTable o)];
     page := (page doc + moved)%nat;
     numberOfPages := Nat.max (numberOfPages doc) (page doc + moved)%nat;
     lastAutoTable := Some finalY |}.

(** Lines 122-127: the score level of one criterion. *)
Definition scoreLevel_of (score : float) : string :=
  let scoreLevel := "" in
  if score <? 2 then "Needs Improvement"
  else if score <? 3 then "Developing"
  else if score <? 4 then "Proficient"
  else if score <? 4.5 then "Advanced"
  else "Exemplary".

(** Lines 94-99: colour of the score bar. *)
Definition fillColor_of (scorePercentage : float) : RGB :=
  if scorePercentage <? 40 then (231, 76, 60)%Z
  else if scorePercentage <? 60 then (243, 156, 18)%Z
  else if scorePercentage <? 75 then (52, 152, 219)%Z
  else (46, 204, 113)%Z.

(** Lines 130-144: the title row of a criterion, with its score. *)
Definition criterion_title_table (fillColor : RGB) (finalY : float)
    (criterion : Criterion) (index : nat) : AutoTableOptions :=
  let scoreLevel := scoreLevel_of (score criterion) in
  {| startY := finalY;
     tbl_head := [[
       {| content := nat_toString (index + 1) +:+ ". " +:+ name criterion;
          styles := [Halign AlignLeft] |};
       {| content := Number_toString (score criterion) +:+ "/5 - " +:+ scoreLevel;
          styles := [Halign AlignRight] |} ]];
     tbl_body := [];
     theme := Some "striped";
     headStyles := [FillColor fillColor; TextColor (255, 255, 255)%Z; FontSize 11];
     tbl_styles := [CellPadding 4];
     columnStyles := [] |}.

(** Lines 151-159. *)
Definition criterion_description_table (finalY : float) (description : string)
  : AutoTableOptions :=
  {| startY := finalY;
     tbl_head := [];
     tbl_body := [[ {| content := description; styles := [] |} ]];
     theme := Some "plain";
     tbl_styles := [CellPadding 4; FontSize 9; TextColor (100, 100, 100)%Z];
     headStyles := [];
     columnStyles := [] |}.

(** Lines 166-180. *)
Definition criterion_feedback_table (finalY : float) (feedback : string) : AutoTableOptions :=
  {| startY := finalY;
     tbl_head := [[ {| content := "Feedback"; styles := [FontStyle "bold"; FontSize 10] |} ]];
     tbl_body := [[ {| content := feedback; styles := [] |} ]];
     theme := Some "plain";
     headStyles := [FillColor (245, 245, 245)%Z; TextColor (80, 80, 80)%Z];
     tbl_styles := [CellPadding 4; FontSize 10];
     columnStyles := [] |}.

(** Lines 120-193: the body of [criteria.forEach], on the variables it
    assigns to: the document and [finalY]. *)
Definition criterion_section (fillColor : RGB) (st : jsPDF * float)
    (criterion : Criterion) (index : nat) : jsPDF * float :=
  let '(doc, finalY) := st in
  (* Title with score *)
  let doc := autoTable (criterion_title_table fillColor finalY criterion index) doc in
  let finalY := or_else_undef (lastAutoTable doc) finalY in
  (* Add description if available *)
  let '(doc, finalY) :=
    match description criterion with
    | Some (String _ _ as d) =>
        let doc := autoTable (criterion_description_table finalY d) doc in
        (doc, or_else_undef (lastAutoTable doc) finalY)
    | _ => (doc, finalY)
    end in
  (* Add feedback if available *)
  let '(doc, finalY) :=
    match feedback criterion with
    | Some (String _ _ as fb) =>
        if trim_nonempty fb then
          let doc := autoTable (criterion_feedback_table finalY fb) doc in
          (doc, or_else_undef (lastAutoTable doc) finalY)
        else (doc, finalY)
    | _ => (doc, finalY)
    end in
  (* Add space between criteria *)
  let finalY := finalY + 10 in
  (* Check if we need a new page *)
  if 270 <? finalY then (doc_addPage doc, 20) else (doc, finalY).

(** Lines 218-230 (and 298-305): one footer per page. *)
Definition footer_text (now : Date) (i pageCount : nat) : string :=
  "Assessment Feedback Platform | Generated on " +:+ toLocaleDateString now
  +:+ " | Page " +:+ nat_toString i +:+ " of " +:+ nat_toString pageCount.

Definition preview_footer (now : Date) (pageCount : nat) (doc : jsPDF) (i : nat) : jsPDF :=
  let doc := doc_setPage i doc in
  let doc := doc_setFontSize 9 doc in
  let doc := doc_setTextColor 150 150 150 doc in
  doc_text (footer_text now i pageCount) 105 285 (Some AlignCenter) doc.

(** Lines 86-87. *)
Definition validTotalScore_of (totalScore : float) : float :=
  if Number_isFinite totalScore then totalScore else 0.

(** Lines 84-88: the score percentage of the preview. *)
Definition scorePercentage_of (criteria : list Criterion) (totalScore : float) : float :=
  let maxScore := 5 in
  let maxTotalScore := Number_of_nat (length criteria) * maxScore in
  let validTotalScore := validTotalScore_of totalScore in
  Math_round ((validTotalScore / maxTotalScore) * 100).

(** Line 107: the text under the score bar. *)
Definition score_line (criteria : list Criterion) (totalScore : float) : string :=
  toFixed 1 totalScore +:+ " / " +:+ Number_toString (Number_of_nat (length criteria) * 5)
  +:+ " (" +:+ Number_toString (scorePercentage_of criteria totalScore) +:+ "%)".

(** [generatePDFPreview(options)], block by block as the source comments
    them.  Lines 43-51: the header band. *)
Definition preview_header (doc : jsPDF) : jsPDF :=
  let doc := doc_setFillColor 41 128 185 doc in
  let doc := doc_rect 0 0 210 15 "F" doc in
  let doc := doc_setTextColor 255 255 255 doc in
  let doc := doc_setFontSize 18 doc in
  let doc := doc_text "Assessment Feedback Report" 105 10 (Some AlignCenter) doc in
  doc_setTextColor 0 0 0 doc.

(** Lines 61-73: the table of the assessment details.  [date] is a [Date]
    (the branch for a date given as a string or a number is not modelled). *)
Definition details_table (options : AssessmentPdfOptions) : AutoTableOptions :=
  {| startY := 32;
     tbl_head := [];
     tbl_body := [
       [ {| content := "Student:"; styles := [FontStyle "bold"] |}; cell (studentName options) ];
       [ {| content := "Task:"; styles := [FontStyle "bold"] |}; cell (taskName options) ];
       [ {| content := "Assessor:"; styles := [FontStyle "bold"] |};
         cell (assessorName options) ];
       [ {| content := "Date:"; styles := [FontStyle "bold"] |};
         cell (toLocaleDateString (date options)) ] ];
     theme := Some "plain";
     tbl_styles := [CellPadding 2];
     headStyles := [];
     columnStyles := [(0%nat, [CellWidth "30"])] |}.

(** Lines 53-73: the assessment details. *)
Definition preview_details (options : AssessmentPdfOptions) (doc : jsPDF) : jsPDF :=
  let doc := doc_setFontSize 14 doc in
  let doc := doc_text "Assessment Details" 14 25 None doc in
  let doc := doc_setDrawColor 220 220 220 doc in
  let doc := doc_line 14 28 196 28 doc in
  autoTable (details_table options) doc.

(** Lines 75-107: the score summary; it leaves [finalY] and [fillColor] to
    the blocks below. *)
Definition preview_score (options : AssessmentPdfOptions) (doc : jsPDF)
  : jsPDF * float * RGB :=
  let criteria := criteria options in
  let totalScore := totalScore options in
  let finalY := or_else_undef (lastAutoTable doc) 60 in
  let doc := doc_setFontSize 14 doc in
  let doc := doc_text "Score Summary" 14 (finalY + 15) None doc in
  let doc := doc_setDrawColor 220 220 220 doc in
  let doc := doc_line 14 (finalY + 18) 196 (finalY + 18) doc in
  (* Calculate score percentage and max score *)
  let maxScore := 5 in
  let maxTotalScore := Number_of_nat (length criteria) * maxScore in
  let validTotalScore := if Number_isFinite totalScore then totalScore else 0 in
  let scorePercentage := Math_round ((validTotalScore / maxTotalScore) * 100) in
  (* Add score visualization *)
  let doc := doc_setFillColor 220 220 220 doc in
  let doc := doc_rect 14 (finalY + 25) 182 8 "F" doc in
  let fillColor := fillColor_of scorePercentage in
  let doc := doc_setFillColor fillColor.1.1 fillColor.1.2 fillColor.2 doc in
  let progressWidth := 182 * (scorePercentage / 100) in
  let doc := doc_rect 14 (finalY + 25) progressWidth 8 "F" doc in
  (* Add score information *)
  let doc := doc_setFontSize 12 doc in
  let doc := doc_text (toFixed 1 totalScore +:+ " / " +:+ Number_toString maxTotalScore
                       +:+ " (" +:+ Number_toString scorePercentage +:+ "%)")
               196 (finalY + 40) (Some AlignRight) doc in
  (doc, finalY, fillColor).

(** Lines 109-193: the criteria. *)
Definition preview_criteria (options : AssessmentPdfOptions) (fillColor : RGB)
    (doc : jsPDF) (finalY : float) : jsPDF * float :=
  let finalY := finalY + 50 in
  let doc := doc_setFontSize 14 doc in
  let doc := doc_text "Detailed Criterion Feedback" 14 finalY None doc in
  let doc := doc_setDrawColor 220 220 220 doc in
  let doc := doc_line 14 (finalY + 3) 196 (finalY + 3) doc in
  let finalY := finalY + 10 in
  forEach (criterion_section fillColor) (criteria options) (doc, finalY).

(** Lines 202-215. *)
Definition overall_table (finalY : float) (overallFeedback : string) : AutoTableOptions :=
  {| startY := finalY + 8;
     tbl_head := [];
     tbl_body := [[ {| content := overallFeedback; styles := [] |} ]];
     theme := Some "plain";
     tbl_styles := [CellPadding 5; FontSize 10; CellWidth "auto"; MinCellHeight 10];
     headStyles := [];
     columnStyles := [] |}.

(** Lines 195-216: the overall feedback, when there is some. *)
Definition preview_overall (options : AssessmentPdfOptions) (doc : jsPDF) (finalY : float)
  : jsPDF :=
  let overallFeedback := default "" (overallFeedback options) in
  if trim_nonempty overallFeedback then
    let doc := doc_setFontSize 14 doc in
    let doc := doc_text "Overall Feedback" 14 finalY None doc in
    let doc := doc_setDrawColor 220 220 220 doc in
    let doc := doc_line 14 (finalY + 3) 196 (finalY + 3) doc in
    autoTable (overall_table finalY overallFeedback) doc
  else doc.

(** Lines 218-230: the footers. *)
Definition preview_footers (now : Date) (doc : jsPDF) : jsPDF :=
  let pageCount := numberOfPages doc in
  for_1_to pageCount (preview_footer now pageCount) doc.

(** [generatePDFPreview(options)]; [now] is what [new Date()] reads.  The
    result is the document that [doc.output('blob')] serialises. *)
Definition generatePDFPreview (now : Date) (options : AssessmentPdfOptions) : jsPDF :=
  let doc := new_jsPDF in
  let doc := preview_header doc in
  let doc := preview_details options doc in
  let '(doc, finalY, fillColor) := preview_score options doc in
  let '(doc, finalY) := preview_criteria options fillColor doc finalY in
  let doc := preview_overall options doc finalY in
  preview_footers now doc.

(** [n || d] on a count (a non-negative integer): zero is falsy. *)
Definition count_or_else (n d : nat) : nat :=
  match n with
  | O => d
  | _ => n
  end.

Definition completed (a : AssessmentData) : Prop := data_status a = "completed".

#[global] Instance completed_dec a : Decision (completed a).
Proof. unfold completed. apply _. Defined.

(** Lines 258-262 of [generatePdf]. *)
Definition completedAssessments_of (assessmentData : list AssessmentData) : nat :=
  length (filter completed assessmentData).

Definition averageScore_of (assessmentData : list AssessmentData) : float :=
  fold_left (fun acc curr => acc + data_totalScore curr) (filter completed assessmentData) 0
  / Number_of_nat (count_or_else (completedAssessments_of assessmentData) 1).

(** Line 271: the number printed as the completion rate. *)
Definition completionRate_of (assessmentData : list AssessmentData) : float :=
  let completedAssessments := completedAssessments_of assessmentData in
  let totalAssessments := length assessmentData in
  or_else (Math_round ((Number_of_nat completedAssessments / Number_of_nat totalAssessments) * 100)) 0.

(** Lines 283-290: one row of the details table. *)
Definition assessmentTableRow (assessment : AssessmentData) : list Cell :=
  [ cell (or_else_str (data_student_fullName assessment) "Unknown");
    cell (or_else_str (data_task_name assessment) "Unknown");
    cell (or_else_str (data_assessor_fullName assessment) "Unknown");
    cell (if decide (completed assessment) then "Completed" else "Draft");
    cell (if decide (completed assessment)
          then toFixed 1 (data_totalScore assessment) +:+ "/5" else "N/A");
    cell (match data_updatedAt assessment with
          | Some d => toLocaleDateString d
          | None => "N/A"
          end) ].

Definition report_footer (pageCount : nat) (doc : jsPDF) (i : nat) : jsPDF :=
  let doc := doc_setPage i doc in
  let doc := doc_setFontSize 10 doc in
  doc_text ("Page " +:+ nat_toString i +:+ " of " +:+ nat_toString pageCount)
    (pageSize_width / 2) (pageSize_height - 10) (Some AlignCenter) doc.

(** [generatePdf(options)], block by block.  Lines 243-256: the title and
    the report details. *)
Definition report_title (now : Date) (options : PdfGenerationOptions) (doc : jsPDF) : jsPDF :=
  let period := default "all time" (period options) in
  let schoolFilter := default "all" (schoolFilter options) in
  let classFilter := default "all" (classFilter options) in
  let doc := doc_setFontSize 20 doc in
  let doc := doc_text (title options) 14 22 None doc in
  let doc := doc_setFontSize 10 doc in
  let doc := doc_text ("Generated on: " +:+ toLocaleDateString now) 14 32 None doc in
  let doc := doc_text ("Period: " +:+ period) 14 38 None doc in
  let doc := doc_text ("School Filter: " +:+ schoolFilter) 14 44 None doc in
  let doc := doc_text ("Class Filter: " +:+ classFilter) 14 50 None doc in
  let doc := doc_setFontSize 14 doc in
  doc_text "Assessment Summary" 14 60 None doc.

(** Lines 258-274: the summary table. *)
Definition summary_table (assessmentData : list AssessmentData) : AutoTableOptions :=
  let completedAssessments := length (filter completed assessmentData) in
  let totalAssessments := length assessmentData in
  let averageScore :=
    fold_left (fun acc curr => acc + data_totalScore curr) (filter completed assessmentData) 0
    / Number_of_nat (count_or_else completedAssessments 1) in
  {| startY := 65;
     tbl_head := [[ cell "Metric"; cell "Value" ]];
     tbl_body := [
       [ cell "Total Assessments"; cell (nat_toString totalAssessments) ];
       [ cell "Completed Assessments"; cell (nat_toString completedAssessments) ];
       [ cell "Completion Rate";
         cell (Number_toString
                 (or_else (Math_round ((Number_of_nat completedAssessments
                                        / Number_of_nat totalAssessments) * 100)) 0)
               +:+ "%") ];
       [ cell "Average Score";
         cell (or_else_str (Some (toFixed 2 averageScore)) "0" +:+ "/5") ] ];
     theme := None;
     tbl_styles := [];
     headStyles := [];
     columnStyles := [] |}.

(** Lines 276-296: the details table. *)
Definition report_details (assessmentData : list AssessmentData) (doc : jsPDF) : jsPDF :=
  let doc := doc_setFontSize 14 doc in
  let lastTableY := or_else_undef (lastAutoTable doc) 100 in
  let doc := doc_text "Assessment Details" 14 (lastTableY + 15) None doc in
  let assessmentTableData := map assessmentTableRow assessmentData in
  autoTable {|
    startY := or_else (match lastAutoTable doc with
                       | Some y => y + 20
                       | None => nan
                       end) 120;
    tbl_head := [[ cell "Student"; cell "Task"; cell "Assessor"; cell "Status";
                   cell "Score"; cell "Last Updated" ]];
    tbl_body := assessmentTableData;
    theme := None;
    tbl_styles := [];
    headStyles := [];
    columnStyles := [] |} doc.

(** [generatePdf(options)]: the file name it returns and the document it
    saves under that name. *)
Definition generatePdf (now : Date) (options : PdfGenerationOptions) : string * jsPDF :=
  let doc := new_jsPDF in
  let doc := report_title now options doc in
  let doc := autoTable (summary_table (assessmentData options)) doc in
  let doc := report_details (assessmentData options) doc in
  (* Add page number at the bottom *)
  let pageCount := numberOfPages doc in
  let doc := for_1_to pageCount (report_footer pageCount) doc in
  (* Save PDF with a filename *)
  let filename := replace_spaces "_" false (title options) +:+ "_"
                  +:+ before_T (toISOString now) +:+ ".pdf" in
  let doc := doc_save filename doc in
  (filename, doc).

End Generators.

End PdfGenerator.

(* ===================================================================== *)
(** * shared/schema.ts: the entities and their insert types *)
(* ===================================================================== *)
Module Schema.

Inductive Role := role_admin | role_assessor | role_student.
Inductive AssessmentStatus := status_draft | status_completed.

(** The enum values as the strings they are at run time. *)
Definition AssessmentStatus_name (s : AssessmentStatus) : string :=
  match s with
  | status_draft => "draft"
  | status_completed => "completed"
  end.

(** A [jsonb] column. *)
Inductive Json :=
| JNull
| JBool (b : bool)
| JNumber (x : float)
| JString (s : string)
| JArray (l : list Json)
| JObject (fields : list (string * Json)).

(** A nullable column holds [None] for [null] (and for an absent value). *)

Record User := {
  user_id : Z;
  user_username : string;
  user_password : string;
  user_email : string;
  user_fullName : string;
  user_role : Role;
  user_createdAt : Date
}.

Record InsertUser := {
  insertUser_username : string;
  insertUser_password : string;
  insertUser_email : string;
  insertUser_fullName : string;
  insertUser_role : Role
}.

Record School := {
  school_id : Z;
  school_name : string;
  school_address : option string;
  school_createdAt : Date
}.

Record InsertSchool := {
  insertSchool_name : string;
  insertSchool_address : option string
}.

Record Class := {
  class_id : Z;
  class_name : string;
  class_schoolId : Z;
  class_createdAt : Date
}.

Record InsertClass := {
  insertClass_name : string;
  insertClass_schoolId : Z
}.

Record Student := {
  student_id : Z;
  student_userId : Z;
  student_classId : Z;
  student_createdAt : Date
}.

Record InsertStudent := {
  insertStudent_userId : Z;
  insertStudent_classId : Z
}.

Record Assessor := {
  assessor_id : Z;
  assessor_userId : Z;
  assessor_schoolIds : list Z;
  assessor_createdAt : Date
}.

Record InsertAssessor := {
  insertAssessor_userId : Z;
  insertAssessor_schoolIds : list Z
}.

Record RubricTemplate := {
  rubricTemplate_id : Z;
  rubricTemplate_name : string;
  rubricTemplate_description : option string;
  rubricTemplate_criteria : Json;
  rubricTemplate_createdAt : Date
}.

Record InsertRubricTemplate := {
  insertRubricTemplate_name : string;
  insertRubricTemplate_description : option string;
  insertRubricTemplate_criteria : Json
}.

Record Task := {
  task_id : Z;
  task_name : string;
  task_description : option string;
  task_rubricTemplateId : Z;
  task_createdAt : Date
}.

Record InsertTask := {
  insertTask_name : string;
  insertTask_description : option string;
  insertTask_rubricTemplateId : Z
}.

Record ClassTask := {
  classTask_id : Z;
  classTask_classId : Z;
  classTask_taskId : Z;
  classTask_createdAt : Date
}.

Record InsertClassTask := {
  insertClassTask_classId : Z;
  insertClassTask_taskId : Z
}.

(** [status] has a database default, so an insert may leave it out; the
    in-memory store applies no default and the record then has none. *)
Record Assessment := {
  assessment_id : Z;
  assessment_studentId : Z;
  assessment_assessorId : Z;
  assessment_taskId : Z;
  assessment_status : option AssessmentStatus;
  assessment_scores : Json;
  assessment_totalScore : float;
  assessment_feedback : option string;
  assessment_pdfPath : option string;
  assessment_createdAt : Date;
  assessment_updatedAt : Date
}.

Record InsertAssessment := {
  insertAssessment_studentId : Z;
  insertAssessment_assessorId : Z;
  insertAssessment_taskId : Z;
  insertAssessment_status : option AssessmentStatus;
  insertAssessment_scores : Json;
  insertAssessment_totalScore : float;
  insertAssessment_feedback : option string;
  insertAssessment_pdfPath : option string
}.

(** ** [Partial<InsertX>]: a field is [None] when the update does not
    supply it; a supplied nullable field is [Some None] for [null]. *)

Record PartialInsertSchool := {
  partialSchool_name : option string;
  partialSchool_address : option (option string)
}.

Record PartialInsertClass := {
  partialClass_name : option string;
  partialClass_schoolId : option Z
}.

Record PartialInsertStudent := {
  partialStudent_userId : option Z;
  partialStudent_classId : option Z
}.

Record PartialInsertAssessor := {
  partialAssessor_userId : option Z;
  partialAssessor_schoolIds : option (list Z)
}.

Record PartialInsertRubricTemplate := {
  partialRubricTemplate_name : option string;
  partialRubricTemplate_description : option (option string);
  partialRubricTemplate_criteria : option Json
}.

Record PartialInsertTask := {
  partialTask_name : option string;
  partialTask_description : option (option string);
  partialTask_rubricTemplateId : option Z
}.

Record PartialInsertAssessment := {
  partialAssessment_studentId : option Z;
  partialAssessment_assessorId : option Z;
  partialAssessment_taskId : option Z;
  partialAssessment_status : option AssessmentStatus;
  partialAssessment_scores : option Json;
  partialAssessment_totalScore : option float;
  partialAssessment_feedback : option (option string);
  partialAssessment_pdfPath : option (option string)
}.

(** ** Extended types *)

Record StudentWithUser := { swu_student : Student; swu_user : User }.
Record AssessorWithUser := { awu_assessor : Assessor; awu_user : User }.
Record TaskWithRubric := { twr_task : Task; twr_rubricTemplate : RubricTemplate }.

Record AssessmentWithRelations := {
  awr_assessment : Assessment;
  awr_student : StudentWithUser;
  awr_assessor : AssessorWithUser;
  awr_task : TaskWithRubric
}.

(** [ClassWithRelations].  The store fills [user] and [task] with what the
    lookups return ([user!], [task!]), which may be nothing. *)
Record ClassWithRelations := {
  cwr_class : Class;
  cwr_school : School;
  cwr_students : list (Student * option User);
  cwr_classTasks : list (ClassTask * option Task)
}.

#[global] Instance Role_eq_dec : EqDecision Role.
Proof. solve_decision. Defined.

#[global] Instance AssessmentStatus_eq_dec : EqDecision AssessmentStatus.
Proof. solve_decision. Defined.

End Schema.

(* ===================================================================== *)
(** * server/storage.ts: [MemStorage] *)
(* ===================================================================== *)
Module Storage.
Import Schema.
Local Open Scope Z_scope.

(** The nine [Map<number, X>] and the nine id counters.  Keys are the
    integers the counters hand out. *)
Record MemStorage := {
  users : gmap Z User;
  schools : gmap Z School;
  classes : gmap Z Class;
  students : gmap Z Student;
  assessors : gmap Z Assessor;
  rubricTemplates : gmap Z RubricTemplate;
  tasks : gmap Z Task;
  classTasks : gmap Z ClassTask;
  assessments : gmap Z Assessment;
  userId : Z;
  schoolId : Z;
  classId : Z;
  studentId : Z;
  assessorId : Z;
  rubricTemplateId : Z;
  taskId : Z;
  classTaskId : Z;
  assessmentId : Z
}.

(** Assignments to one member of [this]. *)
Definition set_users (m : gmap Z User) (n : Z) (s : MemStorage) : MemStorage :=
  {| users := m; schools := schools s; classes := classes s; students := students s;
     assessors := assessors s; rubricTemplates := rubricTemplates s; tasks := tasks s;
     classTasks := classTasks s; assessments := assessments s;
     userId := n; schoolId := schoolId s; classId := classId s; studentId := studentId s;
     assessorId := assessorId s; rubricTemplateId := rubricTemplateId s; taskId := taskId s;
     classTaskId := classTaskId s; assessmentId := assessmentId s |}.

Definition set_schools (m : gmap Z School) (n : Z) (s : MemStorage) : MemStorage :=
  {| users := users s; schools := m; classes := classes s; students := students s;
     assessors := assessors s; rubricTemplates := rubricTemplates s; tasks := tasks s;
     classTasks := classTasks s; assessments := assessments s;
     userId := userId s; schoolId := n; classId := classId s; studentId := studentId s;
     assessorId := assessorId s; rubricTemplateId := rubricTemplateId s; taskId := taskId s;
     classTaskId := classTaskId s; assessmentId := assessmentId s |}.

Definition set_classes (m : gmap Z Class) (n : Z) (s : MemStorage) : MemStorage :=
  {| users := users s; schools := schools s; classes := m; students := students s;
     assessors := assessors s; rubricTemplates := rubricTemplates s; tasks := tasks s;
     classTasks := classTasks s; assessments := assessments s;
     userId := userId s; schoolId := schoolId s; classId := n; studentId := studentId s;
     assessorId := assessorId s; rubricTemplateId := rubricTemplateId s; taskId := taskId s;
     classTaskId := classTaskId s; assessmentId := assessmentId s |}.

Definition set_students (m : gmap Z Student) (n : Z) (s : MemStorage) : MemStorage :=
  {| users := users s; schools := schools s; classes := classes s; students := m;
     assessors := assessors s; rubricTemplates := rubricTemplates s; tasks := tasks s;
     classTasks := classTasks s; assessments := assessments s;
     userId := userId s; schoolId := schoolId s; classId := classId s; studentId := n;
     assessorId := assessorId s; rubricTemplateId := rubricTemplateId s; taskId := taskId s;
     classTaskId := classTaskId s; assessmentId := assessmentId s |}.

Definition set_assessors (m : gmap Z Assessor) (n : Z) (s : MemStorage) : MemStorage :=
  {| users := users s; schools := schools s; classes := classes s; students := students s;
     assessors := m; rubricTemplates := rubricTemplates s; tasks := tasks s;
     classTasks := classTasks s; assessments := assessments s;
     userId := userId s; schoolId := schoolId s; classId := classId s; studentId := studentId s;
     assessorId := n; rubricTemplateId := rubricTemplateId s; taskId := taskId s;
     classTaskId := classTaskId s; assessmentId := assessmentId s |}.

Definition set_rubricTemplates (m : gmap Z RubricTemplate) (n : Z) (s : MemStorage) : MemStorage :=
  {| users := users s; schools := schools s; classes := classes s; students := students s;
     assessors := assessors s; rubricTemplates := m; tasks := tasks s;
     classTasks := classTasks s; assessments := assessments s;
     userId := userId s; schoolId := schoolId s; classId := classId s; studentId := studentId s;
     assessorId := assessorId s; rubricTemplateId := n; taskId := taskId s;
     classTaskId := classTaskId s; assessmentId := assessmentId s |}.

Definition set_tasks (m : gmap Z Task) (n : Z) (s : MemStorage) : MemStorage :=
  {| users := users s; schools := schools s; classes := classes s; students := students s;
     assessors := assessors s; rubricTemplates := rubricTemplates s; tasks := m;
     classTasks := classTasks s; assessments := assessments s;
     userId := userId s; schoolId := schoolId s; classId := classId s; studentId := studentId s;
     assessorId := assessorId s; rubricTemplateId := rubricTemplateId s; taskId := n;
     classTaskId := classTaskId s; assessmentId := assessmentId s |}.

Definition set_classTasks (m : gmap Z ClassTask) (n : Z) (s : MemStorage) : MemStorage :=
  {| users := users s; schools := schools s; classes := classes s; students := students s;
     assessors := assessors s; rubricTemplates := rubricTemplates s; tasks := tasks s;
     classTasks := m; assessments := assessments s;
     userId := userId s; schoolId := schoolId s; classId := classId s; studentId := studentId s;
     assessorId := assessorId s; rubricTemplateId := rubricTemplateId s; taskId := taskId s;
     classTaskId := n; assessmentId := assessmentId s |}.

Definition set_assessments (m : gmap Z Assessment) (n : Z) (s : MemStorage) : MemStorage :=
  {| users := users s; schools := schools s; classes := classes s; students := students s;
     assessors := assessors s; rubricTemplates := rubricTemplates s; tasks := tasks s;
     classTasks := classTasks s; assessments := m;
     userId := userId s; schoolId := schoolId s; classId := classId s; studentId := studentId s;
     assessorId := assessorId s; rubricTemplateId := rubricTemplateId s; taskId := taskId s;
     classTaskId := classTaskId s; assessmentId := n |}.

(** [Array.from(map.values())].  The listing is the map's enumeration; what
    is proved of it below does not depend on its order. *)
Definition values {A : Type} (m : gmap Z A) : list A := (map_to_list m).*2.

(** [map.delete(k)]: whether the key was there, and the map without it. *)
Definition Map_delete {A : Type} (k : Z) (m : gmap Z A) : bool * gmap Z A :=
  (bool_decide (is_Some (m !! k)), delete k m).

(** ** User operations.  [now] is what [new Date()] reads. *)

Definition getUser (id : Z) (s : MemStorage) : option User := users s !! id.

Definition getUserByUsername (username : string) (s : MemStorage) : option User :=
  List.find (fun user => bool_decide (user_username user = username)) (values (users s)).

Definition createUser (now : Date) (user : InsertUser) (s : MemStorage) : User * MemStorage :=
  let id := userId s in
  let newUser := {|
    user_id := id;
    user_username := insertUser_username user;
    user_password := insertUser_password user;
    user_email := insertUser_email user;
    user_fullName := insertUser_fullName user;
    user_role := insertUser_role user;
    user_createdAt := now |} in
  (newUser, set_users (<[id := newUser]> (users s)) (id + 1) s).

(** ** School operations *)

Definition getSchool (id : Z) (s : MemStorage) : option School := schools s !! id.

Definition getSchools (s : MemStorage) : list School := values (schools s).

Definition createSchool (now : Date) (school : InsertSchool) (s : MemStorage) : School * MemStorage :=
  let id := schoolId s in
  let newSchool := {|
    school_id := id;
    school_name := insertSchool_name school;
    school_address := insertSchool_address school;
    school_createdAt := now |} in
  (newSchool, set_schools (<[id := newSchool]> (schools s)) (id + 1) s).

(** [{ ...existingSchool, ...school }] *)
Definition spread_school (existing : School) (school : PartialInsertSchool) : School :=
  {| school_id := school_id existing;
     school_name := default (school_name existing) (partialSchool_name school);
     school_address := default (school_address existing) (partialSchool_address school);
     school_createdAt := school_createdAt existing |}.

Definition updateSchool (id : Z) (school : PartialInsertSchool) (s : MemStorage)
  : option School * MemStorage :=
  match schools s !! id with
  | None => (None, s)
  | Some existingSchool =>
      let updatedSchool := spread_school existingSchool school in
      (Some updatedSchool, set_schools (<[id := updatedSchool]> (schools s)) (schoolId s) s)
  end.

Definition deleteSchool (id : Z) (s : MemStorage) : bool * MemStorage :=
  let '(found, m) := Map_delete id (schools s) in
  (found, set_schools m (schoolId s) s).

(** ** Class operations *)

Definition getClass (id : Z) (s : MemStorage) : option Class := classes s !! id.

Definition createClass (now : Date) (cls : InsertClass) (s : MemStorage) : Class * MemStorage :=
  let id := classId s in
  let newClass := {|
    class_id := id;
    class_name := insertClass_name cls;
    class_schoolId := insertClass_schoolId cls;
    class_createdAt := now |} in
  (newClass, set_classes (<[id := newClass]> (classes s)) (id + 1) s).

Definition spread_class (existing : Class) (cls : PartialInsertClass) : Class :=
  {| class_id := class_id existing;
     class_name := default (class_name existing) (partialClass_name cls);
     class_schoolId := default (class_schoolId existing) (partialClass_schoolId cls);
     class_createdAt := class_createdAt existing |}.

Definition updateClass (id : Z) (cls : PartialInsertClass) (s : MemStorage)
  : option Class * MemStorage :=
  match classes s !! id with
  | None => (None, s)
  | Some existingClass =>
      let updatedClass := spread_class existingClass cls in
      (Some updatedClass, set_classes (<[id := updatedClass]> (classes s)) (classId s) s)
  end.

Definition deleteClass (id : Z) (s : MemStorage) : bool * MemStorage :=
  let '(found, m) := Map_delete id (classes s) in
  (found, set_classes m (classId s) s).

(** ** Student operations *)

Definition getStudent (id : Z) (s : MemStorage) : option Student := students s !! id.

Definition with_role (userData : InsertUser) (role : Role) : InsertUser :=
  {| insertUser_username := insertUser_username userData;
     insertUser_password := insertUser_password userData;
     insertUser_email := insertUser_email userData;
     insertUser_fullName := insertUser_fullName userData;
     insertUser_role := role |}.

Definition createStudent (now : Date) (student : InsertStudent) (userData : InsertUser)
    (s : MemStorage) : Student * MemStorage :=
  (* First create the user *)
  let userWithRole := with_role userData role_student in
  let '(user, s) := createUser now userWithRole s in
  (* Then create the student *)
  let id := studentId s in
  let newStudent := {|
    student_id := id;
    student_userId := user_id user;
    student_classId := insertStudent_classId student;
    student_createdAt := now |} in
  (newStudent, set_students (<[id := newStudent]> (students s)) (id + 1) s).

Definition spread_student (existing : Student) (student : PartialInsertStudent) : Student :=
  {| student_id := student_id existing;
     student_userId := default (student_userId existing) (partialStudent_userId student);
     student_classId := default (student_classId existing) (partialStudent_classId student);
     student_createdAt := student_createdAt existing |}.

Definition updateStudent (id : Z) (student : PartialInsertStudent) (s : MemStorage)
  : option Student * MemStorage :=
  match students s !! id with
  | None => (None, s)
  | Some existingStudent =>
      let updatedStudent := spread_student existingStudent student in
      (Some updatedStudent, set_students (<[id := updatedStudent]> (students s)) (studentId s) s)
  end.

Definition deleteStudent (id : Z) (s : MemStorage) : bool * MemStorage :=
  let student := students s !! id in
  let s :=
    match student with
    | Some student => set_users (delete (student_userId student) (users s)) (userId s) s
    | None => s
    end in
  let '(found, m) := Map_delete id (students s) in
  (found, set_students m (studentId s) s).

Definition getStudentByUserId (userId : Z) (s : MemStorage) : option Student :=
  List.find (fun student => bool_decide (student_userId student = userId)) (values (students s)).

(** ** Assessor operations *)

Definition getAssessor (id : Z) (s : MemStorage) : option Assessor := assessors s !! id.

Definition createAssessor (now : Date) (assessor : InsertAssessor) (userData : InsertUser)
    (s : MemStorage) : Assessor * MemStorage :=
  (* First create the user *)
  let userWithRole := with_role userData role_assessor in
  let '(user, s) := createUser now userWithRole s in
  (* Then create the assessor *)
  let id := assessorId s in
  let newAssessor := {|
    assessor_id := id;
    assessor_userId := user_id user;
    assessor_schoolIds := insertAssessor_schoolIds assessor;
    assessor_createdAt := now |} in
  (newAssessor, set_assessors (<[id := newAssessor]> (assessors s)) (id + 1) s).

Definition spread_assessor (existing : Assessor) (assessor : PartialInsertAssessor) : Assessor :=
  {| assessor_id := assessor_id existing;
     assessor_userId := default (assessor_userId existing) (partialAssessor_userId assessor);
     assessor_schoolIds :=
       default (assessor_schoolIds existing) (partialAssessor_schoolIds assessor);
     assessor_createdAt := assessor_createdAt existing |}.

Definition updateAssessor (id : Z) (assessor : PartialInsertAssessor) (s : MemStorage)
  : option Assessor * MemStorage :=
  match assessors s !! id with
  | None => (None, s)
  | Some existingAssessor =>
      let updatedAssessor := spread_assessor existingAssessor assessor in
      (Some updatedAssessor,
       set_assessors (<[id := updatedAssessor]> (assessors s)) (assessorId s) s)
  end.

Definition deleteAssessor (id : Z) (s : MemStorage) : bool * MemStorage :=
  let assessor := assessors s !! id in
  let s :=
    match assessor with
    | Some assessor => set_users (delete (assessor_userId assessor) (users s)) (userId s) s
    | None => s
    end in
  let '(found, m) := Map_delete id (assessors s) in
  (found, set_assessors m (assessorId s) s).

(** ** Rubric template operations *)

Definition getRubricTemplate (id : Z) (s : MemStorage) : option RubricTemplate :=
  rubricTemplates s !! id.

Definition createRubricTemplate (now : Date) (template : InsertRubricTemplate) (s : MemStorage)
  : RubricTemplate * MemStorage :=
  let id := rubricTemplateId s in
  let newTemplate := {|
    rubricTemplate_id := id;
    rubricTemplate_name := insertRubricTemplate_name template;
    rubricTemplate_description := insertRubricTemplate_description template;
    rubricTemplate_criteria := insertRubricTemplate_criteria template;
    rubricTemplate_createdAt := now |} in
  (newTemplate, set_rubricTemplates (<[id := newTemplate]> (rubricTemplates s)) (id + 1) s).

Definition spread_rubricTemplate (existing : RubricTemplate)
    (template : PartialInsertRubricTemplate) : RubricTemplate :=
  {| rubricTemplate_id := rubricTemplate_id existing;
     rubricTemplate_name :=
       default (rubricTemplate_name existing) (partialRubricTemplate_name template);
     rubricTemplate_description :=
       default (rubricTemplate_description existing) (partialRubricTemplate_description template);
     rubricTemplate_criteria :=
       default (rubricTemplate_criteria existing) (partialRubricTemplate_criteria template);
     rubricTemplate_createdAt := rubricTemplate_createdAt existing |}.

Definition updateRubricTemplate (id : Z) (template : PartialInsertRubricTemplate)
    (s : MemStorage) : option RubricTemplate * MemStorage :=
  match rubricTemplates s !! id with
  | None => (None, s)
  | Some existingTemplate =>
      let updatedTemplate := spread_rubricTemplate existingTemplate template in
      (Some updatedTemplate,
       set_rubricTemplates (<[id := updatedTemplate]> (rubricTemplates s)) (rubricTemplateId s) s)
  end.

Definition deleteRubricTemplate (id : Z) (s : MemStorage) : bool * MemStorage :=
  let '(found, m) := Map_delete id (rubricTemplates s) in
  (found, set_rubricTemplates m (rubricTemplateId s) s).

(** ** Task operations *)

Definition getTask (id : Z) (s : MemStorage) : option Task := tasks s !! id.

Definition createTask (now : Date) (task : InsertTask) (s : MemStorage) : Task * MemStorage :=
  let id := taskId s in
  let newTask := {|
    task_id := id;
    task_name := insertTask_name task;
    task_description := insertTask_description task;
    task_rubricTemplateId := insertTask_rubricTemplateId task;
    task_createdAt := now |} in
  (newTask, set_tasks (<[id := newTask]> (tasks s)) (id + 1) s).

Definition spread_task (existing : Task) (task : PartialInsertTask) : Task :=
  {| task_id := task_id existing;
     task_name := default (task_name existing) (partialTask_name task);
     task_description := default (task_description existing) (partialTask_description task);
     task_rubricTemplateId :=
       default (task_rubricTemplateId existing) (partialTask_rubricTemplateId task);
     task_createdAt := task_createdAt existing |}.

Definition updateTask (id : Z) (task : PartialInsertTask) (s : MemStorage)
  : option Task * MemStorage :=
  match tasks s !! id with
  | None => (None, s)
  | Some existingTask =>
      let updatedTask := spread_task existingTask task in
      (Some updatedTask, set_tasks (<[id := updatedTask]> (tasks s)) (taskId s) s)
  end.

Definition deleteTask (id : Z) (s : MemStorage) : bool * MemStorage :=
  let '(found, m) := Map_delete id (tasks s) in
  (found, set_tasks m (taskId s) s).

(** ** Class task operations *)

Definition getClassTask (id : Z) (s : MemStorage) : option ClassTask := classTasks s !! id.

Definition createClassTask (now : Date) (classTask : InsertClassTask) (s : MemStorage)
  : ClassTask * MemStorage :=
  let id := classTaskId s in
  let newClassTask := {|
    classTask_id := id;
    classTask_classId := insertClassTask_classId classTask;
    classTask_taskId := insertClassTask_taskId classTask;
    classTask_createdAt := now |} in
  (newClassTask, set_classTasks (<[id := newClassTask]> (classTasks s)) (id + 1) s).

Definition deleteClassTask (id : Z) (s : MemStorage) : bool * MemStorage :=
  let '(found, m) := Map_delete id (classTasks s) in
  (found, set_classTasks m (classTaskId s) s).

(** ** Assessment operations *)

Definition getAssessment (id : Z) (s : MemStorage) : option Assessment := assessments s !! id.

(** The [filters] argument.  A numeric filter is [None] when the property
    is absent or NaN (what [parseInt] gives for a string with no digits);
    both are falsy, and so is [Some 0]. *)
Record AssessmentFilters := {
  filters_studentId : option Z;
  filters_assessorId : option Z;
  filters_taskId : option Z;
  filters_status : option string
}.

(** [if (filters.x)] on a number, and on a string. *)
Definition truthy_id (x : option Z) : option Z :=
  match x with
  | Some 0 | None => None
  | Some z => Some z
  end.

Definition truthy_str (x : option string) : option string :=
  match x with
  | Some EmptyString | None => None
  | Some s => Some s
  end.

(** [if (filters.x) result = result.filter(a => a.x === filters.x)] *)
Definition filter_by {A K : Type} `{EqDecision K} (f : option K) (get : A -> K) (result : list A)
  : list A :=
  match f with
  | Some k => filter (fun a => get a = k) result
  | None => result
  end.

Definition status_string (a : Assessment) : option string :=
  AssessmentStatus_name <$> assessment_status a.

Definition getAssessments (filters : option AssessmentFilters) (s : MemStorage)
  : list Assessment :=
  let result := values (assessments s) in
  match filters with
  | Some filters =>
      let result := filter_by (truthy_id (filters_studentId filters)) assessment_studentId result in
      let result := filter_by (truthy_id (filters_assessorId filters)) assessment_assessorId result in
      let result := filter_by (truthy_id (filters_taskId filters)) assessment_taskId result in
      let result := filter_by (Some <$> truthy_str (filters_status filters)) status_string result in
      result
  | None => result
  end.

Definition createAssessment (now : Date) (assessment : InsertAssessment) (s : MemStorage)
  : Assessment * MemStorage :=
  let id := assessmentId s in
  let newAssessment := {|
    assessment_id := id;
    assessment_studentId := insertAssessment_studentId assessment;
    assessment_assessorId := insertAssessment_assessorId assessment;
    assessment_taskId := insertAssessment_taskId assessment;
    assessment_status := insertAssessment_status assessment;
    assessment_scores := insertAssessment_scores assessment;
    assessment_totalScore := insertAssessment_totalScore assessment;
    assessment_feedback := insertAssessment_feedback assessment;
    assessment_pdfPath := insertAssessment_pdfPath assessment;
    assessment_createdAt := now;
    assessment_updatedAt := now |} in
  (newAssessment, set_assessments (<[id := newAssessment]> (assessments s)) (id + 1) s).

(** [{ ...existingAssessment, ...assessment, updatedAt: new Date() }] *)
Definition spread_assessment (now : Date) (existing : Assessment)
    (assessment : PartialInsertAssessment) : Assessment :=
  {| assessment_id := assessment_id existing;
     assessment_studentId :=
       default (assessment_studentId existing) (partialAssessment_studentId assessment);
     assessment_assessorId :=
       default (assessment_assessorId existing) (partialAssessment_assessorId assessment);
     assessment_taskId :=
       default (assessment_taskId existing) (partialAssessment_taskId assessment);
     assessment_status :=
       match partialAssessment_status assessment with
       | Some st => Some st
       | None => assessment_status existing
       end;
     assessment_scores :=
       default (assessment_scores existing) (partialAssessment_scores assessment);
     assessment_totalScore :=
       default (assessment_totalScore existing) (partialAssessment_totalScore assessment);
     assessment_feedback :=
       default (assessment_feedback existing) (partialAssessment_feedback assessment);
     assessment_pdfPath :=
       default (assessment_pdfPath existing) (partialAssessment_pdfPath assessment);
     assessment_createdAt := assessment_createdAt existing;
     assessment_updatedAt := now |}.

Definition updateAssessment (now : Date) (id : Z) (assessment : PartialInsertAssessment)
    (s : MemStorage) : option Assessment * MemStorage :=
  match assessments s !! id with
  | None => (None, s)
  | Some existingAssessment =>
      let updatedAssessment := spread_assessment now existingAssessment assessment in
      (Some updatedAssessment,
       set_assessments (<[id := updatedAssessment]> (assessments s)) (assessmentId s) s)
  end.

Definition deleteAssessment (id : Z) (s : MemStorage) : bool * MemStorage :=
  let '(found, m) := Map_delete id (assessments s) in
  (found, set_assessments m (assessmentId s) s).

Definition getAssessmentWithRelations (id : Z) (s : MemStorage)
  : option AssessmentWithRelations :=
  assessment ← assessments s !! id;
  student ← students s !! assessment_studentId assessment;
  studentUser ← users s !! student_userId student;
  assessor ← assessors s !! assessment_assessorId assessment;
  assessorUser ← users s !! assessor_userId assessor;
  task ← tasks s !! assessment_taskId assessment;
  rubricTemplate ← rubricTemplates s !! task_rubricTemplateId task;
  Some {|
    awr_assessment := assessment;
    awr_student := {| swu_student := student; swu_user := studentUser |};
    awr_assessor := {| awu_assessor := assessor; awu_user := assessorUser |};
    awr_task := {| twr_task := task; twr_rubricTemplate := rubricTemplate |} |}.

(** ** Listings with an optional filter *)

Definition getClasses (schoolId : option Z) (s : MemStorage) : list Class :=
  let allClasses := values (classes s) in
  filter_by (truthy_id schoolId) class_schoolId allClasses.

Definition getStudents (classId : option Z) (s : MemStorage) : list Student :=
  let allStudents := values (students s) in
  filter_by (truthy_id classId) student_classId allStudents.

Definition getAssessors (s : MemStorage) : list Assessor := values (assessors s).

Definition getAssessorByUserId (userId : Z) (s : MemStorage) : option Assessor :=
  List.find (fun assessor => bool_decide (assessor_userId assessor = userId))
    (values (assessors s)).

Definition getRubricTemplates (s : MemStorage) : list RubricTemplate :=
  values (rubricTemplates s).

Definition getTasks (rubricTemplateId : option Z) (s : MemStorage) : list Task :=
  let allTasks := values (tasks s) in
  filter_by (truthy_id rubricTemplateId) task_rubricTemplateId allTasks.

Definition getClassTasks (classId taskId : option Z) (s : MemStorage) : list ClassTask :=
  let allClassTasks := values (classTasks s) in
  match truthy_id classId, truthy_id taskId with
  | Some classId, Some taskId =>
      filter (fun ct => classTask_classId ct = classId /\ classTask_taskId ct = taskId)
        allClassTasks
  | Some classId, None => filter (fun ct => classTask_classId ct = classId) allClassTasks
  | None, Some taskId => filter (fun ct => classTask_taskId ct = taskId) allClassTasks
  | None, None => allClassTasks
  end.

(** ** Queries over several maps *)

Definition getClassWithRelations (id : Z) (s : MemStorage) : option ClassWithRelations :=
  cls ← classes s !! id;
  school ← schools s !! class_schoolId cls;
  let students :=
    map (fun student => (student, users s !! student_userId student))
      (filter (fun student => student_classId student = id) (values (students s))) in
  let classTasks :=
    map (fun classTask => (classTask, tasks s !! classTask_taskId classTask))
      (filter (fun classTask => classTask_classId classTask = id) (values (classTasks s))) in
  Some {| cwr_class := cls; cwr_school := school; cwr_students := students;
          cwr_classTasks := classTasks |}.

Definition getClassesForAssessor (assessorId : Z) (s : MemStorage) : list Class :=
  match assessors s !! assessorId with
  | None => []
  | Some assessor =>
      filter (fun cls => class_schoolId cls ∈ assessor_schoolIds assessor) (values (classes s))
  end.

Definition getStudentsForClass (classId : Z) (s : MemStorage) : list (Student * option User) :=
  let students := filter (fun student => student_classId student = classId)
                    (values (students s)) in
  map (fun student => (student, users s !! student_userId student)) students.

Definition getTasksForClass (classId : Z) (s : MemStorage) : list Task :=
  let classTasksForClass := filter (fun ct => classTask_classId ct = classId)
                              (values (classTasks s)) in
  omap id (map (fun ct => tasks s !! classTask_taskId ct) classTasksForClass).

Definition getAssessmentsForStudent (studentId : Z) (s : MemStorage) : list Assessment :=
  filter (fun assessment => assessment_studentId assessment = studentId)
    (values (assessments s)).

Definition getAssessmentsForClass (classId : Z) (s : MemStorage) : list Assessment :=
  let studentsInClass := filter (fun student => student_classId student = classId)
                           (values (students s)) in
  let studentIds := map student_id studentsInClass in
  filter (fun assessment => assessment_studentId assessment ∈ studentIds)
    (values (assessments s)).

(** ** A method called with the result of [parseInt]: [None] is NaN, which
    is the key of no entry, so a lookup with it misses. *)
Definition at_id {A : Type} (id : option Z) (miss : A) (method : Z -> A) : A :=
  match id with
  | Some id => method id
  | None => miss
  end.

(** ** The constructor and its demo data *)

Definition empty_storage : MemStorage :=
  {| users := ∅; schools := ∅; classes := ∅; students := ∅; assessors := ∅;
     rubricTemplates := ∅; tasks := ∅; classTasks := ∅; assessments := ∅;
     userId := 1; schoolId := 1; classId := 1; studentId := 1; assessorId := 1;
     rubricTemplateId := 1; taskId := 1; classTaskId := 1; assessmentId := 1 |}.

Definition criterion_json (id : Z) (name description : string) : Json :=
  JObject [("id", JNumber (JS.Number_of_Z id)); ("name", JString name);
           ("description", JString description)].

Definition seedDemoData (now : Date) (s : MemStorage) : MemStorage :=
  (* Create admin user *)
  let adminUser := {|
    user_id := userId s; user_username := "admin"; user_password := "admin123";
    user_email := "admin@example.com"; user_fullName := "Admin User";
    user_role := role_admin; user_createdAt := now |} in
  let s := set_users (<[user_id adminUser := adminUser]> (users s)) (userId s + 1) s in
  (* Create sample schools *)
  let school1 := {|
    school_id := schoolId s; school_name := "Westside High School";
    school_address := Some "123 West Street"; school_createdAt := now |} in
  let s := set_schools (<[school_id school1 := school1]> (schools s)) (schoolId s + 1) s in
  let school2 := {|
    school_id := schoolId s; school_name := "Eastside Academy";
    school_address := Some "456 East Avenue"; school_createdAt := now |} in
  let s := set_schools (<[school_id school2 := school2]> (schools s)) (schoolId s + 1) s in
  (* Create sample classes *)
  let class1 := {|
    class_id := classId s; class_name := "English 10A";
    class_schoolId := school_id school1; class_createdAt := now |} in
  let s := set_classes (<[class_id class1 := class1]> (classes s)) (classId s + 1) s in
  let class2 := {|
    class_id := classId s; class_name := "Science 11B";
    class_schoolId := school_id school1; class_createdAt := now |} in
  let s := set_classes (<[class_id class2 := class2]> (classes s)) (classId s + 1) s in
  let class3 := {|
    class_id := classId s; class_name := "Literature 12C";
    class_schoolId := school_id school2; class_createdAt := now |} in
  let s := set_classes (<[class_id class3 := class3]> (classes s)) (classId s + 1) s in
  (* Create assessor user *)
  let assessorUser := {|
    user_id := userId s; user_username := "assessor"; user_password := "assessor123";
    user_email := "assessor@example.com"; user_fullName := "John Smith";
    user_role := role_assessor; user_createdAt := now |} in
  let s := set_users (<[user_id assessorUser := assessorUser]> (users s)) (userId s + 1) s in
  (* Create assessor *)
  let assessor := {|
    assessor_id := assessorId s; assessor_userId := user_id assessorUser;
    assessor_schoolIds := [school_id school1; school_id school2];
    assessor_createdAt := now |} in
  let s := set_assessors (<[assessor_id assessor := assessor]> (assessors s)) (assessorId s + 1) s in
  (* Create student users *)
  let studentUser1 := {|
    user_id := userId s; user_username := "student1"; user_password := "student123";
    user_email := "student1@example.com"; user_fullName := "Jordan Smith";
    user_role := role_student; user_createdAt := now |} in
  let s := set_users (<[user_id studentUser1 := studentUser1]> (users s)) (userId s + 1) s in
  let studentUser2 := {|
    user_id := userId s; user_username := "student2"; user_password := "student123";
    user_email := "student2@example.com"; user_fullName := "Emma Johnson";
    user_role := role_student; user_createdAt := now |} in
  let s := set_users (<[user_id studentUser2 := studentUser2]> (users s)) (userId s + 1) s in
  (* Create students *)
  let student1 := {|
    student_id := studentId s; student_userId := user_id studentUser1;
    student_classId := class_id class1; student_createdAt := now |} in
  let s := set_students (<[student_id student1 := student1]> (students s)) (studentId s + 1) s in
  let student2 := {|
    student_id := studentId s; student_userId := user_id studentUser2;
    student_classId := class_id class1; student_createdAt := now |} in
  let s := set_students (<[student_id student2 := student2]> (students s)) (studentId s + 1) s in
  (* Create sample rubric template *)
  let writingRubric := {|
    rubricTemplate_id := rubricTemplateId s;
    rubricTemplate_name := "Writing Skills Rubric";
    rubricTemplate_description := Some "Rubric for evaluating writing skills";
    rubricTemplate_criteria := JArray [
      criterion_json 1 "Content Knowledge" "Understanding of key concepts and subject matter";
      criterion_json 2 "Analysis & Critical Thinking"
        "Ability to analyze information, draw conclusions, and think critically";
      criterion_json 3 "Organization & Structure"
        "Logical organization and clear structure of ideas and information";
      criterion_json 4 "Language & Communication"
        "Use of appropriate language, grammar, and ability to communicate ideas";
      criterion_json 5 "Creativity & Innovation"
        "Original thinking, creative solutions, and innovative approaches" ];
    rubricTemplate_createdAt := now |} in
  let s := set_rubricTemplates (<[rubricTemplate_id writingRubric := writingRubric]> (rubricTemplates s))
             (rubricTemplateId s + 1) s in
  (* Create sample tasks *)
  let task1 := {|
    task_id := taskId s; task_name := "Text Response Essay";
    task_description := Some "Write a response to the provided text";
    task_rubricTemplateId := rubricTemplate_id writingRubric; task_createdAt := now |} in
  let s := set_tasks (<[task_id task1 := task1]> (tasks s)) (taskId s + 1) s in
  let task2 := {|
    task_id := taskId s; task_name := "Creative Writing Assignment";
    task_description := Some "Create an original piece of creative writing";
    task_rubricTemplateId := rubricTemplate_id writingRubric; task_createdAt := now |} in
  let s := set_tasks (<[task_id task2 := task2]> (tasks s)) (taskId s + 1) s in
  (* Assign tasks to classes *)
  let classTask1 := {|
    classTask_id := classTaskId s; classTask_classId := class_id class1;
    classTask_taskId := task_id task1; classTask_createdAt := now |} in
  let s := set_classTasks (<[classTask_id classTask1 := classTask1]> (classTasks s))
             (classTaskId s + 1) s in
  let classTask2 := {|
    classTask_id := classTaskId s; classTask_classId := class_id class1;
    classTask_taskId := task_id task2; classTask_createdAt := now |} in
  let s := set_classTasks (<[classTask_id classTask2 := classTask2]> (classTasks s))
             (classTaskId s + 1) s in
  (* Create sample assessment *)
  let assessment1 := {|
    assessment_id := assessmentId s;
    assessment_studentId := student_id student1;
    assessment_assessorId := assessor_id assessor;
    assessment_taskId := task_id task1;
    assessment_status := Some status_completed;
    assessment_scores := JObject [("1", JNumber 3); ("2", JNumber 4); ("3", JNumber 5);
                                  ("4", JNumber 3); ("5", JNumber 4)];
    assessment_totalScore := 19;
    assessment_feedback := Some "Jordan demonstrates excellent organization and structure in their essay. Their analytical skills are strong, showing good critical thinking in their interpretation of the text. Areas for improvement include expanding content knowledge with more specific examples from the text, and working on grammar and sentence structure for clearer communication. Overall, this is a solid effort with great potential for further development.";
    assessment_pdfPath := Some "/pdfs/JordanSmith_TextResponseEssay.pdf";
    assessment_createdAt := now;
    assessment_updatedAt := now |} in
  set_assessments (<[assessment_id assessment1 := assessment1]> (assessments s))
    (assessmentId s + 1) s.

(** [new MemStorage()] *)
Definition new_MemStorage (now : Date) : MemStorage := seedDemoData now empty_storage.

(** ** Sequences of create operations *)

Inductive CreateOp :=
| CreateUser (user : InsertUser)
| CreateSchool (school : InsertSchool)
| CreateClass (cls : InsertClass)
| CreateStudent (student : InsertStudent) (userData : InsertUser)
| CreateAssessor (assessor : InsertAssessor) (userData : InsertUser)
| CreateRubricTemplate (template : InsertRubricTemplate)
| CreateTask (task : InsertTask)
| CreateClassTask (classTask : InsertClassTask)
| CreateAssessment (assessment : InsertAssessment).

Definition run_create (now : Date) (op : CreateOp) (s : MemStorage) : MemStorage :=
  match op with
  | CreateUser user => (createUser now user s).2
  | CreateSchool school => (createSchool now school s).2
  | CreateClass cls => (createClass now cls s).2
  | CreateStudent student userData => (createStudent now student userData s).2
  | CreateAssessor assessor userData => (createAssessor now assessor userData s).2
  | CreateRubricTemplate template => (createRubricTemplate now template s).2
  | CreateTask task => (createTask now task s).2
  | CreateClassTask classTask => (createClassTask now classTask s).2
  | CreateAssessment assessment => (createAssessment now assessment s).2
  end.

(** Each operation with the time at which it runs. *)
Definition run_creates (l : list (Date * CreateOp)) (s : MemStorage) : MemStorage :=
  fold_left (fun s op => run_create op.1 op.2 s) l s.

(** ** Sequences of operations that change the store *)

Inductive StoreOp :=
| OpCreateUser (user : InsertUser)
| OpCreateSchool (school : InsertSchool)
| OpUpdateSchool (id : Z) (school : PartialInsertSchool)
| OpDeleteSchool (id : Z)
| OpCreateClass (cls : InsertClass)
| OpUpdateClass (id : Z) (cls : PartialInsertClass)
| OpDeleteClass (id : Z)
| OpCreateStudent (student : InsertStudent) (userData : InsertUser)
| OpUpdateStudent (id : Z) (student : PartialInsertStudent)
| OpDeleteStudent (id : Z)
| OpCreateAssessor (assessor : InsertAssessor) (userData : InsertUser)
| OpUpdateAssessor (id : Z) (assessor : PartialInsertAssessor)
| OpDeleteAssessor (id : Z)
| OpCreateRubricTemplate (template : InsertRubricTemplate)
| OpUpdateRubricTemplate (id : Z) (template : PartialInsertRubricTemplate)
| OpDeleteRubricTemplate (id : Z)
| OpCreateTask (task : InsertTask)
| OpUpdateTask (id : Z) (task : PartialInsertTask)
| OpDeleteTask (id : Z)
| OpCreateClassTask (classTask : InsertClassTask)
| OpDeleteClassTask (id : Z)
| OpCreateAssessment (assessment : InsertAssessment)
| OpUpdateAssessment (id : Z) (assessment : PartialInsertAssessment)
| OpDeleteAssessment (id : Z).

(** The store after one operation run at time [now]. *)
Definition run_op (now : Date) (op : StoreOp) (s : MemStorage) : MemStorage :=
  match op with
  | OpCreateUser user => (createUser now user s).2
  | OpCreateSchool school => (createSchool now school s).2
  | OpUpdateSchool id school => (updateSchool id school s).2
  | OpDeleteSchool id => (deleteSchool id s).2
  | OpCreateClass cls => (createClass now cls s).2
  | OpUpdateClass id cls => (updateClass id cls s).2
  | OpDeleteClass id => (deleteClass id s).2
  | OpCreateStudent student userData => (createStudent now student userData s).2
  | OpUpdateStudent id student => (updateStudent id student s).2
  | OpDeleteStudent id => (deleteStudent id s).2
  | OpCreateAssessor assessor userData => (createAssessor now assessor userData s).2
  | OpUpdateAssessor id assessor => (updateAssessor id assessor s).2
  | OpDeleteAssessor id => (deleteAssessor id s).2
  | OpCreateRubricTemplate template => (createRubricTemplate now template s).2
  | OpUpdateRubricTemplate id template => (updateRubricTemplate id template s).2
  | OpDeleteRubricTemplate id => (deleteRubricTemplate id s).2
  | OpCreateTask task => (createTask now task s).2
  | OpUpdateTask id task => (updateTask id task s).2
  | OpDeleteTask id => (deleteTask id s).2
  | OpCreateClassTask classTask => (createClassTask now classTask s).2
  | OpDeleteClassTask id => (deleteClassTask id s).2
  | OpCreateAssessment assessment => (createAssessment now assessment s).2
  | OpUpdateAssessment id assessment => (updateAssessment now id assessment s).2
  | OpDeleteAssessment id => (deleteAssessment id s).2
  end.

Definition run_ops (l : list (Date * StoreOp)) (s : MemStorage) : MemStorage :=
  fold_left (fun s op => run_op op.1 op.2 s) l s.

End Storage.

(* ===================================================================== *)
(** * server/routes.ts: the update routes and the assessment listing *)
(* ===================================================================== *)
Module Routes.
Import Schema Storage.

(** One entry of [ZodError.errors]: the path of the offending field and
    what is wrong with it. *)
Record ZodIssue := { issue_path : list string; issue_message : string }.

(** [insertXSchema.partial().parse(body)] for the seven schemas of
    shared/schema.ts: the parsed partial record, or the issues the thrown
    [ZodError] carries.  The schemas are built by drizzle-zod; the routes are
    modelled for whatever they accept. *)
Class Schemas (Body : Type) := {
  parse_partial_school : Body -> list ZodIssue + PartialInsertSchool;
  parse_partial_class : Body -> list ZodIssue + PartialInsertClass;
  parse_partial_student : Body -> list ZodIssue + PartialInsertStudent;
  parse_partial_assessor : Body -> list ZodIssue + PartialInsertAssessor;
  parse_partial_rubricTemplate : Body -> list ZodIssue + PartialInsertRubricTemplate;
  parse_partial_task : Body -> list ZodIssue + PartialInsertTask;
  parse_partial_assessment : Body -> list ZodIssue + PartialInsertAssessment
}.

(** What a handler touches: the store and the files under [pdfs/]. *)
Record World := {
  storage : MemStorage;
  files : gmap string string
}.

Inductive Exn :=
| ZodError (errors : list ZodIssue)
| Error (message : string).

(** Code that reads and writes the world and may throw. *)
Definition M (A : Type) : Type := World -> (Exn + A) * World.

#[global] Instance M_ret : MRet M := fun A a w => (inr a, w).

#[global] Instance M_bind : MBind M := fun A B f m w =>
  match m w with
  | (inl e, w') => (inl e, w')
  | (inr a, w') => f a w'
  end.

Definition throw {A : Type} (e : Exn) : M A := fun w => (inl e, w).

(** [try { m } catch (err) { h err }] *)
Definition try_catch {A : Type} (m : M A) (h : Exn -> M A) : M A := fun w =>
  match m w with
  | (inl e, w') => h e w'
  | (inr a, w') => (inr a, w')
  end.

(** A storage method that returns and may update the store. *)
Definition call {A : Type} (method : MemStorage -> A * MemStorage) : M A := fun w =>
  let '(a, st) := method (storage w) in
  (inr a, {| storage := st; files := files w |}).

(** A storage method that only reads. *)
Definition query {A : Type} (method : MemStorage -> A) : M A := fun w =>
  (inr (method (storage w)), w).

(** [schema.parse(body)] *)
Definition parse {A : Type} (r : list ZodIssue + A) : M A :=
  match r with
  | inl errors => throw (ZodError errors)
  | inr a => mret a
  end.

(** What Node decides, its [path] and [fs] modules not being under src/:
    [path.join] of two segments, and whether [fs.writeFileSync] to a path
    throws (a directory that is missing, a path that is not valid or too
    long, no permission, a full disk) and with what message.  The routes
    are modelled for whatever the two do. *)
Class Node := {
  path_join : string -> string -> string;
  write_error : string -> option string
}.

(** [fs.writeFileSync(path, content)]: the file holds [content], or the
    call throws and no file is touched. *)
Definition writeFileSync `{Node} (path content : string) : M unit := fun w =>
  match write_error path with
  | Some message => (inl (Error message), w)
  | None => (inr tt, {| storage := storage w; files := <[path := content]> (files w) |})
  end.

(** ** Requests and responses *)

Record Request (Body : Type) := {
  req_user : option User;          (* the session's user, when authenticated *)
  req_params_id : string;          (* req.params.id *)
  req_query : gmap string string;  (* req.query *)
  req_body : Body
}.
Arguments req_user {Body} _.
Arguments req_params_id {Body} _.
Arguments req_query {Body} _.
Arguments req_body {Body} _.

Inductive ResBody :=
| Message (message : string)
| Invalid (message : string) (errors : list ZodIssue)
| OfSchool (x : School)
| OfClass (x : Class)
| OfStudent (x : Student) (user : option User)
| OfAssessor (x : Assessor) (user : option User)
| OfRubricTemplate (x : RubricTemplate)
| OfTask (x : Task)
| OfAssessment (x : option AssessmentWithRelations)
| OfAssessments (l : list AssessmentWithRelations).

Record Response := { res_status : nat; res_json : ResBody }.

(** [res.status(n).json(b)] and [res.json(b)]. *)
Definition status_json (n : nat) (b : ResBody) : Response :=
  {| res_status := n; res_json := b |}.
Definition json (b : ResBody) : Response := status_json 200 b.

(** ** [parseInt(s)]: [None] is NaN *)

Definition digit_value (radix : Z) (c : ascii) : option Z :=
  let n := Z.of_nat (nat_of_ascii c) in
  let v :=
    if (48 <=? n)%Z && (n <=? 57)%Z then Some (n - 48)%Z
    else if (97 <=? n)%Z && (n <=? 122)%Z then Some (n - 87)%Z
    else if (65 <=? n)%Z && (n <=? 90)%Z then Some (n - 55)%Z
    else None in
  match v with
  | Some d => if (d <? radix)%Z then Some d else None
  | None => None
  end.

Fixpoint parse_digits (radix : Z) (acc : option Z) (s : string) : option Z :=
  match s with
  | EmptyString => acc
  | String c s' =>
      match digit_value radix c with
      | Some d => parse_digits radix (Some (default 0 acc * radix + d)%Z) s'
      | None => acc
      end
  end.

Definition parseInt (s : string) : option Z :=
  let s := JS.trimStart s in
  let '(neg, s) :=
    match s with
    | String "-" s' => (true, s')
    | String "+" s' => (false, s')
    | _ => (false, s)
    end in
  let '(radix, s) :=
    match s with
    | String "0" (String "x" s') | String "0" (String "X" s') => (16%Z, s')
    | _ => (10%Z, s)
    end in
  (fun n => if neg then (- n)%Z else n) <$> parse_digits radix None s.

(** ** Authentication middleware *)

Definition Handler (Body : Type) : Type := Request Body -> M Response.

Definition isAuthenticated {Body} (next : Handler Body) : Handler Body := fun req =>
  match req_user req with
  | Some _ => next req
  | None => mret (status_json 401 (Message "Unauthorized"))
  end.

Definition isAdmin {Body} (next : Handler Body) : Handler Body := fun req =>
  match req_user req with
  | Some user =>
      if bool_decide (user_role user = role_admin) then next req
      else mret (status_json 403 (Message "Forbidden"))
  | None => mret (status_json 403 (Message "Forbidden"))
  end.

Definition isAssessor {Body} (next : Handler Body) : Handler Body := fun req =>
  match req_user req with
  | Some user =>
      if bool_decide (user_role user = role_assessor) || bool_decide (user_role user = role_admin)
      then next req
      else mret (status_json 403 (Message "Forbidden"))
  | None => mret (status_json 403 (Message "Forbidden"))
  end.

(** ** The routes *)

Section Handlers.
Context {Body : Type} `{Schemas Body} `{Node}.

(** [process.cwd()], and the clock: [clock n] is what the [n]-th
    [new Date()] of a request reads. *)
Variable cwd : string.
Variable clock : nat -> Date.

(** Lines 19-36: the mock PDF generation. *)
Definition generatePDF (assessmentId : Z) : M string :=
  assessment ← query (getAssessmentWithRelations assessmentId);
  match assessment with
  | None => throw (Error "Assessment not found")
  | Some assessment =>
      let student := awr_student assessment in
      let task := awr_task assessment in
      let filename :=
        JS.replace_spaces "" false (user_fullName (swu_user student)) +:+ "_"
        +:+ JS.replace_spaces "" false (task_name (twr_task task)) +:+ ".pdf" in
      let filePath := path_join "pdfs" filename in
      (* In a real app, we would create an actual PDF here *)
      _ ← writeFileSync (path_join cwd filePath) "Mock PDF content";
      mret ("/" +:+ filePath)
  end.

(** app.put('/api/schools/:id', isAdmin, ...) *)
Definition put_school : Handler Body := isAdmin (fun req =>
  try_catch
    (schoolData ← parse (parse_partial_school (req_body req));
     school ← call (fun s => at_id (parseInt (req_params_id req)) (None, s)
                               (fun id => updateSchool id schoolData s));
     match school with
     | None => mret (status_json 404 (Message "School not found"))
     | Some school => mret (json (OfSchool school))
     end)
    (fun err =>
       match err with
       | ZodError errors => mret (status_json 400 (Invalid "Invalid school data" errors))
       | _ => mret (status_json 500 (Message "Error updating school"))
       end)).

(** app.put('/api/classes/:id', isAdmin, ...) *)
Definition put_class : Handler Body := isAdmin (fun req =>
  try_catch
    (classData ← parse (parse_partial_class (req_body req));
     cls ← call (fun s => at_id (parseInt (req_params_id req)) (None, s)
                            (fun id => updateClass id classData s));
     match cls with
     | None => mret (status_json 404 (Message "Class not found"))
     | Some cls => mret (json (OfClass cls))
     end)
    (fun err =>
       match err with
       | ZodError errors => mret (status_json 400 (Invalid "Invalid class data" errors))
       | _ => mret (status_json 500 (Message "Error updating class"))
       end)).

(** app.put('/api/students/:id', isAdmin, ...) *)
Definition put_student : Handler Body := isAdmin (fun req =>
  try_catch
    (studentData ← parse (parse_partial_student (req_body req));
     student ← call (fun s => at_id (parseInt (req_params_id req)) (None, s)
                                (fun id => updateStudent id studentData s));
     match student with
     | None => mret (status_json 404 (Message "Student not found"))
     | Some student =>
         user ← query (getUser (student_userId student));
         mret (json (OfStudent student user))
     end)
    (fun err =>
       match err with
       | ZodError errors => mret (status_json 400 (Invalid "Invalid student data" errors))
       | _ => mret (status_json 500 (Message "Error updating student"))
       end)).

(** app.put('/api/assessors/:id', isAdmin, ...) *)
Definition put_assessor : Handler Body := isAdmin (fun req =>
  try_catch
    (assessorData ← parse (parse_partial_assessor (req_body req));
     assessor ← call (fun s => at_id (parseInt (req_params_id req)) (None, s)
                                 (fun id => updateAssessor id assessorData s));
     match assessor with
     | None => mret (status_json 404 (Message "Assessor not found"))
     | Some assessor =>
         user ← query (getUser (assessor_userId assessor));
         mret (json (OfAssessor assessor user))
     end)
    (fun err =>
       match err with
       | ZodError errors => mret (status_json 400 (Invalid "Invalid assessor data" errors))
       | _ => mret (status_json 500 (Message "Error updating assessor"))
       end)).

(** app.put('/api/rubric-templates/:id', isAdmin, ...) *)
Definition put_rubricTemplate : Handler Body := isAdmin (fun req =>
  try_catch
    (templateData ← parse (parse_partial_rubricTemplate (req_body req));
     template ← call (fun s => at_id (parseInt (req_params_id req)) (None, s)
                                 (fun id => updateRubricTemplate id templateData s));
     match template with
     | None => mret (status_json 404 (Message "Rubric template not found"))
     | Some template => mret (json (OfRubricTemplate template))
     end)
    (fun err =>
       match err with
       | ZodError errors =>
           mret (status_json 400 (Invalid "Invalid rubric template data" errors))
       | _ => mret (status_json 500 (Message "Error updating rubric template"))
       end)).

(** app.put('/api/tasks/:id', isAdmin, ...) *)
Definition put_task : Handler Body := isAdmin (fun req =>
  try_catch
    (taskData ← parse (parse_partial_task (req_body req));
     task ← call (fun s => at_id (parseInt (req_params_id req)) (None, s)
                             (fun id => updateTask id taskData s));
     match task with
     | None => mret (status_json 404 (Message "Task not found"))
     | Some task => mret (json (OfTask task))
     end)
    (fun err =>
       match err with
       | ZodError errors => mret (status_json 400 (Invalid "Invalid task data" errors))
       | _ => mret (status_json 500 (Message "Error updating task"))
       end)).

(** [!currentAssessment.pdfPath] *)
Definition no_pdfPath (a : Assessment) : bool :=
  match assessment_pdfPath a with
  | Some (String _ _) => false
  | _ => true
  end.

Definition only_pdfPath (pdfPath : string) : PartialInsertAssessment :=
  {| partialAssessment_studentId := None; partialAssessment_assessorId := None;
     partialAssessment_taskId := None; partialAssessment_status := None;
     partialAssessment_scores := None; partialAssessment_totalScore := None;
     partialAssessment_feedback := None; partialAssessment_pdfPath := Some (Some pdfPath) |}.

(** app.put('/api/assessments/:id', isAssessor, ...) *)
Definition put_assessment : Handler Body := isAssessor (fun req =>
  try_catch
    (assessmentData ← parse (parse_partial_assessment (req_body req));
     (* Get the current assessment *)
     currentAssessment ← query (fun s => at_id (parseInt (req_params_id req)) None
                                           (fun id => getAssessment id s));
     match currentAssessment with
     | None => mret (status_json 404 (Message "Assessment not found"))
     | Some currentAssessment =>
         (* Update the assessment *)
         assessment ← call (fun s => at_id (parseInt (req_params_id req)) (None, s)
                                       (fun id => updateAssessment (clock 0) id assessmentData s));
         match assessment with
         | None => mret (status_json 404 (Message "Assessment not found"))
         | Some assessment =>
             (* If the assessment was marked as completed, generate a PDF *)
             _ ← (if bool_decide (assessment_status assessment = Some status_completed)
                     && (negb (bool_decide (assessment_status currentAssessment
                                            = Some status_completed))
                         || no_pdfPath currentAssessment)
                  then
                    pdfPath ← generatePDF (assessment_id assessment);
                    _ ← call (updateAssessment (clock 1) (assessment_id assessment)
                                (only_pdfPath pdfPath));
                    mret tt
                  else mret tt);
             assessmentWithRelations ←
               query (getAssessmentWithRelations (assessment_id assessment));
             mret (json (OfAssessment assessmentWithRelations))
         end
     end)
    (fun err =>
       match err with
       | ZodError errors => mret (status_json 400 (Invalid "Invalid assessment data" errors))
       | _ => mret (status_json 500 (Message "Error updating assessment"))
       end)).

(** [if (req.query.x) filters.x = parseInt(req.query.x)] *)
Definition query_id (x : option string) : option Z :=
  x ← truthy_str x; parseInt x.

(** app.get('/api/assessments', isAuthenticated, ...) *)
Definition get_assessments : Handler Body := isAuthenticated (fun req =>
  let filters := {|
    filters_studentId := query_id (req_query req !! "studentId");
    filters_assessorId := query_id (req_query req !! "assessorId");
    filters_taskId := query_id (req_query req !! "taskId");
    filters_status := truthy_str (req_query req !! "status") |} in
  assessments ← query (getAssessments (Some filters));
  (* For each assessment, fetch the related entities *)
  assessmentsWithRelations ←
    query (fun s => map (fun assessment =>
                           getAssessmentWithRelations (assessment_id assessment) s)
                      assessments);
  mret (json (OfAssessments (omap id assessmentsWithRelations)))).

End Handlers.

End Routes.

(* ===================================================================== *)
(** * server/routes.ts: login, and the delete, create and listing routes *)
(* ===================================================================== *)
Module Api.
Import Schema Storage Routes.

(** ** The passport strategy (lines 52-68) *)

(** What the verify callback hands to [done]: the user, or [false] with a
    message. *)
Inductive Verified :=
| Authenticated (user : User)
| Rejected (message : string).

Definition verify (username password : string) (s : MemStorage) : Verified :=
  match getUserByUsername username s with
  | None => Rejected "Invalid username"
  | Some user =>
      if bool_decide (user_password user <> password) then Rejected "Invalid password"
      else Authenticated user
  end.

(** [passport.deserializeUser]: the session holds the user's id. *)
Definition deserializeUser (id : Z) (s : MemStorage) : option User := getUser id s.

(** ** What a route sends *)

(** [res.json(b)] and [res.status(n).json(b)] with the bodies of [ResBody],
    [res.json(classes)], and [res.status(n).end()], which has no body. *)
Inductive Sent :=
| Json (r : Response)
| JsonClasses (l : list Class)
| End (status : nat).

Definition sent_status (r : Sent) : nat :=
  match r with
  | Json r => res_status r
  | JsonClasses _ => 200
  | End n => n
  end.

Definition Route (Body : Type) : Type := Request Body -> M Sent.

(** The middleware of lines 106-132, in front of such a route. *)
Definition isAuthenticated {Body} (next : Route Body) : Route Body := fun req =>
  match req_user req with
  | Some _ => next req
  | None => mret (Json (status_json 401 (Message "Unauthorized")))
  end.

Definition isAdmin {Body} (next : Route Body) : Route Body := fun req =>
  match req_user req with
  | Some user =>
      if bool_decide (user_role user = role_admin) then next req
      else mret (Json (status_json 403 (Message "Forbidden")))
  | None => mret (Json (status_json 403 (Message "Forbidden")))
  end.

Definition isAssessor {Body} (next : Route Body) : Route Body := fun req =>
  match req_user req with
  | Some user =>
      if bool_decide (user_role user = role_assessor) || bool_decide (user_role user = role_admin)
      then next req
      else mret (Json (status_json 403 (Message "Forbidden")))
  | None => mret (Json (status_json 403 (Message "Forbidden")))
  end.

Definition isStudent {Body} (next : Route Body) : Route Body := fun req =>
  match req_user req with
  | Some user =>
      if bool_decide (user_role user = role_student) || bool_decide (user_role user = role_admin)
      then next req
      else mret (Json (status_json 403 (Message "Forbidden")))
  | None => mret (Json (status_json 403 (Message "Forbidden")))
  end.

(** [insertSchoolSchema.parse(body)] and the like, whatever the schemas
    accept. *)
Class InsertSchemas (Body : Type) := {
  parse_school : Body -> list ZodIssue + InsertSchool;
  parse_class : Body -> list ZodIssue + InsertClass;
  parse_rubricTemplate : Body -> list ZodIssue + InsertRubricTemplate;
  parse_assessment : Body -> list ZodIssue + InsertAssessment
}.

Section Handlers.
Context {Body : Type} `{InsertSchemas Body} `{Node}.
Variable cwd : string.
Variable clock : nat -> Date.

(** ** Creating and reading one entry *)

(** app.get('/api/schools/:id', isAuthenticated, ...) *)
Definition get_school : Route Body := isAuthenticated (fun req =>
  school ← query (fun s => at_id (parseInt (req_params_id req)) None
                             (fun id => getSchool id s));
  match school with
  | None => mret (Json (status_json 404 (Message "School not found")))
  | Some school => mret (Json (json (OfSchool school)))
  end).

(** app.post('/api/schools', isAdmin, ...) *)
Definition post_school : Route Body := isAdmin (fun req =>
  try_catch
    (schoolData ← parse (parse_school (req_body req));
     school ← call (createSchool (clock 0) schoolData);
     mret (Json (status_json 201 (OfSchool school))))
    (fun err =>
       match err with
       | ZodError errors =>
           mret (Json (status_json 400 (Invalid "Invalid school data" errors)))
       | _ => mret (Json (status_json 500 (Message "Error creating school")))
       end)).

(** app.get('/api/classes/:id', isAuthenticated, ...) *)
Definition get_class : Route Body := isAuthenticated (fun req =>
  cls ← query (fun s => at_id (parseInt (req_params_id req)) None
                          (fun id => getClass id s));
  match cls with
  | None => mret (Json (status_json 404 (Message "Class not found")))
  | Some cls => mret (Json (json (OfClass cls)))
  end).

(** app.post('/api/classes', isAdmin, ...) *)
Definition post_class : Route Body := isAdmin (fun req =>
  try_catch
    (classData ← parse (parse_class (req_body req));
     cls ← call (createClass (clock 0) classData);
     mret (Json (status_json 201 (OfClass cls))))
    (fun err =>
       match err with
       | ZodError errors =>
           mret (Json (status_json 400 (Invalid "Invalid class data" errors)))
       | _ => mret (Json (status_json 500 (Message "Error creating class")))
       end)).

(** app.get('/api/rubric-templates/:id', isAuthenticated, ...) *)
Definition get_rubricTemplate : Route Body := isAuthenticated (fun req =>
  template ← query (fun s => at_id (parseInt (req_params_id req)) None
                               (fun id => getRubricTemplate id s));
  match template with
  | None => mret (Json (status_json 404 (Message "Rubric template not found")))
  | Some template => mret (Json (json (OfRubricTemplate template)))
  end).

(** app.post('/api/rubric-templates', isAdmin, ...) *)
Definition post_rubricTemplate : Route Body := isAdmin (fun req =>
  try_catch
    (templateData ← parse (parse_rubricTemplate (req_body req));
     template ← call (createRubricTemplate (clock 0) templateData);
     mret (Json (status_json 201 (OfRubricTemplate template))))
    (fun err =>
       match err with
       | ZodError errors =>
           mret (Json (status_json 400 (Invalid "Invalid rubric template data" errors)))
       | _ => mret (Json (status_json 500 (Message "Error creating rubric template")))
       end)).

(** ** The delete routes *)

(** app.delete('/api/schools/:id', isAdmin, ...) *)
Definition delete_school : Route Body := isAdmin (fun req =>
  success ← call (fun s => at_id (parseInt (req_params_id req)) (false, s)
                             (fun id => deleteSchool id s));
  if negb success then mret (Json (status_json 404 (Message "School not found")))
  else mret (End 204)).

(** app.delete('/api/classes/:id', isAdmin, ...) *)
Definition delete_class : Route Body := isAdmin (fun req =>
  success ← call (fun s => at_id (parseInt (req_params_id req)) (false, s)
                             (fun id => deleteClass id s));
  if negb success then mret (Json (status_json 404 (Message "Class not found")))
  else mret (End 204)).

(** app.delete('/api/students/:id', isAdmin, ...) *)
Definition delete_student : Route Body := isAdmin (fun req =>
  success ← call (fun s => at_id (parseInt (req_params_id req)) (false, s)
                             (fun id => deleteStudent id s));
  if negb success then mret (Json (status_json 404 (Message "Student not found")))
  else mret (End 204)).

(** app.delete('/api/assessors/:id', isAdmin, ...) *)
Definition delete_assessor : Route Body := isAdmin (fun req =>
  success ← call (fun s => at_id (parseInt (req_params_id req)) (false, s)
                             (fun id => deleteAssessor id s));
  if negb success then mret (Json (status_json 404 (Message "Assessor not found")))
  else mret (End 204)).

(** app.delete('/api/rubric-templates/:id', isAdmin, ...) *)
Definition delete_rubricTemplate : Route Body := isAdmin (fun req =>
  success ← call (fun s => at_id (parseInt (req_params_id req)) (false, s)
                             (fun id => deleteRubricTemplate id s));
  if negb success then mret (Json (status_json 404 (Message "Rubric template not found")))
  else mret (End 204)).

(** app.delete('/api/tasks/:id', isAdmin, ...) *)
Definition delete_task : Route Body := isAdmin (fun req =>
  success ← call (fun s => at_id (parseInt (req_params_id req)) (false, s)
                             (fun id => deleteTask id s));
  if negb success then mret (Json (status_json 404 (Message "Task not found")))
  else mret (End 204)).

(** app.delete('/api/class-tasks/:id', isAdmin, ...) *)
Definition delete_classTask : Route Body := isAdmin (fun req =>
  success ← call (fun s => at_id (parseInt (req_params_id req)) (false, s)
                             (fun id => deleteClassTask id s));
  if negb success then mret (Json (status_json 404 (Message "Class task not found")))
  else mret (End 204)).

(** app.delete('/api/assessments/:id', isAssessor, ...) *)
Definition delete_assessment : Route Body := isAssessor (fun req =>
  success ← call (fun s => at_id (parseInt (req_params_id req)) (false, s)
                             (fun id => deleteAssessment id s));
  if negb success then mret (Json (status_json 404 (Message "Assessment not found")))
  else mret (End 204)).

(** ** Creating an assessment *)

(** app.post('/api/assessments', isAssessor, ...) *)
Definition post_assessment : Route Body := isAssessor (fun req =>
  try_catch
    (assessmentData ← parse (parse_assessment (req_body req));
     assessment ← call (createAssessment (clock 0) assessmentData);
     (* If the assessment is completed, generate a PDF *)
     _ ← (if bool_decide (assessment_status assessment = Some status_completed)
          then
            pdfPath ← generatePDF cwd (assessment_id assessment);
            _ ← call (updateAssessment (clock 1) (assessment_id assessment)
                        (only_pdfPath pdfPath));
            mret tt
          else mret tt);
     assessmentWithRelations ←
       query (getAssessmentWithRelations (assessment_id assessment));
     mret (Json (status_json 201 (OfAssessment assessmentWithRelations))))
    (fun err =>
       match err with
       | ZodError errors =>
           mret (Json (status_json 400 (Invalid "Invalid assessment data" errors)))
       | _ => mret (Json (status_json 500 (Message "Error creating assessment")))
       end)).

(** ** Other listings *)




End Handlers.

End Api.

(* ===================================================================== *)
(** * JSON request bodies and the insert schemas on them

    An instance of [Routes.Schemas] that follows the column declarations of
    shared/schema.ts ([text] is a string, [integer] an integral number,
    a column without [notNull] accepts [null], [partial()] accepts a missing
    field, unknown fields are dropped).  The routes are proved for every
    instance; this one gives concrete requests to run them on. *)
(* ===================================================================== *)
Module Zod.
Import Schema Routes.

(** [body[k]]; the last of repeated keys is the one [JSON.parse] keeps. *)
Fixpoint field (k : string) (fields : list (string * Json)) : option Json :=
  match fields with
  | [] => None
  | (k', v) :: rest =>
      match field k rest with
      | Some v' => Some v'
      | None => if bool_decide (k' = k) then Some v else None
      end
  end.

Definition type_name (j : Json) : string :=
  match j with
  | JNull => "null"
  | JBool _ => "boolean"
  | JNumber _ => "number"
  | JString _ => "string"
  | JArray _ => "array"
  | JObject _ => "object"
  end.

Definition expected (path : list string) (what : string) (j : Json) : ZodIssue :=
  {| issue_path := path;
     issue_message := "Expected " +:+ what +:+ ", received " +:+ type_name j |}.

(** The integer a number is, when it is one. *)
Definition Number_to_Z (x : float) : option Z :=
  match Prim2SF x with
  | S754_zero _ => Some 0%Z
  | S754_finite s m e =>
      let sign := fun n => if s then (- n)%Z else n in
      if (0 <=? e)%Z then Some (sign (Zpos m * 2 ^ e)%Z)
      else if (Zpos m mod 2 ^ (- e) =? 0)%Z then Some (sign (Zpos m / 2 ^ (- e))%Z)
      else None
  | _ => None
  end.

(** The result of checking one optional field: its issues, and its value
    when supplied and well-typed. *)
Definition Checked (A : Type) : Type := list ZodIssue * option A.

Definition opt_string (k : string) (fields : list (string * Json)) : Checked string :=
  match field k fields with
  | None => ([], None)
  | Some (JString s) => ([], Some s)
  | Some j => ([expected [k] "string" j], None)
  end.

Definition opt_nullable_string (k : string) (fields : list (string * Json))
  : Checked (option string) :=
  match field k fields with
  | None => ([], None)
  | Some JNull => ([], Some None)
  | Some (JString s) => ([], Some (Some s))
  | Some j => ([expected [k] "string" j], None)
  end.

Definition check_integer (path : list string) (j : Json) : list ZodIssue + Z :=
  match j with
  | JNumber x =>
      match Number_to_Z x with
      | Some z => inr z
      | None => inl [{| issue_path := path;
                        issue_message := "Expected integer, received float" |}]
      end
  | j => inl [expected path "number" j]
  end.

Definition opt_integer (k : string) (fields : list (string * Json)) : Checked Z :=
  match field k fields with
  | None => ([], None)
  | Some j =>
      match check_integer [k] j with
      | inr z => ([], Some z)
      | inl errors => (errors, None)
      end
  end.

Fixpoint check_integers (k : string) (i : nat) (l : list Json) : list ZodIssue * list Z :=
  match l with
  | [] => ([], [])
  | j :: rest =>
      let '(errors, zs) := check_integers k (S i) rest in
      match check_integer [k; JS.nat_toString i] j with
      | inr z => (errors, z :: zs)
      | inl e => (e ++ errors, zs)
      end
  end.

Definition opt_integer_array (k : string) (fields : list (string * Json)) : Checked (list Z) :=
  match field k fields with
  | None => ([], None)
  | Some (JArray l) =>
      let '(errors, zs) := check_integers k 0 l in
      (errors, match errors with [] => Some zs | _ => None end)
  | Some j => ([expected [k] "array" j], None)
  end.

Definition opt_number (k : string) (fields : list (string * Json)) : Checked float :=
  match field k fields with
  | None => ([], None)
  | Some (JNumber x) =>
      match Number_to_Z x with
      | Some _ => ([], Some x)
      | None => ([{| issue_path := [k];
                     issue_message := "Expected integer, received float" |}], None)
      end
  | Some j => ([expected [k] "number" j], None)
  end.

(** A [jsonb] column takes any JSON value. *)
Definition opt_json (k : string) (fields : list (string * Json)) : Checked Json :=
  ([], field k fields).

Definition opt_status (k : string) (fields : list (string * Json)) : Checked AssessmentStatus :=
  match field k fields with
  | None => ([], None)
  | Some (JString "draft") => ([], Some status_draft)
  | Some (JString "completed") => ([], Some status_completed)
  | Some (JString s) =>
      ([{| issue_path := [k];
           issue_message := "Invalid enum value. Expected 'draft' | 'completed', received '"
                            +:+ s +:+ "'" |}], None)
  | Some j => ([expected [k] "'draft' | 'completed'" j], None)
  end.

(** An object schema: the body must be an object, and all issues of its
    fields are reported together. *)
Definition object {A : Type} (body : Json)
    (fields_of : list (string * Json) -> list ZodIssue * A) : list ZodIssue + A :=
  match body with
  | JObject fields =>
      match fields_of fields with
      | ([], a) => inr a
      | (errors, _) => inl errors
      end
  | j => inl [expected [] "object" j]
  end.

#[global] Instance json_schemas : Schemas Json := {|
  parse_partial_school body := object body (fun fields =>
    let '(e1, name) := opt_string "name" fields in
    let '(e2, address) := opt_nullable_string "address" fields in
    (e1 ++ e2, {| partialSchool_name := name; partialSchool_address := address |}));
  parse_partial_class body := object body (fun fields =>
    let '(e1, name) := opt_string "name" fields in
    let '(e2, schoolId) := opt_integer "schoolId" fields in
    (e1 ++ e2, {| partialClass_name := name; partialClass_schoolId := schoolId |}));
  parse_partial_student body := object body (fun fields =>
    let '(e1, userId) := opt_integer "userId" fields in
    let '(e2, classId) := opt_integer "classId" fields in
    (e1 ++ e2, {| partialStudent_userId := userId; partialStudent_classId := classId |}));
  parse_partial_assessor body := object body (fun fields =>
    let '(e1, userId) := opt_integer "userId" fields in
    let '(e2, schoolIds) := opt_integer_array "schoolIds" fields in
    (e1 ++ e2, {| partialAssessor_userId := userId; partialAssessor_schoolIds := schoolIds |}));
  parse_partial_rubricTemplate body := object body (fun fields =>
    let '(e1, name) := opt_string "name" fields in
    let '(e2, description) := opt_nullable_string "description" fields in
    let '(e3, criteria) := opt_json "criteria" fields in
    (e1 ++ e2 ++ e3,
     {| partialRubricTemplate_name := name;
        partialRubricTemplate_description := description;
        partialRubricTemplate_criteria := criteria |}));
  parse_partial_task body := object body (fun fields =>
    let '(e1, name) := opt_string "name" fields in
    let '(e2, description) := opt_nullable_string "description" fields in
    let '(e3, rubricTemplateId) := opt_integer "rubricTemplateId" fields in
    (e1 ++ e2 ++ e3,
     {| partialTask_name := name; partialTask_description := description;
        partialTask_rubricTemplateId := rubricTemplateId |}));
  parse_partial_assessment body := object body (fun fields =>
    let '(e1, studentId) := opt_integer "studentId" fields in
    let '(e2, assessorId) := opt_integer "assessorId" fields in
    let '(e3, taskId) := opt_integer "taskId" fields in
    let '(e4, status) := opt_status "status" fields in
    let '(e5, scores) := opt_json "scores" fields in
    let '(e6, totalScore) := opt_number "totalScore" fields in
    let '(e7, feedback) := opt_nullable_string "feedback" fields in
    let '(e8, pdfPath) := opt_nullable_string "pdfPath" fields in
    (e1 ++ e2 ++ e3 ++ e4 ++ e5 ++ e6 ++ e7 ++ e8,
     {| partialAssessment_studentId := studentId;
        partialAssessment_assessorId := assessorId;
        partialAssessment_taskId := taskId;
        partialAssessment_status := status;
        partialAssessment_scores := scores;
        partialAssessment_totalScore := totalScore;
        partialAssessment_feedback := feedback;
        partialAssessment_pdfPath := pdfPath |}))
|}.

(** A field the schema requires. *)
Definition required {A : Type} (k : string) (fields : list (string * Json)) (c : Checked A)
  : Checked A :=
  match field k fields with
  | None => ([{| issue_path := [k]; issue_message := "Required" |}], None)
  | Some _ => c
  end.

(** The insert schemas: the columns of a table without [id], [createdAt]
    and [updatedAt]; a column that is not null and has no default is
    required.  A record is returned only when there is no issue, so what
    stands in for a missing field is never seen. *)
#[global] Instance json_insert_schemas : Api.InsertSchemas Json := {|
  Api.parse_school body := object body (fun fields =>
    let '(e1, name) := required "name" fields (opt_string "name" fields) in
    let '(e2, address) := opt_nullable_string "address" fields in
    (e1 ++ e2, {| insertSchool_name := default "" name;
                  insertSchool_address := default None address |}));
  Api.parse_class body := object body (fun fields =>
    let '(e1, name) := required "name" fields (opt_string "name" fields) in
    let '(e2, schoolId) := required "schoolId" fields (opt_integer "schoolId" fields) in
    (e1 ++ e2, {| insertClass_name := default "" name;
                  insertClass_schoolId := default 0%Z schoolId |}));
  Api.parse_rubricTemplate body := object body (fun fields =>
    let '(e1, name) := required "name" fields (opt_string "name" fields) in
    let '(e2, description) := opt_nullable_string "description" fields in
    let '(e3, criteria) := required "criteria" fields (opt_json "criteria" fields) in
    (e1 ++ e2 ++ e3,
     {| insertRubricTemplate_name := default "" name;
        insertRubricTemplate_description := default None description;
        insertRubricTemplate_criteria := default JNull criteria |}));
  Api.parse_assessment body :=
    match body with
    | JObject fields =>
        let '(e1, studentId) := required "studentId" fields (opt_integer "studentId" fields) in
        let '(e2, assessorId) :=
          required "assessorId" fields (opt_integer "assessorId" fields) in
        let '(e3, taskId) := required "taskId" fields (opt_integer "taskId" fields) in
        let '(e4, status) := opt_status "status" fields in
        let '(e5, scores) := required "scores" fields (opt_json "scores" fields) in
        let '(e6, totalScore) :=
          required "totalScore" fields (opt_number "totalScore" fields) in
        let '(e7, feedback) := opt_nullable_string "feedback" fields in
        let '(e8, pdfPath) := opt_nullable_string "pdfPath" fields in
        match e1 ++ e2 ++ e3 ++ e4 ++ e5 ++ e6 ++ e7 ++ e8,
              studentId, assessorId, taskId, scores, totalScore with
        | [], Some studentId, Some assessorId, Some taskId, Some scores, Some totalScore =>
            inr {| insertAssessment_studentId := studentId;
                   insertAssessment_assessorId := assessorId;
                   insertAssessment_taskId := taskId;
                   insertAssessment_status := status;
                   insertAssessment_scores := scores;
                   insertAssessment_totalScore := totalScore;
                   insertAssessment_feedback := default None feedback;
                   insertAssessment_pdfPath := default None pdfPath |}
        | errors, _, _, _, _, _ => inl errors
        end
    | j => inl [expected [] "object" j]
    end
|}.

End Zod.

(* ===================================================================== *)
(** * client/src/pages/assessor/results.tsx: the filters of the results page *)
(* ===================================================================== *)
Module ResultsPage.
Import JS Schema Storage.

(** The four selections of the page (lines 29-32): "all", or the value of
    the option chosen, which for a school, a class or a task is its id as a
    string. *)
Record Selection := {
  selectedSchool : string;
  selectedClass : string;
  selectedTask : string;
  selectedStatus : string
}.

(** [id.toString()] of an integer id. *)
Definition id_toString (id : Z) : string :=
  if (id <? 0)%Z then "-" +:+ digits (- id) else digits id.

(** [assessment.student?.class].  The assessments of the page are the
    answer of GET /api/assessments (lines 54-60), whose elements are what
    [getAssessmentWithRelations] builds: their student is
    [{ ...student, user }] (storage.ts:857), an object with no [class]
    property, so what is read is [undefined]. *)
Definition student_class (student : StudentWithUser) : option Class := None.

(** Lines 87-116: the callback of the filter. *)
Definition keeps (sel : Selection) (assessment : AssessmentWithRelations) : bool :=
  (* Filter by status *)
  if negb (String.eqb (selectedStatus sel) "all")
     && negb (bool_decide (status_string (awr_assessment assessment)
                           = Some (selectedStatus sel)))
  then false
  (* Filter by school (via class) *)
  else if negb (String.eqb (selectedSchool sel) "all")
          && (let schoolId := class_schoolId <$> student_class (awr_student assessment) in
              negb (bool_decide (id_toString <$> schoolId = Some (selectedSchool sel))))
  then false
  (* Filter by class *)
  else if negb (String.eqb (selectedClass sel) "all")
          && (let classId := student_classId (swu_student (awr_student assessment)) in
              negb (bool_decide (id_toString classId = selectedClass sel)))
  then false
  (* Filter by task *)
  else if negb (String.eqb (selectedTask sel) "all")
          && negb (bool_decide (id_toString (assessment_taskId (awr_assessment assessment))
                                = selectedTask sel))
  then false
  else true.

(** Lines 86-117: [assessments.filter(...)]. *)
Definition filteredAssessments (sel : Selection) (assessments : list AssessmentWithRelations)
  : list AssessmentWithRelations :=
  List.filter (keeps sel) assessments.

End ResultsPage.

(* ===================================================================== *)
(** * What the specification says, in its own words *)
(* ===================================================================== *)
Module Spec.
Import Schema Storage.

(** Section 4.1, the derived label: score <2 is "Needs Improvement", <3
    "Developing", <4 "Proficient", <4.5 "Advanced", else "Exemplary"; each
    threshold applies to the scores the earlier ones did not take. *)
Inductive score_level (s : float) : string -> Prop :=
| level_needs_improvement :
    (s <? 2)%float = true -> score_level s "Needs Improvement"
| level_developing :
    (s <? 2)%float = false -> (s <? 3)%float = true -> score_level s "Developing"
| level_proficient :
    (s <? 2)%float = false -> (s <? 3)%float = false -> (s <? 4)%float = true ->
    score_level s "Proficient"
| level_advanced :
    (s <? 2)%float = false -> (s <? 3)%float = false -> (s <? 4)%float = false ->
    (s <? 4.5)%float = true -> score_level s "Advanced"
| level_exemplary :
    (s <? 2)%float = false -> (s <? 3)%float = false -> (s <? 4)%float = false ->
    (s <? 4.5)%float = false -> score_level s "Exemplary".

(** Section 8, filtering assessments by status, school, class and task:
    the filters a client may supply together. *)
Record ListingFilters := {
  by_status : option string;
  by_school : option Z;
  by_class : option Z;
  by_task : option Z
}.

(** An assessment satisfies every supplied filter; its class is its
    student's, its school that class's. *)
Definition satisfies (s : MemStorage) (f : ListingFilters) (a : Assessment) : Prop :=
  (forall st, by_status f = Some st -> status_string a = Some st) /\
  (forall k, by_task f = Some k -> assessment_taskId a = k) /\
  (forall k, by_class f = Some k ->
     exists student, students s !! assessment_studentId a = Some student
                     /\ student_classId student = k) /\
  (forall k, by_school f = Some k ->
     exists student cls, students s !! assessment_studentId a = Some student
                         /\ classes s !! student_classId student = Some cls
                         /\ class_schoolId cls = k).

(** Every student's user has the student role, every assessor's the
    assessor role. *)
Definition linked_roles (s : MemStorage) : Prop :=
  (forall id student, students s !! id = Some student ->
     exists user, users s !! student_userId student = Some user
                  /\ user_role user = role_student) /\
  (forall id assessor, assessors s !! id = Some assessor ->
     exists user, users s !! assessor_userId assessor = Some user
                  /\ user_role user = role_assessor).

(** The user counter is ahead of every user id in use. *)
Definition fresh_userId (s : MemStorage) : Prop :=
  forall id, is_Some (users s !! id) -> (id < userId s)%Z.

End Spec.

(* ===================================================================== *)
(** * The predicates the facts are stated with *)
(* ===================================================================== *)
Module Props.
Import JS Schema Storage Routes PdfGenerator Spec.

(** ** Numbers *)



(** ** Documents *)

(** [doc'] is [doc] with further calls made on it, all of them in [P]. *)
Definition adds (P : Op -> Prop) (doc doc' : jsPDF) : Prop :=
  exists l, ops doc' = ops doc ++ l /\ Forall (fun po => P po.2) l.

Definition extends : jsPDF -> jsPDF -> Prop := adds (fun _ => True).

(** The calls of a footer. *)
Definition footer_call (o : Op) : Prop :=
  match o with
  | SetPage _ | SetFontSize _ | SetTextColor _ _ _ | Text _ _ _ _ => True
  | _ => False
  end.

(** The calls made when there is no criterion: no page is added, and the
    only tables are the details and the overall feedback. *)
Definition empty_criteria_call (toLocaleDateString : Date -> string)
    (o : AssessmentPdfOptions) (op : Op) : Prop :=
  match op with
  | AddPage => False
  | AutoTable t =>
      t = details_table toLocaleDateString o
      \/ exists y, t = overall_table y (default "" (overallFeedback o))
  | _ => True
  end.

(** One page, and the calls are made on it. *)
Definition on_single_page (doc : jsPDF) : Prop := page doc = 1%nat /\ numberOfPages doc = 1%nat.

(** Every string the document shows: texts and table cells. *)
Definition op_strings (o : Op) : list string :=
  match o with
  | Text s _ _ _ => [s]
  | AutoTable t => map content (concat (tbl_head t ++ tbl_body t))
  | _ => []
  end.

Definition doc_strings (doc : jsPDF) : list string :=
  concat (map (fun po => op_strings po.2) (ops doc)).

(** The document shows the text "NaN" somewhere. *)
Definition shows_NaN (doc : jsPDF) : bool :=
  existsb (includes "NaN") (doc_strings doc).

(** Every coordinate and size handed to a drawing call is a finite number. *)
Definition op_finite (o : Op) : bool :=
  match o with
  | Rect x y w h _ =>
      Number_isFinite x && Number_isFinite y && Number_isFinite w && Number_isFinite h
  | Text _ x y _ => Number_isFinite x && Number_isFinite y
  | Line x1 y1 x2 y2 =>
      Number_isFinite x1 && Number_isFinite y1 && Number_isFinite x2 && Number_isFinite y2
  | AutoTable t => Number_isFinite (startY t)
  | _ => true
  end.

(** A well-formed document: finite geometry, no "NaN" shown, and every
    call made on a page the document has. *)
Definition valid_document (doc : jsPDF) : bool :=
  forallb (fun po => op_finite po.2 && (1 <=? po.1)%nat && (po.1 <=? numberOfPages doc)%nat)
    (ops doc)
  && negb (shows_NaN doc).

(** ** The store *)

(** A field of a spread: the supplied value, else the existing one. *)
Definition kept {A R : Type} (field : R -> A) (supplied : option A) (existing updated : R)
  : Prop :=
  match supplied with
  | Some v => field updated = v
  | None => field updated = field existing
  end.

(** The invariant of the create operations. *)
Definition roles_inv (s : MemStorage) : Prop := linked_roles s /\ fresh_userId s.


(** Every record of a map is stored under its own id, and the ids in use
    are positive and below the counter that hands out the next one. *)
Definition keyed {A : Type} (id : A -> Z) (m : gmap Z A) (next : Z) : Prop :=
  (1 <= next)%Z /\ forall k x, m !! k = Some x -> id x = k /\ (1 <= k < next)%Z.

Definition store_inv (s : MemStorage) : Prop :=
  keyed user_id (users s) (userId s)
  /\ keyed school_id (schools s) (schoolId s)
  /\ keyed class_id (classes s) (classId s)
  /\ keyed student_id (students s) (studentId s)
  /\ keyed assessor_id (assessors s) (assessorId s)
  /\ keyed rubricTemplate_id (rubricTemplates s) (rubricTemplateId s)
  /\ keyed task_id (tasks s) (taskId s)
  /\ keyed classTask_id (classTasks s) (classTaskId s)
  /\ keyed assessment_id (assessments s) (assessmentId s).

(** ** Requests *)

(** The conditions the middleware tests. *)
Definition admin_request {Body} (req : Request Body) : Prop :=
  exists user, req_user req = Some user /\ user_role user = role_admin.

Definition assessor_request {Body} (req : Request Body) : Prop :=
  exists user, req_user req = Some user
               /\ (user_role user = role_assessor \/ user_role user = role_admin).

(** The entry of a map that [req.params.id] names, if any. *)
Definition target {Body A} (req : Request Body) (m : gmap Z A) : option A :=
  at_id (parseInt (req_params_id req)) None (fun id => m !! id).

(** The filters GET /api/assessments builds from the query string. *)
Definition query_filters {Body} (req : Request Body) : AssessmentFilters :=
  {| filters_studentId := query_id (req_query req !! "studentId");
     filters_assessorId := query_id (req_query req !! "assessorId");
     filters_taskId := query_id (req_query req !! "taskId");
     filters_status := truthy_str (req_query req !! "status") |}.

(** The assessments of a listing: those the storage query returns, each
    with its relations, those whose relations do not all resolve left out. *)
Definition listing {Body} (req : Request Body) (s : MemStorage) : list AssessmentWithRelations :=
  omap id (map (fun assessment => getAssessmentWithRelations (assessment_id assessment) s)
             (getAssessments (Some (query_filters req)) s)).

(** ** What the operations and the routes do *)

(** [r], returned by a create operation on [s], is a new entry: its id was
    not in use, a lookup of it now finds the record returned, and every other
    entry is as it was. *)
Definition created {A : Type} (get : Z -> MemStorage -> option A) (id : A -> Z)
    (s : MemStorage) (r : A * MemStorage) : Prop :=
  get (id r.1) s = None
  /\ get (id r.1) r.2 = Some r.1
  /\ forall k, k <> id r.1 -> get k r.2 = get k s.

(** A string without white space. *)
Definition no_space (s : string) : Prop :=
  Forall (fun c => is_space c = false) (list_ascii_of_string s).

(** The name of the file [generatePDF] writes for an assessment. *)
Definition pdf_name (r : AssessmentWithRelations) : string :=
  JS.replace_spaces "" false (user_fullName (swu_user (awr_student r))) +:+ "_"
  +:+ JS.replace_spaces "" false (task_name (twr_task (awr_task r))) +:+ ".pdf".

(** The file [generatePDF] writes for it, and the path it returns. *)
Definition pdf_file `{Node} (cwd : string) (r : AssessmentWithRelations) : string :=
  path_join cwd (path_join "pdfs" (pdf_name r)).

Definition pdf_path `{Node} (r : AssessmentWithRelations) : string :=
  "/" +:+ path_join "pdfs" (pdf_name r).

(** Whether [PUT /api/assessments/:id] generates the PDF: the assessment is
    completed now, and was not before or had no PDF. *)
Definition generates_pdf (current updated : Assessment) : bool :=
  bool_decide (assessment_status updated = Some status_completed)
  && (negb (bool_decide (assessment_status current = Some status_completed))
      || no_pdfPath current).

(** [rest] is empty or starts with a character that is no decimal digit. *)
Definition no_digit_ahead (rest : string) : Prop :=
  match rest with
  | EmptyString => True
  | String c _ => digit_value 10 c = None
  end.

(** What a delete route answers: 204 when the entry named by the request
    was there, and then it is gone and the files are untouched; 404 and an
    unchanged world when it was not. *)
Definition delete_answers {Body A : Type} (route : Api.Route Body)
    (table : MemStorage -> gmap Z A) (message : string) (req : Request Body) (w : World)
  : Prop :=
  match target req (table (storage w)) with
  | Some _ =>
      exists w', route req w = (inr (Api.End 204), w')
                 /\ target req (table (storage w')) = None
                 /\ files w' = files w
  | None => route req w = (inr (Api.Json (status_json 404 (Message message))), w)
  end.

(** What a POST route answers when it creates an entry, and what the GET
    route of the same kind makes of it: 201 with [body], the new record,
    the files untouched; any signed-in user's GET of [id] written in decimal
    was answered with 404 before, and is answered with the record after. *)
Definition created_and_served {Body : Type} (post get : Api.Route Body) (id : Z)
    (body : ResBody) (message : string) (req : Request Body) (w : World) : Prop :=
  exists w', post req w = (inr (Api.Json (status_json 201 body)), w')
             /\ files w' = files w
             /\ forall reader : Request Body,
                  req_user reader <> None -> req_params_id reader = digits id ->
                  get reader w = (inr (Api.Json (status_json 404 (Message message))), w)
                  /\ get reader w' = (inr (Api.Json (json body)), w').

(** What a PUT route answers when it updates entry [k]: 200 with [body],
    read off the store it leaves; [updated] is then what a lookup of [k]
    finds, and the other entries of the table and the files are as they
    were. *)
Definition update_answers {Body A : Type} (route : Handler Body)
    (get : Z -> MemStorage -> option A) (k : Z) (updated : A)
    (body : MemStorage -> ResBody) (req : Request Body) (w : World) : Prop :=
  exists w', route req w = (inr (json (body (storage w'))), w')
             /\ get k (storage w') = Some updated
             /\ (forall k', k' <> k -> get k' (storage w') = get k' (storage w))
             /\ files w' = files w.

End Props.

(* ===================================================================== *)
(** * Sample inputs, to run the definitions on *)
(* ===================================================================== *)
Module Samples.
Import JS Schema Storage Routes PdfGenerator.
Local Open Scope Z_scope.

(** An environment: one date format, and a table layout that gives each
    row 8 units and never leaves the page. *)
Definition toLocaleDateString (d : Date) : string := "5/18/2025".
Definition toISOString (d : Date) : string := "2025-05-18T00:00:00.000Z".

Definition layout (doc : jsPDF) (o : AutoTableOptions) : float * nat :=
  ((startY o + 8 * Number_of_nat (length (tbl_head o ++ tbl_body o)))%float, 0%nat).

(** A layout whose tables each run over to the next page. *)
Definition overflowing_layout (doc : jsPDF) (o : AutoTableOptions) : float * nat :=
  (40%float, 1%nat).

Definition content_knowledge : Criterion :=
  {| name := "Content Knowledge";
     description := Some "Understanding of key concepts and subject matter";
     score := 3;
     feedback := Some "Good use of the text" |}.

(** A preview whose total score is NaN. *)
Definition nan_total : AssessmentPdfOptions :=
  {| studentName := "Jordan Smith"; assessorName := "John Smith";
     taskName := "Text Response Essay"; criteria := [content_knowledge];
     overallFeedback := Some "A solid effort"; totalScore := nan; date := 0%Z |}.

(** A preview without criteria. *)
Definition no_criteria : AssessmentPdfOptions :=
  {| studentName := "Jordan Smith"; assessorName := "John Smith";
     taskName := "Text Response Essay"; criteria := [];
     overallFeedback := None; totalScore := 0; date := 0%Z |}.

Definition completed_19 : AssessmentData :=
  {| data_status := "completed"; data_totalScore := 19;
     data_student_fullName := Some "Jordan Smith"; data_task_name := Some "Text Response Essay";
     data_assessor_fullName := Some "John Smith"; data_updatedAt := Some 0%Z |}.



(** The world of a fresh server. *)
Definition world : World := {| storage := new_MemStorage 0; files := ∅ |}.

(** ** A Node to run the routes on

    POSIX [path.normalize] and [path.join] of two segments, as Node
    documents them: empty segments and "." are dropped, ".." takes back the
    segment before it, and a path that comes out empty is ".". *)
Fixpoint segments (path current : string) : list string :=
  match path with
  | EmptyString => [current]
  | String c rest =>
      if Ascii.eqb c "/" then current :: segments rest ""
      else segments rest (current +:+ String c "")
  end.

Definition normalizeString (allowAboveRoot : bool) (path : string) : string :=
  let step (res : list string) (segment : string) : list string :=
    if String.eqb segment "" || String.eqb segment "." then res
    else if String.eqb segment ".." then
      match res with
      | top :: rest =>
          if String.eqb top ".." then (if allowAboveRoot then ".." :: res else res) else rest
      | [] => if allowAboveRoot then [".."] else []
      end
    else segment :: res in
  String.concat "/" (rev (fold_left step (segments path "") [])).

Definition ends_with_slash (path : string) : bool :=
  match String.get (String.length path - 1) path with
  | Some c => Ascii.eqb c "/"
  | None => false
  end.

Definition normalize (path : string) : string :=
  if String.eqb path "" then "."
  else
    let isAbsolute := String.prefix "/" path in
    let trailingSeparator := ends_with_slash path in
    let p := normalizeString (negb isAbsolute) path in
    if String.eqb p "" then
      (if isAbsolute then "/" else if trailingSeparator then "./" else ".")
    else (if isAbsolute then "/" else "") +:+ p +:+ (if trailingSeparator then "/" else "").

Definition join (a b : string) : string :=
  if String.eqb a "" then normalize b
  else if String.eqb b "" then normalize a
  else normalize (a +:+ "/" +:+ b).

(** A path cut at its last slash: the directory, with that slash, and the
    name of the file. *)
Fixpoint cut_at_last_slash (path directory current : string) : string * string :=
  match path with
  | EmptyString => (directory, current)
  | String c rest =>
      if Ascii.eqb c "/" then cut_at_last_slash rest (directory +:+ current +:+ "/") ""
      else cut_at_last_slash rest directory (current +:+ String c "")
  end.

(** A file system that holds the working directory /app and the directory
    /app/pdfs the server makes when it starts (routes.ts:12-16), and no
    other directory: a file can be written in these two, and nowhere
    else. *)
Definition ENOENT (path : string) : option string :=
  let '(directory, name) := cut_at_last_slash path "" "" in
  if String.eqb path "/app/pdfs" then
    Some ("EISDIR: illegal operation on a directory, open '" +:+ path +:+ "'")
  else if (String.eqb directory "/app/" || String.eqb directory "/app/pdfs/")
          && negb (String.eqb name "")
  then None
  else Some ("ENOENT: no such file or directory, open '" +:+ path +:+ "'").

Definition node : Node := {| path_join := join; write_error := ENOENT |}.

(** The same with a full disk. *)
Definition full_disk : Node :=
  {| path_join := join;
     write_error path := Some "ENOSPC: no space left on device, write" |}.

Definition admin_user : User :=
  {| user_id := 1; user_username := "admin"; user_password := "admin123";
     user_email := "admin@example.com"; user_fullName := "Admin User";
     user_role := role_admin; user_createdAt := 0 |}.

Definition student_user : User :=
  {| user_id := 3; user_username := "student1"; user_password := "student123";
     user_email := "student1@example.com"; user_fullName := "Jordan Smith";
     user_role := role_student; user_createdAt := 0 |}.

(** PUT /api/schools/1 with a body whose name is a number. *)
Definition bad_school_body : Json := JObject [("name", JNumber 5)].

(** A body the school schema accepts. *)
Definition good_school_body : Json := JObject [("name", JString "Northside High")].

Definition put_by (user : User) (id : string) (body : Json) : Request Json :=
  {| req_user := Some user; req_params_id := id; req_query := ∅; req_body := body |}.

(** GET /api/assessments with the given query. *)
Definition get_by (user : User) (query : gmap string string) : Request Json :=
  {| req_user := Some user; req_params_id := ""; req_query := query; req_body := JNull |}.

Definition assessor_user : User :=
  {| user_id := 2; user_username := "assessor"; user_password := "assessor123";
     user_email := "assessor@example.com"; user_fullName := "John Smith";
     user_role := role_assessor; user_createdAt := 0 |}.

(** The body of a POST /api/assessments for the given student, by assessor
    1 on task 1. *)
Definition assessment_body (studentId : Z) (status : string) : Json :=
  JObject [("studentId", JNumber (JS.Number_of_Z studentId)); ("assessorId", JNumber 1);
           ("taskId", JNumber 1); ("status", JString status);
           ("scores", JObject [("1", JNumber 4)]); ("totalScore", JNumber 4)].

(** What the schema makes of it. *)
Definition assessment_data (studentId : Z) (status : AssessmentStatus) : InsertAssessment :=
  {| insertAssessment_studentId := studentId; insertAssessment_assessorId := 1;
     insertAssessment_taskId := 1; insertAssessment_status := Some status;
     insertAssessment_scores := JObject [("1", JNumber 4)];
     insertAssessment_totalScore := 4; insertAssessment_feedback := None;
     insertAssessment_pdfPath := None |}.

(** The world after a draft for the given student was saved: assessment 2. *)
Definition world_with_draft (studentId : Z) : World :=
  {| storage := (createAssessment 0 (assessment_data studentId status_draft)
                   (new_MemStorage 0)).2;
     files := ∅ |}.

(** The demo data with one more student, named A/B: student 3, in class 1. *)
Definition world_with_slash : World :=
  {| storage := (createStudent 0 {| insertStudent_userId := 0; insertStudent_classId := 1 |}
                   {| insertUser_username := "ab"; insertUser_password := "ab123";
                      insertUser_email := "ab@example.com"; insertUser_fullName := "A/B";
                      insertUser_role := role_student |}
                   (new_MemStorage 0)).2;
     files := ∅ |}.

(** A body that completes an assessment. *)
Definition completing_body : Json := JObject [("status", JString "completed")].

Definition completing_data : PartialInsertAssessment :=
  {| partialAssessment_studentId := None; partialAssessment_assessorId := None;
     partialAssessment_taskId := None; partialAssessment_status := Some status_completed;
     partialAssessment_scores := None; partialAssessment_totalScore := None;
     partialAssessment_feedback := None; partialAssessment_pdfPath := None |}.

(** A school to create. *)
Definition northside : InsertSchool :=
  {| insertSchool_name := "Northside High"; insertSchool_address := None |}.

Definition clock (n : nat) : Date := Z.of_nat n.

(** Sample scores at and around the thresholds of the levels. *)
Definition boundary_scores : list float :=
  [1; 1.99; 2; 2.5; 2.99; 3; 3.99; 4; 4.49; 4.5; 5; nan]%float.

End Samples.

(* ===================================================================== *)
(** * Facts about numbers *)
(* ===================================================================== *)
Module NumberFacts.
Import JS.
Local Open Scope float_scope.

Lemma Prim2SF_0 : Prim2SF 0 = S754_zero false.
Proof. reflexivity. Qed.

Lemma Prim2SF_100 : Prim2SF 100 = S754_finite false 7036874417766400 (-46).
Proof. reflexivity. Qed.

Lemma Prim2SF_182 : Prim2SF 182 = S754_finite false 6403555720167424 (-45).
Proof. reflexivity. Qed.

(** [Math.round] returns NaN, the infinities and the zeros as they are. *)
Lemma Math_round_special (x : float) :
  match Prim2SF x with S754_finite _ _ _ => False | _ => True end ->
  Math_round x = x.
Proof. unfold Math_round. destruct (Prim2SF x); tauto. Qed.

(** There is one NaN. *)
Lemma isNaN_nan (x : float) : Number_isNaN x = true -> x = nan.
Proof.
  unfold Number_isNaN. intros Hx. apply Prim2SF_inj.
  destruct (Prim2SF x); try discriminate. reflexivity.
Qed.

Lemma isNaN_not_finite (x : float) : Number_isNaN x = true -> Number_isFinite x = false.
Proof. unfold Number_isNaN, Number_isFinite. destruct (Prim2SF x); congruence. Qed.

Lemma toFixed_NaN (f : nat) (x : float) : Number_isNaN x = true -> toFixed f x = "NaN".
Proof. unfold Number_isNaN, toFixed. destruct (Prim2SF x); congruence. Qed.

Lemma toString_NaN (x : float) : Number_isNaN x = true -> Number_toString x = "NaN".
Proof. unfold Number_isNaN, Number_toString. destruct (Prim2SF x); congruence. Qed.




(** 0 / m * 100, rounded: zero for a non-zero number [m], NaN otherwise. *)
Lemma percentage_of_zero (m : float) :
  Prim2SF (Math_round ((0 / m) * 100)) =
  match Prim2SF m with
  | S754_nan | S754_zero _ => S754_nan
  | S754_infinity s | S754_finite s _ _ => S754_zero s
  end.
Proof.
  assert (Hx : Prim2SF ((0 / m) * 100) =
               match Prim2SF m with
               | S754_nan | S754_zero _ => S754_nan
               | S754_infinity s | S754_finite s _ _ => S754_zero s
               end).
  { rewrite mul_spec, div_spec, Prim2SF_100, Prim2SF_0.
    destruct (Prim2SF m) as [s| s| |s mm e]; try reflexivity; destruct s; reflexivity. }
  rewrite Math_round_special; [exact Hx|].
  rewrite Hx. destruct (Prim2SF m); exact I.
Qed.

(** v / 0 * 100, rounded, then scaled to the 182 units of the score bar:
    NaN or an infinity, whatever the finite [v]. *)
Lemma bar_width_over_zero (v : float) :
  Number_isFinite v = true ->
  Number_isFinite (182 * (Math_round ((v / 0) * 100) / 100)) = false.
Proof.
  unfold Number_isFinite at 1. intros Hv.
  assert (Hx : match Prim2SF ((v / 0) * 100) with
               | S754_nan | S754_infinity _ => True
               | _ => False
               end).
  { rewrite mul_spec, div_spec, Prim2SF_100, Prim2SF_0.
    destruct (Prim2SF v) as [s| s| |s mm e]; try discriminate; destruct s; exact I. }
  rewrite Math_round_special by (destruct (Prim2SF ((v / 0) * 100)); tauto).
  unfold Number_isFinite. rewrite mul_spec, div_spec, Prim2SF_100, Prim2SF_182.
  destruct (Prim2SF ((v / 0) * 100)) as [s| s| |s mm e]; try tauto; destruct s; reflexivity.
Qed.

(** [Math.round], [toFixed] and number printing on sample values. *)
Example Math_round_samples :
  map Math_round [0.5; 1.5; 2.5; -0.5; -1.5; -2.5; 0.49999999999999994; 75.5; 33.333333; nan]
  = [1; 2; 3; -0; -1; -2; 0; 76; 33; nan].
Proof. vm_compute. reflexivity. Qed.

Example toFixed_samples :
  map (toFixed 1) [3.7; 0.05; 0.04; -0.04; 1.25; 1.45; 19; 0; nan; infinity; 1e21]
  = ["3.7"; "0.1"; "0.0"; "-0.0"; "1.3"; "1.4"; "19.0"; "0.0"; "NaN"; "Infinity"; "1e+21"]
  /\ map (toFixed 2) [1.005; 10.235; 8.345; 3.8]
     = ["1.00"; "10.23"; "8.35"; "3.80"].
Proof. split; vm_compute; reflexivity. Qed.

Example Number_toString_samples :
  map Number_toString [3.7; 0.1 + 0.2; 100; 1e21; 0.000001; 0.0000001; 5e-324; 4.5;
                       1.7976931348623157e308; -1.5e-10; 1 / 3; nan; -0; neg_infinity]
  = ["3.7"; "0.30000000000000004"; "100"; "1e+21"; "0.000001"; "1e-7"; "5e-324"; "4.5";
     "1.7976931348623157e+308"; "-1.5e-10"; "0.3333333333333333"; "NaN"; "0"; "-Infinity"].
Proof. vm_compute. reflexivity. Qed.

End NumberFacts.

(* ===================================================================== *)
(** * Facts about counts and their ratios *)
(* ===================================================================== *)
Module RatioFacts.
Import JS Props NumberFacts.
Local Open Scope Z_scope.

(** ** Signs: what is computed from non-negative numbers is not NaN *)













(** ** Integers below 2^53 are represented exactly *)








End RatioFacts.

(* ===================================================================== *)
(** * Facts about the generated documents *)
(* ===================================================================== *)
Module PdfFacts.
Import JS PdfGenerator Props NumberFacts.
Local Open Scope float_scope.

Lemma adds_refl P doc : adds P doc doc.
Proof. exists []. by rewrite app_nil_r. Qed.

Lemma adds_trans P d1 d2 d3 : adds P d1 d2 -> adds P d2 d3 -> adds P d1 d3.
Proof.
  intros (l1 & H1 & F1) (l2 & H2 & F2). exists (l1 ++ l2). split.
  - by rewrite H2, H1, app_assoc.
  - by apply Forall_app.
Qed.

Lemma adds_weaken (P Q : Op -> Prop) d d' : (forall o, P o -> Q o) -> adds P d d' -> adds Q d d'.
Proof.
  intros HPQ (l & Hl & F). exists l. split; [done|].
  eapply Forall_impl; [exact F|]. intros po. apply HPQ.
Qed.

Lemma adds_extends P d d' : adds P d d' -> extends d d'.
Proof. by apply adds_weaken. Qed.

Lemma extends_elem doc doc' po : extends doc doc' -> po ∈ ops doc -> po ∈ ops doc'.
Proof. intros (l & -> & _) Hin. apply elem_of_app. by left. Qed.

(** What a document made from nothing holds was all added. *)
Lemma adds_from_new P doc po : adds P new_jsPDF doc -> po ∈ ops doc -> P po.2.
Proof.
  intros (l & Hl & F) Hin. cbn in Hl. rewrite Hl in Hin.
  by eapply Forall_forall in F.
Qed.

Lemma page_draw o doc : page (draw o doc) = page doc.
Proof. reflexivity. Qed.

Lemma draw_last_at o doc p : page doc = p -> (p, o) ∈ ops (draw o doc).
Proof. intros <-. cbn. apply elem_of_app. right. by apply list_elem_of_singleton. Qed.

Lemma draw_adds (P : Op -> Prop) o doc : P o -> adds P doc (draw o doc).
Proof. intros Ho. exists [(page doc, o)]. split; [done|]. by constructor. Qed.

Lemma addPage_adds (P : Op -> Prop) doc : P AddPage -> adds P doc (doc_addPage doc).
Proof. intros Ho. exists [(page doc, AddPage)]. split; [done|]. by constructor. Qed.

Lemma setPage_adds (P : Op -> Prop) i doc : P (SetPage i) -> adds P doc (doc_setPage i doc).
Proof. intros Ho. exists [(page doc, SetPage i)]. split; [done|]. by constructor. Qed.

Section Facts.
Variable toLocaleDateString : Date -> string.
Variable layout : jsPDF -> AutoTableOptions -> float * nat.

Lemma autoTable_ops t doc :
  ops (autoTable layout t doc) = ops doc ++ [(page doc, AutoTable t)].
Proof. unfold autoTable. by destruct (layout doc t). Qed.

Lemma autoTable_adds (P : Op -> Prop) t doc :
  P (AutoTable t) -> adds P doc (autoTable layout t doc).
Proof. intros Ho. eexists. split; [apply autoTable_ops|]. by constructor. Qed.

End Facts.

(** Chains of calls: one [adds] step per call, each side condition left
    to [tac]. *)
Ltac adds_chain tac :=
  repeat first
    [ apply adds_refl
    | eapply adds_trans;
      [| first [ apply draw_adds | apply autoTable_adds
               | apply addPage_adds | apply setPage_adds ]; tac ] ].

Ltac unfold_calls :=
  unfold doc_setFillColor, doc_setTextColor, doc_setDrawColor, doc_setFontSize,
    doc_rect, doc_text, doc_line, doc_save.

Section Preview.
Variable toLocaleDateString : Date -> string.
Variable layout : jsPDF -> AutoTableOptions -> float * nat.

Abbreviation autoTable := (PdfGenerator.autoTable layout).
Abbreviation criterion_section := (PdfGenerator.criterion_section layout).
Abbreviation preview_details := (PdfGenerator.preview_details toLocaleDateString layout).
Abbreviation preview_criteria := (PdfGenerator.preview_criteria layout).
Abbreviation preview_overall := (PdfGenerator.preview_overall layout).
Abbreviation preview_footer := (PdfGenerator.preview_footer toLocaleDateString).
Abbreviation preview_footers := (PdfGenerator.preview_footers toLocaleDateString).
Abbreviation generatePDFPreview := (PdfGenerator.generatePDFPreview toLocaleDateString layout).
Abbreviation empty_criteria_call := (Props.empty_criteria_call toLocaleDateString).

Lemma criterion_section_extends fc doc y c i :
  extends doc (criterion_section fc (doc, y) c i).1.
Proof.
  unfold PdfGenerator.criterion_section.
  destruct (description c) as [[|a d]|], (feedback c) as [[|b fb]|];
    try destruct (trim_nonempty (String b fb));
    match goal with |- context [if ?b then _ else _] => destruct b end;
    cbn [fst]; adds_chain ltac:(exact I).
Qed.

(** The title table of a criterion is the first thing its section draws. *)
Lemma criterion_section_title fc doc y c i :
  (page doc, AutoTable (criterion_title_table fc y c i))
  ∈ ops (criterion_section fc (doc, y) c i).1.
Proof.
  assert (H : extends (autoTable (criterion_title_table fc y c i) doc)
                      (criterion_section fc (doc, y) c i).1).
  { unfold PdfGenerator.criterion_section.
    destruct (description c) as [[|a d]|], (feedback c) as [[|b fb]|];
      try destruct (trim_nonempty (String b fb));
      match goal with |- context [if ?b then _ else _] => destruct b end;
      cbn [fst]; adds_chain ltac:(exact I). }
  eapply extends_elem; [exact H|].
  rewrite autoTable_ops. apply elem_of_app. right. by apply list_elem_of_singleton.
Qed.

Lemma forEach_from_extends fc l : forall i doc y,
  extends doc (forEach_from (criterion_section fc) i l (doc, y)).1.
Proof.
  induction l as [|c l IH]; intros i doc y; cbn [forEach_from]; [apply adds_refl|].
  destruct (criterion_section fc (doc, y) c i) as [doc' y'] eqn:E.
  eapply adds_trans; [|apply IH].
  change doc' with (doc', y').1. rewrite <- E. apply criterion_section_extends.
Qed.

(** Every criterion gets its title table, numbered from its position. *)
Lemma forEach_from_titles fc l : forall i doc y j c,
  l !! j = Some c ->
  exists p y', (p, AutoTable (criterion_title_table fc y' c (i + j)))
               ∈ ops (forEach_from (criterion_section fc) i l (doc, y)).1.
Proof.
  induction l as [|c0 l IH]; intros i doc y j c Hj; [done|].
  cbn [forEach_from].
  destruct (criterion_section fc (doc, y) c0 i) as [doc' y'] eqn:E.
  destruct j as [|j]; cbn in Hj.
  - injection Hj as ->. exists (page doc), y. rewrite Nat.add_0_r.
    eapply extends_elem; [apply forEach_from_extends|].
    change doc' with (doc', y').1. rewrite <- E. apply criterion_section_title.
  - destruct (IH (S i) doc' y' j c Hj) as (p & y'' & Hin).
    exists p, y''. by replace (i + S j)%nat with (S i + j)%nat by lia.
Qed.

Lemma preview_header_extends doc : extends doc (preview_header doc).
Proof. unfold preview_header. unfold_calls. adds_chain ltac:(exact I). Qed.

Lemma preview_details_extends o doc : extends doc (preview_details o doc).
Proof. unfold PdfGenerator.preview_details. unfold_calls. adds_chain ltac:(exact I). Qed.

Lemma preview_score_extends o doc : extends doc (preview_score o doc).1.1.
Proof. unfold preview_score. cbv zeta. cbn [fst]. unfold_calls. adds_chain ltac:(exact I). Qed.

Lemma preview_criteria_extends o fc doc y : extends doc (preview_criteria o fc doc y).1.
Proof.
  unfold PdfGenerator.preview_criteria, forEach. cbv zeta.
  eapply adds_trans; [|apply forEach_from_extends].
  unfold_calls. adds_chain ltac:(exact I).
Qed.

Lemma preview_overall_extends o doc y : extends doc (preview_overall o doc y).
Proof.
  unfold PdfGenerator.preview_overall. cbv zeta.
  destruct (trim_nonempty _); [|apply adds_refl].
  unfold_calls. adds_chain ltac:(exact I).
Qed.

Lemma preview_footer_adds now n doc i : adds footer_call doc (preview_footer now n doc i).
Proof. unfold PdfGenerator.preview_footer. unfold_calls. adds_chain ltac:(exact I). Qed.

Lemma footers_adds now n l : forall doc,
  adds footer_call doc (fold_left (preview_footer now n) l doc).
Proof.
  induction l as [|i l IH]; intros doc; cbn [fold_left]; [apply adds_refl|].
  eapply adds_trans; [apply preview_footer_adds | apply IH].
Qed.

Lemma preview_footers_adds now doc : adds footer_call doc (preview_footers now doc).
Proof. apply footers_adds. Qed.

Lemma preview_footer_pages now n doc i :
  numberOfPages (preview_footer now n doc i) = numberOfPages doc.
Proof. reflexivity. Qed.

(** A footer for page [i] is drawn on page [i]. *)
Lemma preview_footer_text now n doc i :
  (1 <= i <= numberOfPages doc)%nat ->
  (i, Text (footer_text toLocaleDateString now i n) 105 285 (Some AlignCenter))
  ∈ ops (preview_footer now n doc i).
Proof.
  intros [H1 H2]. unfold PdfGenerator.preview_footer. unfold_calls.
  apply draw_last_at. rewrite !page_draw. cbn [page doc_setPage].
  assert (Hp : (1 <=? i)%nat && (i <=? numberOfPages doc)%nat = true).
  { apply andb_true_intro. split; by apply Nat.leb_le. }
  by rewrite Hp.
Qed.

Lemma footers_pages now n l : forall doc,
  numberOfPages (fold_left (preview_footer now n) l doc) = numberOfPages doc.
Proof.
  induction l as [|i l IH]; intros doc; cbn [fold_left]; [done|].
  by rewrite IH.
Qed.

Lemma footers_texts now n l : forall doc i,
  i ∈ l -> (forall k, k ∈ l -> (1 <= k <= numberOfPages doc)%nat) ->
  (i, Text (footer_text toLocaleDateString now i n) 105 285 (Some AlignCenter))
  ∈ ops (fold_left (preview_footer now n) l doc).
Proof.
  induction l as [|k l IH]; intros doc i Hi Hl; [by apply elem_of_nil in Hi|].
  cbn [fold_left]. apply elem_of_cons in Hi as [->|Hi].
  - eapply extends_elem; [eapply adds_extends, footers_adds|].
    apply preview_footer_text, Hl. by left.
  - apply IH; [done|]. intros k' Hk'. rewrite preview_footer_pages. apply Hl. by right.
Qed.

(** Every page of the document gets its footer, and no page is added. *)
Lemma preview_footers_every_page now doc :
  numberOfPages (preview_footers now doc) = numberOfPages doc /\
  forall i, (1 <= i <= numberOfPages doc)%nat ->
    (i, Text (footer_text toLocaleDateString now i (numberOfPages doc)) 105 285
          (Some AlignCenter))
    ∈ ops (preview_footers now doc).
Proof.
  unfold PdfGenerator.preview_footers, for_1_to. split; [apply footers_pages|].
  intros i Hi. apply footers_texts.
  - apply elem_of_seq. lia.
  - intros k Hk. apply elem_of_seq in Hk. lia.
Qed.

(** The score line is the last call of the score summary. *)
Lemma preview_score_line o doc :
  exists y, (page doc, Text (score_line (criteria o) (totalScore o)) 196 y (Some AlignRight))
            ∈ ops (preview_score o doc).1.1.
Proof.
  unfold preview_score, score_line, scorePercentage_of, validTotalScore_of.
  cbv zeta. cbn [fst]. unfold_calls.
  eexists. apply draw_last_at. by rewrite !page_draw.
Qed.

(** The second rectangle of the score summary is the filled part of the bar. *)
Lemma preview_score_bar o doc :
  exists y, (page doc,
             Rect 14 y (182 * (scorePercentage_of (criteria o) (totalScore o) / 100)) 8 "F")
            ∈ ops (preview_score o doc).1.1.
Proof.
  unfold preview_score, scorePercentage_of, validTotalScore_of.
  cbv zeta. cbn [fst]. unfold_calls.
  eexists. eapply extends_elem.
  { eapply adds_trans; [|apply draw_adds; exact I].
    eapply adds_trans; [|apply draw_adds; exact I]. apply adds_refl. }
  apply draw_last_at. by rewrite !page_draw.
Qed.

(** The colour handed to the criteria is the bucket of the percentage. *)
Lemma preview_score_fillColor o doc :
  (preview_score o doc).2 = fillColor_of (scorePercentage_of (criteria o) (totalScore o)).
Proof. reflexivity. Qed.

(** Everything drawn up to the criteria is in the finished document. *)
Lemma generatePDFPreview_extends_criteria now o :
  let '(d, y, fc) := preview_score o (preview_details o (preview_header new_jsPDF)) in
  extends (preview_criteria o fc d y).1 (generatePDFPreview now o).
Proof.
  unfold PdfGenerator.generatePDFPreview. cbv zeta.
  destruct (preview_score o _) as [[d y] fc].
  destruct (preview_criteria o fc d y) as [d' y'] eqn:E. cbn [fst].
  eapply adds_trans; [apply preview_overall_extends|].
  eapply adds_extends, preview_footers_adds.
Qed.

Lemma generatePDFPreview_extends_score now o :
  extends (preview_score o (preview_details o (preview_header new_jsPDF))).1.1
          (generatePDFPreview now o).
Proof.
  pose proof (generatePDFPreview_extends_criteria now o) as H.
  destruct (preview_score o _) as [[d y] fc]. cbn [fst].
  eapply adds_trans; [apply preview_criteria_extends | exact H].
Qed.

Lemma generatePDFPreview_extends_header now o :
  extends (preview_header new_jsPDF) (generatePDFPreview now o).
Proof.
  eapply adds_trans; [|apply generatePDFPreview_extends_score].
  eapply adds_trans; [apply preview_details_extends | apply preview_score_extends].
Qed.

Lemma generatePDFPreview_score_line now o :
  exists p y, (p, Text (score_line (criteria o) (totalScore o)) 196 y (Some AlignRight))
              ∈ ops (generatePDFPreview now o).
Proof.
  destruct (preview_score_line o (preview_details o (preview_header new_jsPDF))) as [y Hy].
  eexists _, y. eapply extends_elem; [apply generatePDFPreview_extends_score | exact Hy].
Qed.

Lemma generatePDFPreview_score_bar now o :
  exists p y, (p, Rect 14 y (182 * (scorePercentage_of (criteria o) (totalScore o) / 100))
                    8 "F")
              ∈ ops (generatePDFPreview now o).
Proof.
  destruct (preview_score_bar o (preview_details o (preview_header new_jsPDF))) as [y Hy].
  eexists _, y. eapply extends_elem; [apply generatePDFPreview_extends_score | exact Hy].
Qed.

(** Every criterion has its title table in the finished document. *)
Lemma generatePDFPreview_titles now o i c :
  criteria o !! i = Some c ->
  exists p y, (p, AutoTable (criterion_title_table
                               (fillColor_of (scorePercentage_of (criteria o) (totalScore o)))
                               y c i))
              ∈ ops (generatePDFPreview now o).
Proof.
  intros Hi.
  pose proof (generatePDFPreview_extends_criteria now o) as H.
  pose proof (preview_score_fillColor o (preview_details o (preview_header new_jsPDF))) as Hfc.
  destruct (preview_score o _) as [[d y] fc]. cbn [snd] in Hfc. subst fc.
  unfold PdfGenerator.preview_criteria, forEach in H. cbv zeta in H.
  match type of H with
  | extends (forEach_from (PdfGenerator.criterion_section _ ?fc) ?i0 _ (?d0, ?y0)).1 _ =>
      destruct (forEach_from_titles fc (criteria o) i0 d0 y0 i c Hi) as (p & y' & Hin)
  end.
  exists p, y'. eapply extends_elem; [exact H|]. exact Hin.
Qed.

Lemma text_shown doc p s x y a : (p, Text s x y a) ∈ ops doc -> s ∈ doc_strings doc.
Proof.
  intros Hin. unfold doc_strings. apply list_elem_of_In, in_concat.
  exists (op_strings (p, Text s x y a).2). split.
  - apply (in_map (fun po : nat * Op => op_strings po.2) _ (p, Text s x y a)).
    by apply list_elem_of_In.
  - cbn. by left.
Qed.

Lemma shows_NaN_intro doc s :
  s ∈ doc_strings doc -> includes "NaN" s = true -> shows_NaN doc = true.
Proof.
  intros Hin Hs. unfold shows_NaN. apply existsb_exists. exists s.
  split; [by apply list_elem_of_In | exact Hs].
Qed.

Lemma not_finite_invalid doc p o :
  (p, o) ∈ ops doc -> op_finite o = false -> valid_document doc = false.
Proof.
  intros Hin Ho. unfold valid_document.
  destruct (forallb _ (ops doc)) eqn:Hall; [|done].
  rewrite forallb_forall in Hall.
  apply list_elem_of_In, Hall in Hin. cbn in Hin. by rewrite Ho in Hin.
Qed.

(** ** A preview without criteria *)

Lemma footer_call_empty_criteria o op : footer_call op -> empty_criteria_call o op.
Proof. by destruct op. Qed.

Lemma generatePDFPreview_empty_adds now o :
  criteria o = [] -> adds (empty_criteria_call o) new_jsPDF (generatePDFPreview now o).
Proof.
  intros Hc.
  cbv beta iota zeta delta [PdfGenerator.generatePDFPreview preview_score
                            PdfGenerator.preview_criteria forEach].
  rewrite Hc. cbn [forEach_from length].
  eapply adds_trans;
    [|eapply adds_weaken; [apply footer_call_empty_criteria | apply preview_footers_adds]].
  unfold PdfGenerator.preview_overall. cbv zeta.
  destruct (trim_nonempty _);
    unfold PdfGenerator.preview_details, preview_header; unfold_calls;
    adds_chain ltac:(first [exact I | by left | right; by eexists]).
Qed.

Lemma single_draw o doc : on_single_page doc -> on_single_page (draw o doc).
Proof. done. Qed.

Lemma single_autoTable t doc :
  (forall d t', (layout d t').2 = 0%nat) -> on_single_page doc ->
  on_single_page (autoTable t doc).
Proof.
  intros Hl [Hp Hn]. unfold PdfGenerator.autoTable.
  specialize (Hl doc t). destruct (layout doc t) as [y k]. cbn in Hl. subst k.
  split; cbn; lia.
Qed.

Lemma single_setPage doc : on_single_page doc -> on_single_page (doc_setPage 1 doc).
Proof. intros [Hp Hn]. split; cbn; [|done]. by rewrite Hn. Qed.

(** Without criteria the document keeps to one page when no table of the
    library's layout leaves the page. *)
Lemma generatePDFPreview_empty_single now o :
  (forall d t, (layout d t).2 = 0%nat) -> criteria o = [] ->
  numberOfPages (generatePDFPreview now o) = 1%nat.
Proof.
  intros Hl Hc.
  cbv beta iota zeta delta [PdfGenerator.generatePDFPreview preview_score
                            PdfGenerator.preview_criteria forEach].
  rewrite Hc. cbn [forEach_from length].
  rewrite (proj1 (preview_footers_every_page now _)).
  unfold PdfGenerator.preview_overall. cbv zeta.
  assert (Hs : forall d, on_single_page d -> numberOfPages d = 1%nat) by (by intros d [_ ?]).
  destruct (trim_nonempty _); apply Hs;
    unfold PdfGenerator.preview_details, preview_header; unfold_calls;
    repeat first [ apply single_draw | apply single_autoTable; [exact Hl|] ];
    by split.
Qed.

End Preview.

Section Report.
Variable toLocaleDateString : Date -> string.
Variable toISOString : Date -> string.
Variable pageSize_width pageSize_height : float.
Variable layout : jsPDF -> AutoTableOptions -> float * nat.

Abbreviation generatePdf :=
  (PdfGenerator.generatePdf toLocaleDateString toISOString pageSize_width pageSize_height
     layout).



Lemma report_footer_extends n doc i :
  extends doc (report_footer pageSize_width pageSize_height n doc i).
Proof. unfold report_footer. unfold_calls. adds_chain ltac:(exact I). Qed.

Lemma report_footers_extends n l : forall doc,
  extends doc (fold_left (report_footer pageSize_width pageSize_height n) l doc).
Proof.
  induction l as [|i l IH]; intros doc; cbn [fold_left]; [apply adds_refl|].
  eapply adds_trans; [apply report_footer_extends | apply IH].
Qed.


(** The figures of the summary table. *)
Lemma summary_table_body data :
  tbl_body (summary_table data) =
  [ [ cell "Total Assessments"; cell (nat_toString (length data)) ];
    [ cell "Completed Assessments"; cell (nat_toString (completedAssessments_of data)) ];
    [ cell "Completion Rate"; cell (Number_toString (completionRate_of data) +:+ "%") ];
    [ cell "Average Score";
      cell (or_else_str (Some (toFixed 2 (averageScore_of data))) "0" +:+ "/5") ] ].
Proof. reflexivity. Qed.

End Report.

(** ** The aggregates of the report *)






End PdfFacts.

(* ===================================================================== *)
(** * Facts about the store *)
(* ===================================================================== *)
Module StorageFacts.
Import Schema Storage Spec Props.
Local Open Scope Z_scope.

(** Assigning to a member of [this] what it already holds changes nothing. *)
Lemma set_users_same s : set_users (users s) (userId s) s = s.
Proof. by destruct s. Qed.
Lemma set_schools_same s : set_schools (schools s) (schoolId s) s = s.
Proof. by destruct s. Qed.
Lemma set_classes_same s : set_classes (classes s) (classId s) s = s.
Proof. by destruct s. Qed.
Lemma set_students_same s : set_students (students s) (studentId s) s = s.
Proof. by destruct s. Qed.
Lemma set_assessors_same s : set_assessors (assessors s) (assessorId s) s = s.
Proof. by destruct s. Qed.
Lemma set_rubricTemplates_same s :
  set_rubricTemplates (rubricTemplates s) (rubricTemplateId s) s = s.
Proof. by destruct s. Qed.
Lemma set_tasks_same s : set_tasks (tasks s) (taskId s) s = s.
Proof. by destruct s. Qed.
Lemma set_assessments_same s : set_assessments (assessments s) (assessmentId s) s = s.
Proof. by destruct s. Qed.

Lemma Map_delete_present {A} (k : Z) (m : gmap Z A) (x : A) :
  m !! k = Some x -> Map_delete k m = (true, delete k m).
Proof. intros H. unfold Map_delete. rewrite bool_decide_eq_true_2; [done|by eexists]. Qed.

Lemma Map_delete_absent {A} (k : Z) (m : gmap Z A) :
  m !! k = None -> Map_delete k m = (false, m).
Proof.
  intros H. unfold Map_delete. rewrite bool_decide_eq_false_2.
  - by rewrite delete_id.
  - rewrite H. by intros [? ?].
Qed.

(** ** Deleting a student or an assessor *)

Lemma deleteStudent_present s id student :
  students s !! id = Some student ->
  (deleteStudent id s).1 = true
  /\ students (deleteStudent id s).2 !! id = None
  /\ users (deleteStudent id s).2 !! student_userId student = None.
Proof.
  intros H. unfold deleteStudent. rewrite H. cbn [students set_users].
  rewrite (Map_delete_present _ _ _ H). cbn.
  split; [done|]. split; [apply lookup_delete_eq | apply lookup_delete_eq].
Qed.

Lemma deleteStudent_absent s id :
  students s !! id = None -> deleteStudent id s = (false, s).
Proof.
  intros H. unfold deleteStudent. rewrite H.
  rewrite (Map_delete_absent _ _ H). by rewrite set_students_same.
Qed.

Lemma deleteAssessor_present s id assessor :
  assessors s !! id = Some assessor ->
  (deleteAssessor id s).1 = true
  /\ assessors (deleteAssessor id s).2 !! id = None
  /\ users (deleteAssessor id s).2 !! assessor_userId assessor = None.
Proof.
  intros H. unfold deleteAssessor. rewrite H. cbn [assessors set_users].
  rewrite (Map_delete_present _ _ _ H). cbn.
  split; [done|]. split; [apply lookup_delete_eq | apply lookup_delete_eq].
Qed.

Lemma deleteAssessor_absent s id :
  assessors s !! id = None -> deleteAssessor id s = (false, s).
Proof.
  intros H. unfold deleteAssessor. rewrite H.
  rewrite (Map_delete_absent _ _ H). by rewrite set_assessors_same.
Qed.

(** Deleting a student touches no other student and no user but its own:
    in particular nothing else of the store is removed with it. *)
Lemma deleteStudent_frame s id student :
  students s !! id = Some student ->
  (forall k, k <> id -> students (deleteStudent id s).2 !! k = students s !! k)
  /\ (forall k, k <> student_userId student ->
        users (deleteStudent id s).2 !! k = users s !! k)
  /\ assessments (deleteStudent id s).2 = assessments s.
Proof.
  intros H. unfold deleteStudent. rewrite H. cbn [students set_users].
  rewrite (Map_delete_present _ _ _ H). cbn.
  split; [|split; [|done]]; intros k Hk; by rewrite lookup_delete_ne.
Qed.

(** ** Updates *)

(** What an update of an absent id does: nothing. *)
Lemma update_absent s id :
  (schools s !! id = None -> forall p, updateSchool id p s = (None, s))
  /\ (classes s !! id = None -> forall p, updateClass id p s = (None, s))
  /\ (students s !! id = None -> forall p, updateStudent id p s = (None, s))
  /\ (assessors s !! id = None -> forall p, updateAssessor id p s = (None, s))
  /\ (rubricTemplates s !! id = None -> forall p, updateRubricTemplate id p s = (None, s))
  /\ (tasks s !! id = None -> forall p, updateTask id p s = (None, s))
  /\ (assessments s !! id = None -> forall now p, updateAssessment now id p s = (None, s)).
Proof.
  unfold updateSchool, updateClass, updateStudent, updateAssessor,
    updateRubricTemplate, updateTask, updateAssessment.
  repeat split; intros ->; reflexivity.
Qed.

(** What an update of a present id does: the spread of the partial record
    over the existing one replaces it under the same key. *)
Lemma updateSchool_present s id existing p :
  schools s !! id = Some existing ->
  updateSchool id p s
  = (Some (spread_school existing p),
     set_schools (<[id := spread_school existing p]> (schools s)) (schoolId s) s).
Proof. unfold updateSchool. by intros ->. Qed.

Lemma updateClass_present s id existing p :
  classes s !! id = Some existing ->
  updateClass id p s
  = (Some (spread_class existing p),
     set_classes (<[id := spread_class existing p]> (classes s)) (classId s) s).
Proof. unfold updateClass. by intros ->. Qed.

Lemma updateStudent_present s id existing p :
  students s !! id = Some existing ->
  updateStudent id p s
  = (Some (spread_student existing p),
     set_students (<[id := spread_student existing p]> (students s)) (studentId s) s).
Proof. unfold updateStudent. by intros ->. Qed.

Lemma updateAssessor_present s id existing p :
  assessors s !! id = Some existing ->
  updateAssessor id p s
  = (Some (spread_assessor existing p),
     set_assessors (<[id := spread_assessor existing p]> (assessors s)) (assessorId s) s).
Proof. unfold updateAssessor. by intros ->. Qed.

Lemma updateRubricTemplate_present s id existing p :
  rubricTemplates s !! id = Some existing ->
  updateRubricTemplate id p s
  = (Some (spread_rubricTemplate existing p),
     set_rubricTemplates (<[id := spread_rubricTemplate existing p]> (rubricTemplates s))
       (rubricTemplateId s) s).
Proof. unfold updateRubricTemplate. by intros ->. Qed.

Lemma updateTask_present s id existing p :
  tasks s !! id = Some existing ->
  updateTask id p s
  = (Some (spread_task existing p),
     set_tasks (<[id := spread_task existing p]> (tasks s)) (taskId s) s).
Proof. unfold updateTask. by intros ->. Qed.

Lemma updateAssessment_present s now id existing p :
  assessments s !! id = Some existing ->
  updateAssessment now id p s
  = (Some (spread_assessment now existing p),
     set_assessments (<[id := spread_assessment now existing p]> (assessments s))
       (assessmentId s) s).
Proof. unfold updateAssessment. by intros ->. Qed.

Lemma kept_default {A R : Type} (field : R -> A) (supplied : option A) (existing updated : R) :
  field updated = default (field existing) supplied -> kept field supplied existing updated.
Proof. unfold kept. by destruct supplied. Qed.

Lemma spread_school_fields existing p :
  let updated := spread_school existing p in
  school_id updated = school_id existing
  /\ school_createdAt updated = school_createdAt existing
  /\ kept school_name (partialSchool_name p) existing updated
  /\ kept school_address (partialSchool_address p) existing updated.
Proof. repeat split; by apply kept_default. Qed.

Lemma spread_class_fields existing p :
  let updated := spread_class existing p in
  class_id updated = class_id existing
  /\ class_createdAt updated = class_createdAt existing
  /\ kept class_name (partialClass_name p) existing updated
  /\ kept class_schoolId (partialClass_schoolId p) existing updated.
Proof. repeat split; by apply kept_default. Qed.

Lemma spread_student_fields existing p :
  let updated := spread_student existing p in
  student_id updated = student_id existing
  /\ student_createdAt updated = student_createdAt existing
  /\ kept student_userId (partialStudent_userId p) existing updated
  /\ kept student_classId (partialStudent_classId p) existing updated.
Proof. repeat split; by apply kept_default. Qed.

Lemma spread_assessor_fields existing p :
  let updated := spread_assessor existing p in
  assessor_id updated = assessor_id existing
  /\ assessor_createdAt updated = assessor_createdAt existing
  /\ kept assessor_userId (partialAssessor_userId p) existing updated
  /\ kept assessor_schoolIds (partialAssessor_schoolIds p) existing updated.
Proof. repeat split; by apply kept_default. Qed.

Lemma spread_rubricTemplate_fields existing p :
  let updated := spread_rubricTemplate existing p in
  rubricTemplate_id updated = rubricTemplate_id existing
  /\ rubricTemplate_createdAt updated = rubricTemplate_createdAt existing
  /\ kept rubricTemplate_name (partialRubricTemplate_name p) existing updated
  /\ kept rubricTemplate_description (partialRubricTemplate_description p) existing updated
  /\ kept rubricTemplate_criteria (partialRubricTemplate_criteria p) existing updated.
Proof. repeat split; by apply kept_default. Qed.

Lemma spread_task_fields existing p :
  let updated := spread_task existing p in
  task_id updated = task_id existing
  /\ task_createdAt updated = task_createdAt existing
  /\ kept task_name (partialTask_name p) existing updated
  /\ kept task_description (partialTask_description p) existing updated
  /\ kept task_rubricTemplateId (partialTask_rubricTemplateId p) existing updated.
Proof. repeat split; by apply kept_default. Qed.

Lemma spread_assessment_fields now existing p :
  let updated := spread_assessment now existing p in
  assessment_id updated = assessment_id existing
  /\ assessment_createdAt updated = assessment_createdAt existing
  /\ assessment_updatedAt updated = now
  /\ kept assessment_studentId (partialAssessment_studentId p) existing updated
  /\ kept assessment_assessorId (partialAssessment_assessorId p) existing updated
  /\ kept assessment_taskId (partialAssessment_taskId p) existing updated
  /\ kept assessment_status (Some <$> partialAssessment_status p) existing updated
  /\ kept assessment_scores (partialAssessment_scores p) existing updated
  /\ kept assessment_totalScore (partialAssessment_totalScore p) existing updated
  /\ kept assessment_feedback (partialAssessment_feedback p) existing updated
  /\ kept assessment_pdfPath (partialAssessment_pdfPath p) existing updated.
Proof.
  repeat split; try by apply kept_default.
  unfold kept. cbn. by destruct (partialAssessment_status p).
Qed.

(** ** Creating students and assessors *)

(** The user created with a student: stored under the student's [userId],
    with the data supplied except for the role, which is "student". *)
Lemma createStudent_user now student userData s :
  let '(newStudent, s') := createStudent now student userData s in
  exists user,
    users s' !! student_userId newStudent = Some user
    /\ user_role user = role_student
    /\ user_username user = insertUser_username userData
    /\ user_id user = userId s
    /\ students s' !! student_id newStudent = Some newStudent
    /\ student_id newStudent = studentId s.
Proof.
  unfold createStudent, createUser. cbn.
  eexists. split; [apply lookup_insert_eq|]. cbn.
  repeat split. apply lookup_insert_eq.
Qed.

Lemma createAssessor_user now assessor userData s :
  let '(newAssessor, s') := createAssessor now assessor userData s in
  exists user,
    users s' !! assessor_userId newAssessor = Some user
    /\ user_role user = role_assessor
    /\ user_username user = insertUser_username userData
    /\ user_id user = userId s
    /\ assessors s' !! assessor_id newAssessor = Some newAssessor
    /\ assessor_id newAssessor = assessorId s.
Proof.
  unfold createAssessor, createUser. cbn.
  eexists. split; [apply lookup_insert_eq|]. cbn.
  repeat split. apply lookup_insert_eq.
Qed.

(** A user stored under the fresh id shadows no linked user. *)
Lemma linked_roles_new_user s (user : User) :
  roles_inv s ->
  roles_inv (set_users (<[userId s := user]> (users s)) (userId s + 1) s).
Proof.
  intros [[Hst Has] Hfresh]. split; [split|].
  - intros id student H. cbn in H. destruct (Hst _ _ H) as (u & Hu & Hr).
    exists u. split; [|done]. cbn. rewrite lookup_insert_ne; [done|].
    assert (student_userId student < userId s) by (apply Hfresh; by eexists). lia.
  - intros id assessor H. cbn in H. destruct (Has _ _ H) as (u & Hu & Hr).
    exists u. split; [|done]. cbn. rewrite lookup_insert_ne; [done|].
    assert (assessor_userId assessor < userId s) by (apply Hfresh; by eexists). lia.
  - intros id. cbn. intros [u Hu]. apply lookup_insert_Some in Hu as [[<- _]|[_ Hu]].
    + lia.
    + assert (id < userId s) by (apply Hfresh; by eexists). lia.
Qed.

(** An operation that leaves users, students and assessors alone keeps the
    invariant. *)
Lemma roles_inv_frame s s' :
  users s' = users s -> students s' = students s -> assessors s' = assessors s ->
  userId s' = userId s -> roles_inv s -> roles_inv s'.
Proof.
  intros Hu Hst Has Hid [[H1 H2] H3]. unfold roles_inv, linked_roles, fresh_userId.
  rewrite Hu, Hst, Has, Hid. done.
Qed.

Lemma roles_inv_createStudent now student userData s :
  roles_inv s -> roles_inv (createStudent now student userData s).2.
Proof.
  intros Hinv. unfold createStudent, createUser. cbn.
  set (user := {| user_id := userId s |}).
  set (newStudent := {| student_id := studentId s |}).
  pose proof (linked_roles_new_user s user Hinv) as [[Hst Has] Hfresh].
  cbn in Hst, Has, Hfresh. split; [split|]; cbn.
  - intros id st H. apply lookup_insert_Some in H as [[<- <-]|[_ H]].
    + exists user. split; [apply lookup_insert_eq | done].
    + by apply (Hst id).
  - exact Has.
  - exact Hfresh.
Qed.

Lemma roles_inv_createAssessor now assessor userData s :
  roles_inv s -> roles_inv (createAssessor now assessor userData s).2.
Proof.
  intros Hinv. unfold createAssessor, createUser. cbn.
  set (user := {| user_id := userId s |}).
  set (newAssessor := {| assessor_id := assessorId s |}).
  pose proof (linked_roles_new_user s user Hinv) as [[Hst Has] Hfresh].
  cbn in Hst, Has, Hfresh. split; [split|]; cbn.
  - exact Hst.
  - intros id a H. apply lookup_insert_Some in H as [[<- <-]|[_ H]].
    + exists user. split; [apply lookup_insert_eq | done].
    + by apply (Has id).
  - exact Hfresh.
Qed.

Lemma roles_inv_run_create now op s : roles_inv s -> roles_inv (run_create now op s).
Proof.
  intros Hinv. destruct op; cbn [run_create].
  - apply (linked_roles_new_user s _ Hinv).
  - by eapply roles_inv_frame; [..|exact Hinv].
  - by eapply roles_inv_frame; [..|exact Hinv].
  - by apply roles_inv_createStudent.
  - by apply roles_inv_createAssessor.
  - by eapply roles_inv_frame; [..|exact Hinv].
  - by eapply roles_inv_frame; [..|exact Hinv].
  - by eapply roles_inv_frame; [..|exact Hinv].
  - by eapply roles_inv_frame; [..|exact Hinv].
Qed.

Lemma roles_inv_run_creates l : forall s, roles_inv s -> roles_inv (run_creates l s).
Proof.
  unfold run_creates. induction l as [|[now op] l IH]; intros s Hinv; cbn [fold_left]; [done|].
  apply IH. by apply roles_inv_run_create.
Qed.

(** The demo data of a new store. *)
Lemma new_MemStorage_users now :
  users (new_MemStorage now) =
  <[4 := {| user_id := 4; user_username := "student2"; user_password := "student123";
            user_email := "student2@example.com"; user_fullName := "Emma Johnson";
            user_role := role_student; user_createdAt := now |}]>
  (<[3 := {| user_id := 3; user_username := "student1"; user_password := "student123";
             user_email := "student1@example.com"; user_fullName := "Jordan Smith";
             user_role := role_student; user_createdAt := now |}]>
  (<[2 := {| user_id := 2; user_username := "assessor"; user_password := "assessor123";
             user_email := "assessor@example.com"; user_fullName := "John Smith";
             user_role := role_assessor; user_createdAt := now |}]>
  (<[1 := {| user_id := 1; user_username := "admin"; user_password := "admin123";
             user_email := "admin@example.com"; user_fullName := "Admin User";
             user_role := role_admin; user_createdAt := now |}]> ∅)))
  /\ userId (new_MemStorage now) = 5.
Proof. split; reflexivity. Qed.

Lemma new_MemStorage_students now :
  students (new_MemStorage now) =
  <[2 := {| student_id := 2; student_userId := 4; student_classId := 1;
            student_createdAt := now |}]>
  (<[1 := {| student_id := 1; student_userId := 3; student_classId := 1;
             student_createdAt := now |}]> ∅).
Proof. reflexivity. Qed.

Lemma new_MemStorage_assessors now :
  assessors (new_MemStorage now) =
  <[1 := {| assessor_id := 1; assessor_userId := 2; assessor_schoolIds := [1; 2];
            assessor_createdAt := now |}]> ∅.
Proof. reflexivity. Qed.

Lemma roles_inv_new now : roles_inv (new_MemStorage now).
Proof.
  destruct (new_MemStorage_users now) as [Hu Hid].
  split; [split|].
  - intros id student H. rewrite new_MemStorage_students in H. rewrite Hu.
    apply lookup_insert_Some in H as [[_ <-]|[_ H]];
      [|apply lookup_insert_Some in H as [[_ <-]|[_ H]];
        [|by rewrite lookup_empty in H]];
      cbn [student_userId]; eexists;
      (split; [rewrite ?lookup_insert_ne by lia; apply lookup_insert_eq | reflexivity]).
  - intros id assessor H. rewrite new_MemStorage_assessors in H. rewrite Hu.
    apply lookup_insert_Some in H as [[_ <-]|[_ H]]; [|by rewrite lookup_empty in H].
    cbn [assessor_userId]. eexists.
    split; [rewrite ?lookup_insert_ne by lia; apply lookup_insert_eq | reflexivity].
  - intros id [u H]. rewrite Hu in H. rewrite Hid.
    repeat (apply lookup_insert_Some in H as [[<- _]|[_ H]]; [lia|]).
    by rewrite lookup_empty in H.
Qed.

(** ** Listing assessments *)

Lemma elem_of_values {A} (m : gmap Z A) (a : A) : a ∈ values m <-> exists k, m !! k = Some a.
Proof.
  unfold values. rewrite list_elem_of_fmap. split.
  - intros ([k x] & -> & H). exists k. by apply elem_of_map_to_list in H.
  - intros (k & H). exists (k, a). split; [done|]. by apply elem_of_map_to_list.
Qed.

Lemma elem_of_filter_by {A K} `{EqDecision K} (f : option K) (get : A -> K) (l : list A) a :
  a ∈ filter_by f get l <-> a ∈ l /\ (forall k, f = Some k -> get a = k).
Proof.
  unfold filter_by. destruct f as [k|].
  - rewrite list_elem_of_filter. split.
    + intros [He Hin]. split; [done|]. by intros ? [= <-].
    + intros [Hin He]. split; [by apply He | done].
  - split; [|by intros [? _]]. intros Hin. by split.
Qed.


Lemma getAssessments_all s a :
  a ∈ getAssessments None s <-> exists id, assessments s !! id = Some a.
Proof. apply elem_of_values. Qed.

End StorageFacts.

(* ===================================================================== *)
(** * Facts about the routes *)
(* ===================================================================== *)
Module RoutesFacts.
Import Schema Storage Routes Props StorageFacts.

Lemma world_eta w : {| storage := storage w; files := files w |} = w.
Proof. by destruct w. Qed.

Section Puts.
Context {Body : Type} `{Schemas Body} `{Node}.
Variable cwd : string.
Variable clock : nat -> Date.

Lemma isAdmin_pass (next : Handler Body) req : admin_request req -> isAdmin next req = next req.
Proof.
  intros (user & Hu & Hr). unfold isAdmin. rewrite Hu.
  by rewrite bool_decide_eq_true_2.
Qed.

Lemma isAdmin_block (next : Handler Body) req w :
  ~ admin_request req -> isAdmin next req w = (inr (status_json 403 (Message "Forbidden")), w).
Proof.
  intros Hn. unfold isAdmin. destruct (req_user req) as [user|] eqn:Hu; [|done].
  rewrite bool_decide_eq_false_2; [done|]. intros Hr. apply Hn. by exists user.
Qed.

Lemma isAssessor_pass (next : Handler Body) req :
  assessor_request req -> isAssessor next req = next req.
Proof.
  intros (user & Hu & Hr). unfold isAssessor. rewrite Hu.
  destruct Hr as [Hr|Hr]; rewrite Hr; done.
Qed.

Lemma isAssessor_block (next : Handler Body) req w :
  ~ assessor_request req ->
  isAssessor next req w = (inr (status_json 403 (Message "Forbidden")), w).
Proof.
  intros Hn. unfold isAssessor. destruct (req_user req) as [user|] eqn:Hu; [|done].
  destruct (bool_decide (user_role user = role_assessor)) eqn:E1;
    [apply bool_decide_eq_true in E1; exfalso; apply Hn; exists user; auto|].
  destruct (bool_decide (user_role user = role_admin)) eqn:E2;
    [apply bool_decide_eq_true in E2; exfalso; apply Hn; exists user; auto|].
  done.
Qed.

(** A body the schema rejects: 400 with the issues, the world untouched. *)
Ltac invalid_body Hparse :=
  unfold try_catch, mbind, M_bind, parse, throw, mret, M_ret;
  rewrite Hparse; reflexivity.

(** A valid body for an id that names nothing: 404, the world untouched. *)
Ltac missing_target Hparse Hmiss :=
  unfold try_catch, mbind, M_bind, parse, throw, mret, M_ret, call, query;
  rewrite Hparse; unfold target, at_id in Hmiss |- *;
  destruct (parseInt _) as [id|]; [|by rewrite world_eta];
  first [ rewrite (proj1 (update_absent _ id) Hmiss)
        | rewrite (proj1 (proj2 (update_absent _ id)) Hmiss)
        | rewrite (proj1 (proj2 (proj2 (update_absent _ id))) Hmiss)
        | rewrite (proj1 (proj2 (proj2 (proj2 (update_absent _ id)))) Hmiss)
        | rewrite (proj1 (proj2 (proj2 (proj2 (proj2 (update_absent _ id))))) Hmiss)
        | rewrite (proj1 (proj2 (proj2 (proj2 (proj2 (proj2 (update_absent _ id)))))) Hmiss) ];
  by rewrite world_eta.

Lemma put_school_invalid req w errors :
  admin_request req -> parse_partial_school (req_body req) = inl errors ->
  put_school req w = (inr (status_json 400 (Invalid "Invalid school data" errors)), w).
Proof. intros Ha Hp. unfold put_school. rewrite isAdmin_pass by done. invalid_body Hp. Qed.

Lemma put_school_missing req w data :
  admin_request req -> parse_partial_school (req_body req) = inr data ->
  target req (schools (storage w)) = None ->
  put_school req w = (inr (status_json 404 (Message "School not found")), w).
Proof.
  intros Ha Hp Hm. unfold put_school. rewrite isAdmin_pass by done. missing_target Hp Hm.
Qed.

Lemma put_class_invalid req w errors :
  admin_request req -> parse_partial_class (req_body req) = inl errors ->
  put_class req w = (inr (status_json 400 (Invalid "Invalid class data" errors)), w).
Proof. intros Ha Hp. unfold put_class. rewrite isAdmin_pass by done. invalid_body Hp. Qed.

Lemma put_class_missing req w data :
  admin_request req -> parse_partial_class (req_body req) = inr data ->
  target req (classes (storage w)) = None ->
  put_class req w = (inr (status_json 404 (Message "Class not found")), w).
Proof.
  intros Ha Hp Hm. unfold put_class. rewrite isAdmin_pass by done. missing_target Hp Hm.
Qed.

Lemma put_student_invalid req w errors :
  admin_request req -> parse_partial_student (req_body req) = inl errors ->
  put_student req w = (inr (status_json 400 (Invalid "Invalid student data" errors)), w).
Proof. intros Ha Hp. unfold put_student. rewrite isAdmin_pass by done. invalid_body Hp. Qed.

Lemma put_student_missing req w data :
  admin_request req -> parse_partial_student (req_body req) = inr data ->
  target req (students (storage w)) = None ->
  put_student req w = (inr (status_json 404 (Message "Student not found")), w).
Proof.
  intros Ha Hp Hm. unfold put_student. rewrite isAdmin_pass by done. missing_target Hp Hm.
Qed.

Lemma put_assessor_invalid req w errors :
  admin_request req -> parse_partial_assessor (req_body req) = inl errors ->
  put_assessor req w = (inr (status_json 400 (Invalid "Invalid assessor data" errors)), w).
Proof. intros Ha Hp. unfold put_assessor. rewrite isAdmin_pass by done. invalid_body Hp. Qed.

Lemma put_assessor_missing req w data :
  admin_request req -> parse_partial_assessor (req_body req) = inr data ->
  target req (assessors (storage w)) = None ->
  put_assessor req w = (inr (status_json 404 (Message "Assessor not found")), w).
Proof.
  intros Ha Hp Hm. unfold put_assessor. rewrite isAdmin_pass by done. missing_target Hp Hm.
Qed.

Lemma put_rubricTemplate_invalid req w errors :
  admin_request req -> parse_partial_rubricTemplate (req_body req) = inl errors ->
  put_rubricTemplate req w
  = (inr (status_json 400 (Invalid "Invalid rubric template data" errors)), w).
Proof.
  intros Ha Hp. unfold put_rubricTemplate. rewrite isAdmin_pass by done. invalid_body Hp.
Qed.

Lemma put_rubricTemplate_missing req w data :
  admin_request req -> parse_partial_rubricTemplate (req_body req) = inr data ->
  target req (rubricTemplates (storage w)) = None ->
  put_rubricTemplate req w = (inr (status_json 404 (Message "Rubric template not found")), w).
Proof.
  intros Ha Hp Hm. unfold put_rubricTemplate. rewrite isAdmin_pass by done.
  missing_target Hp Hm.
Qed.

Lemma put_task_invalid req w errors :
  admin_request req -> parse_partial_task (req_body req) = inl errors ->
  put_task req w = (inr (status_json 400 (Invalid "Invalid task data" errors)), w).
Proof. intros Ha Hp. unfold put_task. rewrite isAdmin_pass by done. invalid_body Hp. Qed.

Lemma put_task_missing req w data :
  admin_request req -> parse_partial_task (req_body req) = inr data ->
  target req (tasks (storage w)) = None ->
  put_task req w = (inr (status_json 404 (Message "Task not found")), w).
Proof.
  intros Ha Hp Hm. unfold put_task. rewrite isAdmin_pass by done. missing_target Hp Hm.
Qed.

Lemma put_assessment_invalid req w errors :
  assessor_request req -> parse_partial_assessment (req_body req) = inl errors ->
  put_assessment cwd clock req w
  = (inr (status_json 400 (Invalid "Invalid assessment data" errors)), w).
Proof.
  intros Ha Hp. unfold put_assessment. rewrite isAssessor_pass by done. invalid_body Hp.
Qed.

Lemma put_assessment_missing req w data :
  assessor_request req -> parse_partial_assessment (req_body req) = inr data ->
  target req (assessments (storage w)) = None ->
  put_assessment cwd clock req w
  = (inr (status_json 404 (Message "Assessment not found")), w).
Proof.
  intros Ha Hp Hm. unfold put_assessment. rewrite isAssessor_pass by done.
  unfold try_catch, mbind, M_bind, parse, throw, mret, M_ret, call, query.
  rewrite Hp. unfold target, getAssessment in Hm |- *. by rewrite Hm.
Qed.

End Puts.

Section Listing.
Context {Body : Type}.

Lemma get_assessments_authenticated (req : Request Body) w :
  is_Some (req_user req) ->
  get_assessments req w = (inr (json (OfAssessments (listing req (storage w)))), w).
Proof. intros [user Hu]. unfold get_assessments, isAuthenticated. by rewrite Hu. Qed.

Lemma get_assessments_anonymous (req : Request Body) w :
  req_user req = None ->
  get_assessments req w = (inr (status_json 401 (Message "Unauthorized")), w).
Proof. intros Hu. unfold get_assessments, isAuthenticated. by rewrite Hu. Qed.

Lemma elem_of_listing (req : Request Body) s x :
  x ∈ listing req s
  <-> exists a, a ∈ getAssessments (Some (query_filters req)) s
                /\ getAssessmentWithRelations (assessment_id a) s = Some x.
Proof.
  unfold listing. rewrite list_elem_of_omap. split.
  - intros (o & Hin & Ho). apply list_elem_of_fmap in Hin as (a & -> & Ha).
    exists a. by split.
  - intros (a & Ha & Hx). exists (Some x). split; [|done].
    apply list_elem_of_fmap. exists a. by split.
Qed.


End Listing.

End RoutesFacts.

(* ===================================================================== *)
(** * The claims of the specification *)
(* ===================================================================== *)
Module Claims.
Import JS Schema Storage Routes PdfGenerator ResultsPage Spec Props.
Import NumberFacts RatioFacts PdfFacts StorageFacts RoutesFacts.

(** C1 (as amended): for every pair of numbers (total, maxScore),
    calculateScorePercentage returns Math.round((total / maxScore) * 100)
    (maxScore is 5 when left out) and never throws.  There is no guard
    against a zero maxScore: the percentage of a zero total is 0 exactly when
    maxScore is a non-zero number, and NaN otherwise.  generatePDFPreview
    derives the percentage it prints by the same formula, from the total
    score (0 when it is not finite) and maxScore = criteria.length * 5. *)
Theorem C1_percentage_formula (total maxScore : float) :
  FormatData.calculateScorePercentage total (Some maxScore)
  = Math_round ((total / maxScore) * 100)%float
  /\ FormatData.calculateScorePercentage total None = Math_round ((total / 5) * 100)%float
  /\ Number_toString (FormatData.calculateScorePercentage 0 (Some maxScore))
     = (if ToBoolean maxScore then "0" else "NaN")
  /\ forall toLocaleDateString layout now o,
       scorePercentage_of (criteria o) (totalScore o)
       = Math_round ((validTotalScore_of (totalScore o)
                      / (Number_of_nat (length (criteria o)) * 5)) * 100)%float
       /\ exists p y,
            (p, Text (toFixed 1 (totalScore o) +:+ " / "
                      +:+ Number_toString (Number_of_nat (length (criteria o)) * 5)%float
                      +:+ " ("
                      +:+ Number_toString (scorePercentage_of (criteria o) (totalScore o))
                      +:+ "%)")
                  196 y (Some AlignRight))
            ∈ ops (generatePDFPreview toLocaleDateString layout now o).
Proof.
  split; [reflexivity|]. split; [reflexivity|]. split.
  - change (FormatData.calculateScorePercentage 0 (Some maxScore))
      with (Math_round ((0 / maxScore) * 100)%float).
    unfold Number_toString, ToBoolean.
    rewrite percentage_of_zero. by destruct (Prim2SF maxScore).
  - intros toLocaleDateString layout now o. split; [reflexivity|].
    apply generatePDFPreview_score_line.
Qed.

(** C1, the claim as stated fails: percentage(0, 0) is NaN, not 0. *)
Lemma C1_zero_over_zero_is_NaN :
  Number_isNaN (FormatData.calculateScorePercentage 0 (Some 0%float)) = true
  /\ Number_toString (FormatData.calculateScorePercentage 0 (Some 0%float)) +:+ "%" = "NaN%"
  /\ (FormatData.calculateScorePercentage 0 (Some 0%float) =? 0)%float = false.
Proof. repeat split; vm_compute; reflexivity. Qed.

(** C2 (the code breaks it): when totalScore is not a finite number, the
    percentage falls back to a total of 0, but the score line prints
    totalScore itself, not the fallback: it reads "NaN", "Infinity" or
    "-Infinity" where the fallback would read "0.0", and for a NaN total the
    document shows "NaN". *)
Theorem C2_NaN_total_is_printed toLocaleDateString layout now o :
  Number_isFinite (totalScore o) = false ->
  let doc := generatePDFPreview toLocaleDateString layout now o in
  validTotalScore_of (totalScore o) = 0%float
  /\ (exists shown p y rest,
        (p, Text (shown +:+ " / " +:+ rest) 196 y (Some AlignRight)) ∈ ops doc
        /\ shown = toFixed 1 (totalScore o)
        /\ shown ∈ ["NaN"; "Infinity"; "-Infinity"]
        /\ shown <> toFixed 1 (validTotalScore_of (totalScore o)))
  /\ (Number_isNaN (totalScore o) = true ->
      (exists p y rest, (p, Text ("NaN / " +:+ rest) 196 y (Some AlignRight)) ∈ ops doc)
      /\ shows_NaN doc = true
      /\ valid_document doc = false).
Proof.
  intros Hfin doc.
  destruct (generatePDFPreview_score_line toLocaleDateString layout now o) as (p & y & Hin).
  fold doc in Hin. unfold score_line in Hin.
  assert (Hvalid : validTotalScore_of (totalScore o) = 0%float).
  { unfold validTotalScore_of. by rewrite Hfin. }
  split; [exact Hvalid|]. split.
  - eexists (toFixed 1 (totalScore o)), p, y, _. split; [exact Hin|].
    split; [reflexivity|]. rewrite Hvalid.
    unfold toFixed. unfold Number_isFinite in Hfin.
    destruct (Prim2SF (totalScore o)) as [s|s| |s m e]; try discriminate Hfin.
    + destruct s; (split; [set_solver | discriminate]).
    + split; [set_solver | discriminate].
  - intros Hnan. rewrite (toFixed_NaN _ _ Hnan) in Hin.
    assert (Hshown : shows_NaN doc = true).
    { eapply shows_NaN_intro; [eapply text_shown, Hin | reflexivity]. }
    split; [|split].
    + eexists p, y, _. cbn [String.app] in Hin |- *. exact Hin.
    + exact Hshown.
    + unfold valid_document. rewrite Hshown. apply andb_false_r.
Qed.

(** C2 at the failing input: one criterion, totalScore NaN. *)
Lemma C2_NaN_total_witness :
  Number_isFinite (totalScore Samples.nan_total) = false
  /\ shows_NaN (generatePDFPreview Samples.toLocaleDateString Samples.layout 0%Z
                  Samples.nan_total) = true
  /\ (1%nat, Text "NaN / 5 (0%)" 196 104 (Some AlignRight))
     ∈ ops (generatePDFPreview Samples.toLocaleDateString Samples.layout 0%Z
              Samples.nan_total).
Proof.
  split; [reflexivity|]. split.
  - apply (C2_NaN_total_is_printed Samples.toLocaleDateString Samples.layout 0%Z
             Samples.nan_total); reflexivity.
  - apply list_elem_of_In. vm_compute. tauto.
Defined.

(** C3: for every score, formatScoreLevel and the label computed inside
    generatePDFPreview are the level of the specification's thresholds
    (<2, <3, <4, <4.5, else), which is unique; they agree on every score,
    the boundary values included, and the title of each criterion in the
    preview carries that label. *)
Theorem C3_score_level_thresholds (s : float) :
  score_level s (FormatData.formatScoreLevel s)
  /\ score_level s (scoreLevel_of s)
  /\ scoreLevel_of s = FormatData.formatScoreLevel s
  /\ (forall l, score_level s l -> l = FormatData.formatScoreLevel s)
  /\ map FormatData.formatScoreLevel Samples.boundary_scores
     = ["Needs Improvement"; "Needs Improvement"; "Developing"; "Developing"; "Developing";
        "Proficient"; "Proficient"; "Advanced"; "Advanced"; "Exemplary"; "Exemplary";
        "Exemplary"]
  /\ forall toLocaleDateString layout now o i c,
       criteria o !! i = Some c ->
       exists p t,
         (p, AutoTable t) ∈ ops (generatePDFPreview toLocaleDateString layout now o)
         /\ map (map content) (tbl_head t)
            = [[ nat_toString (i + 1) +:+ ". " +:+ name c;
                 Number_toString (score c) +:+ "/5 - "
                 +:+ FormatData.formatScoreLevel (score c) ]].
Proof.
  assert (Hspec : score_level s (FormatData.formatScoreLevel s)).
  { unfold FormatData.formatScoreLevel.
    destruct (s <? 2)%float eqn:H2; [by constructor|].
    destruct (s <? 3)%float eqn:H3; [by constructor|].
    destruct (s <? 4)%float eqn:H4; [by constructor|].
    destruct (s <? 4.5)%float eqn:H45; by constructor. }
  assert (Hsame : scoreLevel_of s = FormatData.formatScoreLevel s) by reflexivity.
  split; [exact Hspec|]. split; [by rewrite Hsame|]. split; [exact Hsame|].
  split; [|split].
  - intros l Hl. unfold FormatData.formatScoreLevel.
    destruct Hl as [H2|H2 H3|H2 H3 H4|H2 H3 H4 H45|H2 H3 H4 H45];
      rewrite ?H2, ?H3, ?H4, ?H45; reflexivity.
  - vm_compute. reflexivity.
  - intros toLocaleDateString layout now o i c Hi.
    destruct (generatePDFPreview_titles toLocaleDateString layout now o i c Hi)
      as (p & y & Hin).
    eexists p, _. split; [exact Hin|]. reflexivity.
Qed.

(** C3 on a sample preview: its one criterion, scored 3, is "Proficient". *)
Lemma C3_score_level_witness :
  exists p t,
    (p, AutoTable t)
    ∈ ops (generatePDFPreview Samples.toLocaleDateString Samples.layout 0%Z Samples.nan_total)
    /\ map (map content) (tbl_head t) = [["1. Content Knowledge"; "3/5 - Proficient"]].
Proof.
  destruct (C3_score_level_thresholds 3%float) as (_ & _ & _ & _ & _ & H).
  apply (H Samples.toLocaleDateString Samples.layout 0%Z Samples.nan_total 0%nat
           Samples.content_knowledge).
  reflexivity.
Defined.

(** C8 (the code breaks it): with an empty criteria list generatePDFPreview
    returns a document that starts with the header, has a footer on every
    page, adds no page itself and draws no table but the details and the
    overall feedback (one page, when the library's layout of those tables
    stays on the page).  It is not a valid document: the percentage divides
    by criteria.length * 5 = 0, so the filled part of the score bar is
    drawn with a width that is NaN or infinite. *)
Theorem C8_empty_criteria toLocaleDateString layout now o :
  criteria o = [] ->
  let doc := generatePDFPreview toLocaleDateString layout now o in
  (exists rest, ops doc = ops (preview_header new_jsPDF) ++ rest)
  /\ (forall i, (1 <= i <= numberOfPages doc)%nat ->
        (i, Text (footer_text toLocaleDateString now i (numberOfPages doc)) 105 285
              (Some AlignCenter)) ∈ ops doc)
  /\ (forall p op, (p, op) ∈ ops doc -> empty_criteria_call toLocaleDateString o op)
  /\ ((forall d t, (layout d t).2 = 0%nat) -> numberOfPages doc = 1%nat)
  /\ (exists p y w, (p, Rect 14 y w 8 "F") ∈ ops doc /\ Number_isFinite w = false)
  /\ valid_document doc = false.
Proof.
  intros Hc doc.
  assert (Hbar : exists p y w, (p, Rect 14 y w 8 "F") ∈ ops doc /\ Number_isFinite w = false).
  { destruct (generatePDFPreview_score_bar toLocaleDateString layout now o) as (p & y & Hin).
    eexists p, y, _. split; [exact Hin|].
    unfold scorePercentage_of. rewrite Hc. cbv zeta. cbn [length].
    change (Number_of_nat 0 * 5)%float with 0%float.
    apply bar_width_over_zero. unfold validTotalScore_of.
    by destruct (Number_isFinite (totalScore o)) eqn:Hf. }
  split; [|split; [|split; [|split; [|split]]]].
  - destruct (generatePDFPreview_extends_header toLocaleDateString layout now o)
      as (rest & Hrest & _). by exists rest.
  - intros i Hi. subst doc.
    unfold PdfGenerator.generatePDFPreview in Hi |- *. cbv zeta in Hi |- *.
    destruct (preview_score o _) as [[d y] fc].
    destruct (PdfGenerator.preview_criteria layout o fc d y) as [d' y'].
    destruct (preview_footers_every_page toLocaleDateString now
                (PdfGenerator.preview_overall layout o d' y')) as [Hn Hfoot].
    rewrite Hn in Hi |- *. by apply Hfoot.
  - intros p op Hin.
    apply (adds_from_new _ _ _ (generatePDFPreview_empty_adds toLocaleDateString layout
                                  now o Hc) Hin).
  - intros Hl. by apply generatePDFPreview_empty_single.
  - exact Hbar.
  - destruct Hbar as (p & y & w & Hin & Hw).
    eapply not_finite_invalid; [exact Hin|]. cbn [op_finite]. rewrite Hw.
    by rewrite andb_false_r.
Qed.

(** C8 at the failing input: no criteria, a total of 0.  The bar has
    width NaN and the score line reads "0.0 / 0 (NaN%)". *)
Lemma C8_empty_criteria_witness :
  criteria Samples.no_criteria = []
  /\ valid_document (generatePDFPreview Samples.toLocaleDateString Samples.layout 0%Z
                       Samples.no_criteria) = false
  /\ (1%nat, Rect 14 89 nan 8 "F")
     ∈ ops (generatePDFPreview Samples.toLocaleDateString Samples.layout 0%Z
              Samples.no_criteria)
  /\ (1%nat, Text "0.0 / 0 (NaN%)" 196 104 (Some AlignRight))
     ∈ ops (generatePDFPreview Samples.toLocaleDateString Samples.layout 0%Z
              Samples.no_criteria).
Proof.
  split; [reflexivity|]. split; [|split].
  - apply (C8_empty_criteria Samples.toLocaleDateString Samples.layout 0%Z
             Samples.no_criteria). reflexivity.
  - apply list_elem_of_In. vm_compute. tauto.
  - apply list_elem_of_In. vm_compute. tauto.
Defined.




(** C5: for every store and every id, deleteStudent (deleteAssessor) of a
    present student (assessor) returns true and leaves neither the record
    nor the user it links to in the store; of an absent id it returns false
    and changes nothing, the users map included. *)
Theorem C5_delete_cascades_to_user (s : MemStorage) (id : Z) :
  match students s !! id with
  | Some student =>
      (deleteStudent id s).1 = true
      /\ students (deleteStudent id s).2 !! id = None
      /\ users (deleteStudent id s).2 !! student_userId student = None
  | None =>
      deleteStudent id s = (false, s) /\ users (deleteStudent id s).2 = users s
  end
  /\ match assessors s !! id with
     | Some assessor =>
         (deleteAssessor id s).1 = true
         /\ assessors (deleteAssessor id s).2 !! id = None
         /\ users (deleteAssessor id s).2 !! assessor_userId assessor = None
     | None =>
         deleteAssessor id s = (false, s) /\ users (deleteAssessor id s).2 = users s
     end.
Proof.
  split.
  - destruct (students s !! id) as [student|] eqn:H.
    + by apply deleteStudent_present.
    + rewrite (deleteStudent_absent _ _ H). by split.
  - destruct (assessors s !! id) as [assessor|] eqn:H.
    + by apply deleteAssessor_present.
    + rewrite (deleteAssessor_absent _ _ H). by split.
Qed.

(** C5 on the demo data: deleting student 1 returns true and removes user
    3, the student's; deleting student 9, who does not exist, returns false
    and changes nothing. *)
Lemma C5_delete_cascades_witness :
  ((deleteStudent 1 (new_MemStorage 0%Z)).1 = true
   /\ students (deleteStudent 1 (new_MemStorage 0%Z)).2 !! 1%Z = None
   /\ users (deleteStudent 1 (new_MemStorage 0%Z)).2 !! 3%Z = None)
  /\ deleteStudent 9 (new_MemStorage 0%Z) = (false, new_MemStorage 0%Z).
Proof.
  destruct (C5_delete_cascades_to_user (new_MemStorage 0%Z) 1) as [H1 _].
  destruct (C5_delete_cascades_to_user (new_MemStorage 0%Z) 9) as [H9 _].
  rewrite new_MemStorage_students in H1, H9.
  rewrite lookup_insert_ne, lookup_insert_eq in H1 by lia.
  rewrite !lookup_insert_ne, lookup_empty in H9 by lia.
  split; [exact H1 | exact (proj1 H9)].
Defined.

(** C9: whatever role userData carries, the user created by createStudent
    is stored under the new student's userId with role student, and the one
    created by createAssessor with role assessor; so in a new store, and after
    any sequence of create operations on it, every student's user has role
    student and every assessor's user has role assessor.  The same holds
    after any sequence of create operations on any store where it holds and
    whose user counter is ahead of the user ids in use. *)
Theorem C9_created_users_have_their_role :
  (forall now student userData s,
     exists user,
       users (createStudent now student userData s).2
         !! student_userId (createStudent now student userData s).1 = Some user
       /\ user_role user = role_student)
  /\ (forall now assessor userData s,
        exists user,
          users (createAssessor now assessor userData s).2
            !! assessor_userId (createAssessor now assessor userData s).1 = Some user
          /\ user_role user = role_assessor)
  /\ (forall now ops, linked_roles (run_creates ops (new_MemStorage now)))
  /\ (forall s ops, linked_roles s -> fresh_userId s -> linked_roles (run_creates ops s)).
Proof.
  split; [|split; [|split]].
  - intros now student userData s.
    pose proof (createStudent_user now student userData s) as H.
    destruct (createStudent now student userData s) as [newStudent s'].
    destruct H as (user & Hu & Hr & _). by exists user.
  - intros now assessor userData s.
    pose proof (createAssessor_user now assessor userData s) as H.
    destruct (createAssessor now assessor userData s) as [newAssessor s'].
    destruct H as (user & Hu & Hr & _). by exists user.
  - intros now ops. apply roles_inv_run_creates, roles_inv_new.
  - intros s ops Hroles Hfresh. by apply roles_inv_run_creates.
Qed.

(** C9 on the demo data: a student created with userData that says "admin"
    gets user 5, whose role is student. *)
Lemma C9_created_users_witness :
  let userData := {| insertUser_username := "student3"; insertUser_password := "pw";
                     insertUser_email := "student3@example.com";
                     insertUser_fullName := "Alex Lee"; insertUser_role := role_admin |} in
  let created := createStudent 0%Z {| insertStudent_userId := 0; insertStudent_classId := 2 |}
                   userData (new_MemStorage 0%Z) in
  student_userId created.1 = 5%Z
  /\ exists user, users created.2 !! 5%Z = Some user /\ user_role user = role_student.
Proof.
  intros userData created.
  assert (Hid : student_userId created.1 = 5%Z) by (vm_compute; reflexivity).
  split; [exact Hid|]. rewrite <- Hid.
  apply (proj1 C9_created_users_have_their_role).
Defined.

(** C10: each of the seven update operations, on an id present in the
    store, returns and stores under that id the existing record with the
    supplied fields replaced: the id and createdAt are kept, and so is every
    field the partial record does not supply (updateAssessment also sets
    updatedAt to the current time); on an absent id it returns undefined and
    the store is unchanged. *)
Theorem C10_updates_keep_what_is_not_supplied (s : MemStorage) (id : Z) :
  (forall p,
     match schools s !! id with
     | Some existing =>
         exists updated, (updateSchool id p s).1 = Some updated
           /\ schools (updateSchool id p s).2 !! id = Some updated
           /\ school_id updated = school_id existing
           /\ school_createdAt updated = school_createdAt existing
           /\ kept school_name (partialSchool_name p) existing updated
           /\ kept school_address (partialSchool_address p) existing updated
     | None => updateSchool id p s = (None, s)
     end)
  /\ (forall p,
        match classes s !! id with
        | Some existing =>
            exists updated, (updateClass id p s).1 = Some updated
              /\ classes (updateClass id p s).2 !! id = Some updated
              /\ class_id updated = class_id existing
              /\ class_createdAt updated = class_createdAt existing
              /\ kept class_name (partialClass_name p) existing updated
              /\ kept class_schoolId (partialClass_schoolId p) existing updated
        | None => updateClass id p s = (None, s)
        end)
  /\ (forall p,
        match students s !! id with
        | Some existing =>
            exists updated, (updateStudent id p s).1 = Some updated
              /\ students (updateStudent id p s).2 !! id = Some updated
              /\ student_id updated = student_id existing
              /\ student_createdAt updated = student_createdAt existing
              /\ kept student_userId (partialStudent_userId p) existing updated
              /\ kept student_classId (partialStudent_classId p) existing updated
        | None => updateStudent id p s = (None, s)
        end)
  /\ (forall p,
        match assessors s !! id with
        | Some existing =>
            exists updated, (updateAssessor id p s).1 = Some updated
              /\ assessors (updateAssessor id p s).2 !! id = Some updated
              /\ assessor_id updated = assessor_id existing
              /\ assessor_createdAt updated = assessor_createdAt existing
              /\ kept assessor_userId (partialAssessor_userId p) existing updated
              /\ kept assessor_schoolIds (partialAssessor_schoolIds p) existing updated
        | None => updateAssessor id p s = (None, s)
        end)
  /\ (forall p,
        match rubricTemplates s !! id with
        | Some existing =>
            exists updated, (updateRubricTemplate id p s).1 = Some updated
              /\ rubricTemplates (updateRubricTemplate id p s).2 !! id = Some updated
              /\ rubricTemplate_id updated = rubricTemplate_id existing
              /\ rubricTemplate_createdAt updated = rubricTemplate_createdAt existing
              /\ kept rubricTemplate_name (partialRubricTemplate_name p) existing updated
              /\ kept rubricTemplate_description (partialRubricTemplate_description p)
                   existing updated
              /\ kept rubricTemplate_criteria (partialRubricTemplate_criteria p)
                   existing updated
        | None => updateRubricTemplate id p s = (None, s)
        end)
  /\ (forall p,
        match tasks s !! id with
        | Some existing =>
            exists updated, (updateTask id p s).1 = Some updated
              /\ tasks (updateTask id p s).2 !! id = Some updated
              /\ task_id updated = task_id existing
              /\ task_createdAt updated = task_createdAt existing
              /\ kept task_name (partialTask_name p) existing updated
              /\ kept task_description (partialTask_description p) existing updated
              /\ kept task_rubricTemplateId (partialTask_rubricTemplateId p) existing updated
        | None => updateTask id p s = (None, s)
        end)
  /\ (forall now p,
        match assessments s !! id with
        | Some existing =>
            exists updated, (updateAssessment now id p s).1 = Some updated
              /\ assessments (updateAssessment now id p s).2 !! id = Some updated
              /\ assessment_id updated = assessment_id existing
              /\ assessment_createdAt updated = assessment_createdAt existing
              /\ assessment_updatedAt updated = now
              /\ kept assessment_studentId (partialAssessment_studentId p) existing updated
              /\ kept assessment_assessorId (partialAssessment_assessorId p) existing updated
              /\ kept assessment_taskId (partialAssessment_taskId p) existing updated
              /\ kept assessment_status (Some <$> partialAssessment_status p) existing updated
              /\ kept assessment_scores (partialAssessment_scores p) existing updated
              /\ kept assessment_totalScore (partialAssessment_totalScore p) existing updated
              /\ kept assessment_feedback (partialAssessment_feedback p) existing updated
              /\ kept assessment_pdfPath (partialAssessment_pdfPath p) existing updated
        | None => updateAssessment now id p s = (None, s)
        end).
Proof.
  pose proof (update_absent s id) as (A1 & A2 & A3 & A4 & A5 & A6 & A7).
  repeat split.
  - intros p. destruct (schools s !! id) as [existing|] eqn:E; [|by apply A1].
    rewrite (updateSchool_present _ _ _ p E). eexists. split; [reflexivity|].
    split; [apply lookup_insert_eq | apply spread_school_fields].
  - intros p. destruct (classes s !! id) as [existing|] eqn:E; [|by apply A2].
    rewrite (updateClass_present _ _ _ p E). eexists. split; [reflexivity|].
    split; [apply lookup_insert_eq | apply spread_class_fields].
  - intros p. destruct (students s !! id) as [existing|] eqn:E; [|by apply A3].
    rewrite (updateStudent_present _ _ _ p E). eexists. split; [reflexivity|].
    split; [apply lookup_insert_eq | apply spread_student_fields].
  - intros p. destruct (assessors s !! id) as [existing|] eqn:E; [|by apply A4].
    rewrite (updateAssessor_present _ _ _ p E). eexists. split; [reflexivity|].
    split; [apply lookup_insert_eq | apply spread_assessor_fields].
  - intros p. destruct (rubricTemplates s !! id) as [existing|] eqn:E; [|by apply A5].
    rewrite (updateRubricTemplate_present _ _ _ p E). eexists. split; [reflexivity|].
    split; [apply lookup_insert_eq | apply spread_rubricTemplate_fields].
  - intros p. destruct (tasks s !! id) as [existing|] eqn:E; [|by apply A6].
    rewrite (updateTask_present _ _ _ p E). eexists. split; [reflexivity|].
    split; [apply lookup_insert_eq | apply spread_task_fields].
  - intros now p. destruct (assessments s !! id) as [existing|] eqn:E; [|by apply A7].
    rewrite (updateAssessment_present _ now _ _ p E). eexists. split; [reflexivity|].
    split; [apply lookup_insert_eq | apply spread_assessment_fields].
Qed.

(** C10 on the demo data: renaming school 1 keeps its id, address and
    createdAt; updating school 9, which does not exist, does nothing. *)
Lemma C10_updates_witness :
  let p := {| partialSchool_name := Some "Westside College"; partialSchool_address := None |} in
  (exists updated,
     (updateSchool 1 p (new_MemStorage 0%Z)).1 = Some updated
     /\ school_id updated = 1%Z /\ school_name updated = "Westside College"
     /\ school_address updated = Some "123 West Street" /\ school_createdAt updated = 0%Z)
  /\ updateSchool 9 p (new_MemStorage 0%Z) = (None, new_MemStorage 0%Z).
Proof.
  intros p.
  assert (E1 : schools (new_MemStorage 0%Z) !! 1%Z
               = Some {| school_id := 1; school_name := "Westside High School";
                         school_address := Some "123 West Street"; school_createdAt := 0%Z |})
    by (vm_compute; reflexivity).
  assert (E9 : schools (new_MemStorage 0%Z) !! 9%Z = None) by (vm_compute; reflexivity).
  destruct (C10_updates_keep_what_is_not_supplied (new_MemStorage 0%Z) 1) as [H1 _].
  destruct (C10_updates_keep_what_is_not_supplied (new_MemStorage 0%Z) 9) as [H9 _].
  specialize (H1 p). specialize (H9 p).
  rewrite E1 in H1. rewrite E9 in H9.
  split; [|exact H9].
  destruct H1 as (updated & Hu & _ & Hid & Hc & Hn & Ha).
  exists updated. repeat split; assumption.
Defined.

(** C6: the results page filters the assessments it has listed by status,
    school, class and task.  With no school selected, the list shown holds
    exactly the listed assessments that match every selected filter: the
    status is the selected one, the id of the student's class is the
    selected class, the id of the task the selected task.  With a school
    selected, the list shown is empty, whatever was listed and whatever else
    is selected: the school is read as [assessment.student?.class?.schoolId],
    and the student of a listed assessment carries no class. *)
Theorem C6_selecting_a_school_empties_the_list (sel : Selection)
    (assessments : list AssessmentWithRelations) :
  (selectedSchool sel = "all" ->
   forall x,
     x ∈ filteredAssessments sel assessments
     <-> x ∈ assessments
         /\ (selectedStatus sel <> "all" ->
             status_string (awr_assessment x) = Some (selectedStatus sel))
         /\ (selectedClass sel <> "all" ->
             id_toString (student_classId (swu_student (awr_student x))) = selectedClass sel)
         /\ (selectedTask sel <> "all" ->
             id_toString (assessment_taskId (awr_assessment x)) = selectedTask sel))
  /\ (selectedSchool sel <> "all" -> filteredAssessments sel assessments = []).
Proof.
  split.
  - intros Hschool x. unfold filteredAssessments.
    rewrite list_elem_of_In, filter_In, <- list_elem_of_In.
    apply and_iff_compat_l. unfold keeps. rewrite Hschool. cbn [String.eqb negb andb].
    change (String.eqb "all" "all") with true. cbn [negb andb].
    destruct (String.eqb_spec (selectedStatus sel) "all") as [Est|Est];
      destruct (String.eqb_spec (selectedClass sel) "all") as [Ecl|Ecl];
      destruct (String.eqb_spec (selectedTask sel) "all") as [Eta|Eta];
      cbn [negb andb];
      repeat case_bool_decide; cbn [negb]; split; try done; try tauto;
      intros (? & ? & ?); tauto.
  - intros Hschool. unfold filteredAssessments.
    induction assessments as [|x l IH]; [reflexivity|].
    cbn [List.filter]. rewrite IH.
    assert (Hx : keeps sel x = false); [|by rewrite Hx].
    unfold keeps.
    destruct (negb (String.eqb (selectedStatus sel) "all") && _); [reflexivity|].
    destruct (String.eqb_spec (selectedSchool sel) "all") as [E|E]; [done|].
    reflexivity.
Qed.

(** C6 on the demo data: assessor 1 lists their assessments and selects
    school 1.  The listing is assessment 1, of student 1, who is in class 1
    of school 1; the list the page shows is empty.  With no school selected
    it shows the assessment. *)
Lemma C6_selecting_a_school_witness :
  let f := {| by_status := None; by_school := Some 1%Z; by_class := None;
              by_task := None |} in
  let school_1 := {| selectedSchool := "1"; selectedClass := "all"; selectedTask := "all";
                     selectedStatus := "all" |} in
  let no_school := {| selectedSchool := "all"; selectedClass := "all";
                      selectedTask := "all"; selectedStatus := "all" |} in
  exists x,
    get_assessments (Samples.get_by Samples.assessor_user {["assessorId" := "1"]})
      Samples.world
    = (inr (json (OfAssessments [x])), Samples.world)
    /\ satisfies (storage Samples.world) f (awr_assessment x)
    /\ filteredAssessments school_1 [x] = []
    /\ filteredAssessments no_school [x] = [x].
Proof.
  intros f school_1 no_school.
  assert (Hl : map (fun x => assessment_studentId (awr_assessment x))
                 (listing (Samples.get_by Samples.assessor_user {["assessorId" := "1"]})
                    (storage Samples.world)) = [1%Z]).
  { vm_compute. reflexivity. }
  assert (Hclass : student_classId <$> students (storage Samples.world) !! 1%Z = Some 1%Z).
  { vm_compute. reflexivity. }
  assert (Hschool : class_schoolId <$> classes (storage Samples.world) !! 1%Z = Some 1%Z).
  { vm_compute. reflexivity. }
  destruct (listing _ _) as [|x [|? ?]] eqn:El; try discriminate Hl.
  injection Hl as Hx.
  exists x. split_and!.
  - rewrite get_assessments_authenticated by (by eexists). by rewrite El.
  - unfold satisfies, f. cbn [by_status by_task by_class by_school].
    split; [intros st Hst; discriminate Hst|].
    split; [intros k Hk; discriminate Hk|].
    split; [intros k Hk; discriminate Hk|].
    intros k Hk. injection Hk as <-. rewrite Hx.
    destruct (students (storage Samples.world) !! 1%Z) as [student|]; [|discriminate Hclass].
    injection Hclass as Hclass. exists student. rewrite Hclass.
    destruct (classes (storage Samples.world) !! 1%Z) as [cls|]; [|discriminate Hschool].
    injection Hschool as Hschool. exists cls. split; [reflexivity|]. split; [reflexivity|].
    exact Hschool.
  - destruct (C6_selecting_a_school_empties_the_list school_1 [x]) as [_ Hempty].
    apply Hempty. discriminate.
  - reflexivity.
Defined.

(** C7 (as amended): for every update request that passes the route's
    authorization (an admin for schools, classes, students, assessors,
    rubric templates and tasks; an assessor or an admin for assessments), a
    body that fails schema validation is answered with status 400 carrying
    the field-level issues and the store is left unchanged, and a valid body
    for an id not present in the store is answered with status 404 and the
    store is left unchanged.  A request that does not pass the authorization
    is answered with status 403 before its body is looked at. *)
Theorem C7_update_errors {Body : Type} `{Schemas Body} `{Node} (cwd : string)
    (clock : nat -> Date)
    (req : Request Body) (w : World) :
  (admin_request req ->
     (forall errors, parse_partial_school (req_body req) = inl errors ->
        put_school req w = (inr (status_json 400 (Invalid "Invalid school data" errors)), w))
     /\ (forall data, parse_partial_school (req_body req) = inr data ->
           target req (schools (storage w)) = None ->
           put_school req w = (inr (status_json 404 (Message "School not found")), w))
     /\ (forall errors, parse_partial_class (req_body req) = inl errors ->
           put_class req w = (inr (status_json 400 (Invalid "Invalid class data" errors)), w))
     /\ (forall data, parse_partial_class (req_body req) = inr data ->
           target req (classes (storage w)) = None ->
           put_class req w = (inr (status_json 404 (Message "Class not found")), w))
     /\ (forall errors, parse_partial_student (req_body req) = inl errors ->
           put_student req w
           = (inr (status_json 400 (Invalid "Invalid student data" errors)), w))
     /\ (forall data, parse_partial_student (req_body req) = inr data ->
           target req (students (storage w)) = None ->
           put_student req w = (inr (status_json 404 (Message "Student not found")), w))
     /\ (forall errors, parse_partial_assessor (req_body req) = inl errors ->
           put_assessor req w
           = (inr (status_json 400 (Invalid "Invalid assessor data" errors)), w))
     /\ (forall data, parse_partial_assessor (req_body req) = inr data ->
           target req (assessors (storage w)) = None ->
           put_assessor req w = (inr (status_json 404 (Message "Assessor not found")), w))
     /\ (forall errors, parse_partial_rubricTemplate (req_body req) = inl errors ->
           put_rubricTemplate req w
           = (inr (status_json 400 (Invalid "Invalid rubric template data" errors)), w))
     /\ (forall data, parse_partial_rubricTemplate (req_body req) = inr data ->
           target req (rubricTemplates (storage w)) = None ->
           put_rubricTemplate req w
           = (inr (status_json 404 (Message "Rubric template not found")), w))
     /\ (forall errors, parse_partial_task (req_body req) = inl errors ->
           put_task req w = (inr (status_json 400 (Invalid "Invalid task data" errors)), w))
     /\ (forall data, parse_partial_task (req_body req) = inr data ->
           target req (tasks (storage w)) = None ->
           put_task req w = (inr (status_json 404 (Message "Task not found")), w)))
  /\ (assessor_request req ->
        (forall errors, parse_partial_assessment (req_body req) = inl errors ->
           put_assessment cwd clock req w
           = (inr (status_json 400 (Invalid "Invalid assessment data" errors)), w))
        /\ (forall data, parse_partial_assessment (req_body req) = inr data ->
              target req (assessments (storage w)) = None ->
              put_assessment cwd clock req w
              = (inr (status_json 404 (Message "Assessment not found")), w)))
  /\ (~ admin_request req ->
        let forbidden := (inr (status_json 403 (Message "Forbidden")), w) in
        put_school req w = forbidden /\ put_class req w = forbidden
        /\ put_student req w = forbidden /\ put_assessor req w = forbidden
        /\ put_rubricTemplate req w = forbidden /\ put_task req w = forbidden)
  /\ (~ assessor_request req ->
        put_assessment cwd clock req w = (inr (status_json 403 (Message "Forbidden")), w)).
Proof.
  split; [|split; [|split]].
  - intros Hadmin. repeat split; intros.
    + by apply put_school_invalid.
    + by eapply put_school_missing.
    + by apply put_class_invalid.
    + by eapply put_class_missing.
    + by apply put_student_invalid.
    + by eapply put_student_missing.
    + by apply put_assessor_invalid.
    + by eapply put_assessor_missing.
    + by apply put_rubricTemplate_invalid.
    + by eapply put_rubricTemplate_missing.
    + by apply put_task_invalid.
    + by eapply put_task_missing.
  - intros Hassessor. split; intros.
    + by apply put_assessment_invalid.
    + by eapply put_assessment_missing.
  - intros Hn forbidden. repeat split; by apply isAdmin_block.
  - intros Hn. by apply isAssessor_block.
Qed.

(** C7 on the demo data: an admin's update of school 1 with a number for a
    name is answered with 400 and the issue at [name]; an admin's valid
    update of school 7, which does not exist, with 404. *)
Lemma C7_update_errors_witness :
  put_school (Samples.put_by Samples.admin_user "1" Samples.bad_school_body) Samples.world
  = (inr (status_json 400
            (Invalid "Invalid school data"
               [{| issue_path := ["name"];
                   issue_message := "Expected string, received number" |}])),
     Samples.world)
  /\ put_school (Samples.put_by Samples.admin_user "7" Samples.good_school_body) Samples.world
     = (inr (status_json 404 (Message "School not found")), Samples.world).
Proof.
  assert (Hadmin : forall id body,
             admin_request (Samples.put_by Samples.admin_user id body)).
  { intros id body. exists Samples.admin_user. split; reflexivity. }
  split.
  - apply (@C7_update_errors Json _ Samples.node "/app" Samples.clock); [apply Hadmin|].
    vm_compute. reflexivity.
  - apply (proj1 (@C7_update_errors Json _ Samples.node "/app" Samples.clock
                    (Samples.put_by Samples.admin_user "7" Samples.good_school_body)
                    Samples.world) (Hadmin _ _))
      with (data := {| partialSchool_name := Some "Northside High";
                       partialSchool_address := None |}).
    + vm_compute. reflexivity.
    + vm_compute. reflexivity.
Defined.

(** C7, the claim as stated fails: a student's update of school 1 with a
    body the schema rejects is answered with 403, not 400. *)
Lemma C7_invalid_body_forbidden :
  parse_partial_school Samples.bad_school_body
  = inl [{| issue_path := ["name"]; issue_message := "Expected string, received number" |}]
  /\ put_school (Samples.put_by Samples.student_user "1" Samples.bad_school_body)
       Samples.world
     = (inr (status_json 403 (Message "Forbidden")), Samples.world)
  /\ res_status (status_json 403 (Message "Forbidden")) <> 400%nat.
Proof.
  split; [vm_compute; reflexivity|]. split; [|discriminate].
  apply isAdmin_block. intros (user & Huser & Hrole).
  injection Huser as <-. discriminate Hrole.
Qed.

End Claims.

(** * Further facts about the formatting helpers *)

Module FormatFacts.
Import JS FormatData Props.

(** A unit longer than the time elapsed is passed over. *)
Lemma first_interval_skip seconds unit u rest :
  (0 <= seconds < u)%Z ->
  first_interval (Some seconds) ((unit, u) :: rest) = first_interval (Some seconds) rest.
Proof.
  intros Hs. cbn [first_interval floor_div ge_number]. cbv zeta.
  rewrite Z.div_small by lia. reflexivity.
Qed.

(** The first unit that fits gives the text. *)
Lemma first_interval_take seconds unit u rest :
  (0 < u <= seconds)%Z ->
  first_interval (Some seconds) ((unit, u) :: rest)
  = Some (if (seconds / u =? 1)%Z then "1 " +:+ unit +:+ " ago"
          else digits (seconds / u) +:+ " " +:+ unit +:+ "s ago").
Proof.
  intros Hs. cbn [first_interval floor_div ge_number]. cbv zeta.
  assert (1 <= seconds / u)%Z by (apply Z.div_le_lower_bound; lia).
  rewrite (proj2 (Z.leb_le 1 _)) by lia. reflexivity.
Qed.

(** With NaN seconds no unit fits: the loop runs out. *)
Lemma first_interval_NaN l : first_interval None l = None.
Proof. induction l as [|[unit u] rest IH]; [reflexivity|exact IH]. Qed.

Lemma no_space_app a b : no_space a -> no_space b -> no_space (a +:+ b).
Proof.
  unfold no_space. induction a as [|c a IH]; cbn; [done|].
  intros Ha Hb. inversion Ha; subst. constructor; [done|]. by apply IH.
Qed.

(** [s.replace(/\s+/g, r)] leaves no white space when [r] has none. *)
Lemma replace_spaces_no_space r s : no_space r -> forall b, no_space (replace_spaces r b s).
Proof.
  intros Hr. induction s as [|c s IH]; intros b; cbn; [constructor|].
  destruct (is_space c) eqn:Hc.
  - destruct b; [apply IH|]. apply no_space_app; [done|apply IH].
  - constructor; [done|apply IH].
Qed.

(** It leaves a string without white space as it is. *)
Lemma replace_spaces_id r s : no_space s -> replace_spaces r false s = s.
Proof.
  unfold no_space. induction s as [|c s IH]; cbn; [done|].
  intros H. inversion H as [|? ? Hc Hs]; subst. rewrite Hc. f_equal. by apply IH.
Qed.

End FormatFacts.

(** * The pages of the two documents *)

Module PagesFacts.
Import JS PdfGenerator Props NumberFacts PdfFacts.
Local Open Scope float_scope.

Lemma pages_draw o doc : (numberOfPages doc <= numberOfPages (draw o doc))%nat.
Proof. done. Qed.

Lemma pages_addPage doc : (numberOfPages doc <= numberOfPages (doc_addPage doc))%nat.
Proof. cbn. lia. Qed.

Lemma pages_setPage i doc : (numberOfPages doc <= numberOfPages (doc_setPage i doc))%nat.
Proof. done. Qed.

Section Pages.
Variable toLocaleDateString : Date -> string.
Variable layout : jsPDF -> AutoTableOptions -> float * nat.

Lemma pages_autoTable t doc :
  (numberOfPages doc <= numberOfPages (PdfGenerator.autoTable layout t doc))%nat.
Proof. unfold PdfGenerator.autoTable. destruct (layout doc t). cbn. lia. Qed.

(** Chains of calls: no call takes a page away. *)
Ltac pages_chain :=
  repeat first
    [ apply Nat.le_refl
    | eapply Nat.le_trans;
      [| first [ apply pages_draw | apply pages_autoTable
               | apply pages_addPage | apply pages_setPage ] ] ].

Lemma criterion_section_pages fc doc y c i :
  (numberOfPages doc
   <= numberOfPages (PdfGenerator.criterion_section layout fc (doc, y) c i).1)%nat.
Proof.
  unfold PdfGenerator.criterion_section.
  destruct (description c) as [[|a d]|], (feedback c) as [[|b fb]|];
    try destruct (trim_nonempty (String b fb));
    match goal with |- context [if ?b then _ else _] => destruct b end;
    cbn [fst]; pages_chain.
Qed.

Lemma forEach_from_pages fc l : forall i doc y,
  (numberOfPages doc
   <= numberOfPages
        (forEach_from (PdfGenerator.criterion_section layout fc) i l (doc, y)).1)%nat.
Proof.
  induction l as [|c l IH]; intros i doc y; cbn [forEach_from]; [done|].
  destruct (PdfGenerator.criterion_section layout fc (doc, y) c i) as [doc' y'] eqn:E.
  eapply Nat.le_trans; [|apply IH].
  change doc' with (doc', y').1. rewrite <- E. apply criterion_section_pages.
Qed.

(** The preview has at least the page it starts with. *)
Lemma generatePDFPreview_pages now o :
  (1 <= numberOfPages
          (PdfGenerator.generatePDFPreview toLocaleDateString layout now o))%nat.
Proof.
  unfold PdfGenerator.generatePDFPreview. cbv zeta.
  destruct (preview_score _ _) as [[d1 y1] fc] eqn:E1.
  destruct (PdfGenerator.preview_criteria _ _ _ _ _) as [d2 y2] eqn:E2.
  unfold PdfGenerator.preview_footers, for_1_to. rewrite footers_pages.
  assert (H0 : (1 <= numberOfPages
                        (PdfGenerator.preview_details toLocaleDateString layout o
                           (preview_header new_jsPDF)))%nat).
  { unfold PdfGenerator.preview_details, preview_header. unfold_calls.
    change 1%nat with (numberOfPages new_jsPDF). pages_chain. }
  assert (H1 : (1 <= numberOfPages d1)%nat).
  { eapply Nat.le_trans; [exact H0|].
    change d1 with (d1, y1, fc).1.1. rewrite <- E1.
    unfold preview_score. cbv zeta. cbn [fst]. unfold_calls. pages_chain. }
  assert (H2 : (1 <= numberOfPages d2)%nat).
  { eapply Nat.le_trans; [exact H1|].
    change d2 with (d2, y2).1. rewrite <- E2.
    unfold PdfGenerator.preview_criteria, forEach. cbv zeta.
    eapply Nat.le_trans; [|apply forEach_from_pages].
    unfold_calls. pages_chain. }
  eapply Nat.le_trans; [exact H2|].
  unfold PdfGenerator.preview_overall. cbv zeta.
  destruct (trim_nonempty _); [|done].
  unfold_calls. pages_chain.
Qed.

End Pages.

Section ReportPages.
Variable toLocaleDateString : Date -> string.
Variable pageSize_width pageSize_height : float.
Variable layout : jsPDF -> AutoTableOptions -> float * nat.

Abbreviation report_footer := (PdfGenerator.report_footer pageSize_width pageSize_height).

Lemma report_footer_pages n doc i : numberOfPages (report_footer n doc i) = numberOfPages doc.
Proof. reflexivity. Qed.

(** A page number for page [i] is drawn on page [i]. *)
Lemma report_footer_text n doc i :
  (1 <= i <= numberOfPages doc)%nat ->
  (i, Text ("Page " +:+ nat_toString i +:+ " of " +:+ nat_toString n)
        (pageSize_width / 2) (pageSize_height - 10) (Some AlignCenter))
  ∈ ops (report_footer n doc i).
Proof.
  intros [H1 H2]. unfold PdfGenerator.report_footer. unfold_calls.
  apply draw_last_at. rewrite !page_draw. cbn [page doc_setPage].
  assert (Hp : (1 <=? i)%nat && (i <=? numberOfPages doc)%nat = true).
  { apply andb_true_intro. split; by apply Nat.leb_le. }
  by rewrite Hp.
Qed.

Lemma report_footers_pages n l : forall doc,
  numberOfPages (fold_left (report_footer n) l doc) = numberOfPages doc.
Proof.
  induction l as [|i l IH]; intros doc; cbn [fold_left]; [done|].
  by rewrite IH.
Qed.

Lemma report_footers_texts n l : forall doc i,
  i ∈ l -> (forall k, k ∈ l -> (1 <= k <= numberOfPages doc)%nat) ->
  (i, Text ("Page " +:+ nat_toString i +:+ " of " +:+ nat_toString n)
        (pageSize_width / 2) (pageSize_height - 10) (Some AlignCenter))
  ∈ ops (fold_left (report_footer n) l doc).
Proof.
  induction l as [|k l IH]; intros doc i Hi Hl; [by apply elem_of_nil in Hi|].
  cbn [fold_left]. apply elem_of_cons in Hi as [->|Hi].
  - eapply extends_elem; [apply report_footers_extends|].
    apply report_footer_text, Hl. by left.
  - apply IH; [done|]. intros k' Hk'. rewrite report_footer_pages. apply Hl. by right.
Qed.

(** The report has at least the page it starts with. *)
Lemma report_body_pages now o :
  (1 <= numberOfPages
          (report_details toLocaleDateString layout (assessmentData o)
             (PdfGenerator.autoTable layout (summary_table (assessmentData o))
                (report_title toLocaleDateString now o new_jsPDF))))%nat.
Proof.
  unfold report_details. cbv zeta. unfold_calls.
  change 1%nat with (numberOfPages new_jsPDF).
  repeat first
    [ apply Nat.le_refl
    | eapply Nat.le_trans; [| first [ apply pages_draw | apply pages_autoTable ] ] ].
Qed.

End ReportPages.

End PagesFacts.

(** * Ids are keys

    Each map of the store holds its records under their own ids, and each
    counter is above every id in use. *)

Module InvariantFacts.
Import JS Schema Storage Props StorageFacts.
Local Open Scope Z_scope.


Lemma keyed_insert_fresh {A} (id : A -> Z) m n x :
  keyed id m n -> id x = n -> keyed id (<[n := x]> m) (n + 1).
Proof.
  intros [Hn Hm] Hx. split; [lia|]. intros k y Hk.
  apply lookup_insert_Some in Hk as [[<- <-]|[Hne Hk]]; [lia|].
  destruct (Hm k y Hk). lia.
Qed.

Lemma keyed_insert_same {A} (id : A -> Z) m n k x y :
  keyed id m n -> m !! k = Some y -> id x = id y -> keyed id (<[k := x]> m) n.
Proof.
  intros [Hn Hm] Hy Hx. split; [done|]. intros k' z Hk.
  apply lookup_insert_Some in Hk as [[<- <-]|[Hne Hk]]; [|by apply Hm].
  destruct (Hm k y Hy). lia.
Qed.

Lemma keyed_delete {A} (id : A -> Z) m n k : keyed id m n -> keyed id (delete k m) n.
Proof.
  intros [Hn Hm]. split; [done|]. intros k' z Hk.
  apply lookup_delete_Some in Hk as [_ Hk]. by apply Hm.
Qed.

Lemma keyed_fresh {A} (id : A -> Z) m n : keyed id m n -> m !! n = None.
Proof.
  intros [_ Hm]. destruct (m !! n) as [x|] eqn:E; [|done]. destruct (Hm n x E). lia.
Qed.

Ltac keyed_step :=
  first
    [ assumption
    | apply keyed_delete; keyed_step
    | apply keyed_insert_fresh; [keyed_step | reflexivity]
    | eapply keyed_insert_same; [keyed_step | eassumption | reflexivity] ].

Ltac set_inv :=
  intros (H1 & H2 & H3 & H4 & H5 & H6 & H7 & H8 & H9) H; unfold store_inv;
  split_and!; first [exact H | assumption].

Lemma store_inv_set_users m n s :
  store_inv s -> keyed user_id m n -> store_inv (set_users m n s).
Proof. set_inv. Qed.
Lemma store_inv_set_schools m n s :
  store_inv s -> keyed school_id m n -> store_inv (set_schools m n s).
Proof. set_inv. Qed.
Lemma store_inv_set_classes m n s :
  store_inv s -> keyed class_id m n -> store_inv (set_classes m n s).
Proof. set_inv. Qed.
Lemma store_inv_set_students m n s :
  store_inv s -> keyed student_id m n -> store_inv (set_students m n s).
Proof. set_inv. Qed.
Lemma store_inv_set_assessors m n s :
  store_inv s -> keyed assessor_id m n -> store_inv (set_assessors m n s).
Proof. set_inv. Qed.
Lemma store_inv_set_rubricTemplates m n s :
  store_inv s -> keyed rubricTemplate_id m n -> store_inv (set_rubricTemplates m n s).
Proof. set_inv. Qed.
Lemma store_inv_set_tasks m n s :
  store_inv s -> keyed task_id m n -> store_inv (set_tasks m n s).
Proof. set_inv. Qed.
Lemma store_inv_set_classTasks m n s :
  store_inv s -> keyed classTask_id m n -> store_inv (set_classTasks m n s).
Proof. set_inv. Qed.
Lemma store_inv_set_assessments m n s :
  store_inv s -> keyed assessment_id m n -> store_inv (set_assessments m n s).
Proof. set_inv. Qed.

Ltac set_step :=
  lazymatch goal with
  | |- store_inv (set_users _ _ _) => apply store_inv_set_users
  | |- store_inv (set_schools _ _ _) => apply store_inv_set_schools
  | |- store_inv (set_classes _ _ _) => apply store_inv_set_classes
  | |- store_inv (set_students _ _ _) => apply store_inv_set_students
  | |- store_inv (set_assessors _ _ _) => apply store_inv_set_assessors
  | |- store_inv (set_rubricTemplates _ _ _) => apply store_inv_set_rubricTemplates
  | |- store_inv (set_tasks _ _ _) => apply store_inv_set_tasks
  | |- store_inv (set_classTasks _ _ _) => apply store_inv_set_classTasks
  | |- store_inv (set_assessments _ _ _) => apply store_inv_set_assessments
  end.

Lemma store_inv_createUser now user s : store_inv s -> store_inv (createUser now user s).2.
Proof.
  intros Hs. unfold createUser. cbn [snd]. set_step; [done|].
  apply keyed_insert_fresh; [apply Hs | reflexivity].
Qed.

Lemma store_inv_run_op now op s : store_inv s -> store_inv (run_op now op s).
Proof.
  intros Hs. pose proof Hs as (H1 & H2 & H3 & H4 & H5 & H6 & H7 & H8 & H9).
  destruct op; cbn [run_op].
  - by apply store_inv_createUser.
  - unfold createSchool. cbn [snd]. set_step; [done | keyed_step].
  - unfold updateSchool. destruct (schools s !! id) eqn:E; cbn [snd]; [|done].
    set_step; [done | keyed_step].
  - unfold deleteSchool, Map_delete. cbn [snd]. set_step; [done | keyed_step].
  - unfold createClass. cbn [snd]. set_step; [done | keyed_step].
  - unfold updateClass. destruct (classes s !! id) eqn:E; cbn [snd]; [|done].
    set_step; [done | keyed_step].
  - unfold deleteClass, Map_delete. cbn [snd]. set_step; [done | keyed_step].
  - unfold createStudent.
    pose proof (store_inv_createUser now (with_role userData role_student) s Hs) as Hu.
    destruct (createUser now (with_role userData role_student) s) as [user s'].
    cbn [snd] in Hu |- *. set_step; [done|].
    apply keyed_insert_fresh; [apply Hu | reflexivity].
  - unfold updateStudent. destruct (students s !! id) eqn:E; cbn [snd]; [|done].
    set_step; [done | keyed_step].
  - unfold deleteStudent, Map_delete. cbv zeta.
    destruct (students s !! id) eqn:E; cbn [snd].
    + set_step; [set_step; [done | keyed_step]|]. keyed_step.
    + set_step; [done | keyed_step].
  - unfold createAssessor.
    pose proof (store_inv_createUser now (with_role userData role_assessor) s Hs) as Hu.
    destruct (createUser now (with_role userData role_assessor) s) as [user s'].
    cbn [snd] in Hu |- *. set_step; [done|].
    apply keyed_insert_fresh; [apply Hu | reflexivity].
  - unfold updateAssessor. destruct (assessors s !! id) eqn:E; cbn [snd]; [|done].
    set_step; [done | keyed_step].
  - unfold deleteAssessor, Map_delete. cbv zeta.
    destruct (assessors s !! id) eqn:E; cbn [snd].
    + set_step; [set_step; [done | keyed_step]|]. keyed_step.
    + set_step; [done | keyed_step].
  - unfold createRubricTemplate. cbn [snd]. set_step; [done | keyed_step].
  - unfold updateRubricTemplate. destruct (rubricTemplates s !! id) eqn:E; cbn [snd]; [|done].
    set_step; [done | keyed_step].
  - unfold deleteRubricTemplate, Map_delete. cbn [snd]. set_step; [done | keyed_step].
  - unfold createTask. cbn [snd]. set_step; [done | keyed_step].
  - unfold updateTask. destruct (tasks s !! id) eqn:E; cbn [snd]; [|done].
    set_step; [done | keyed_step].
  - unfold deleteTask, Map_delete. cbn [snd]. set_step; [done | keyed_step].
  - unfold createClassTask. cbn [snd]. set_step; [done | keyed_step].
  - unfold deleteClassTask, Map_delete. cbn [snd]. set_step; [done | keyed_step].
  - unfold createAssessment. cbn [snd]. set_step; [done | keyed_step].
  - unfold updateAssessment. destruct (assessments s !! id) eqn:E; cbn [snd]; [|done].
    set_step; [done | keyed_step].
  - unfold deleteAssessment, Map_delete. cbn [snd]. set_step; [done | keyed_step].
Qed.

Lemma store_inv_run_ops l : forall s, store_inv s -> store_inv (run_ops l s).
Proof.
  unfold run_ops. induction l as [|[now op] l IH]; intros s Hs; cbn [fold_left]; [done|].
  apply IH. by apply store_inv_run_op.
Qed.

Lemma keyed_decide {A} (id : A -> Z) (m : gmap Z A) (n : Z) :
  bool_decide (1 <= n /\ map_Forall (fun k x => id x = k /\ 1 <= k < n) m) = true ->
  keyed id m n.
Proof.
  intros Hd. apply bool_decide_eq_true in Hd as [Hn Hm]. split; [done|].
  intros k x Hk. exact (Hm k x Hk).
Qed.

Lemma store_inv_new now : store_inv (new_MemStorage now).
Proof.
  unfold store_inv. split_and!; apply keyed_decide; vm_compute; reflexivity.
Qed.

End InvariantFacts.

(** * What the queries return *)

Module QueryFacts.
Import JS Schema Storage Routes Props StorageFacts RoutesFacts.
Local Open Scope Z_scope.

Lemma elem_of_getClassTasks classId taskId s ct :
  ct ∈ getClassTasks classId taskId s
  <-> (exists k, classTasks s !! k = Some ct)
      /\ (forall v, truthy_id classId = Some v -> classTask_classId ct = v)
      /\ (forall v, truthy_id taskId = Some v -> classTask_taskId ct = v).
Proof.
  unfold getClassTasks. cbv zeta.
  destruct (truthy_id classId) as [c|], (truthy_id taskId) as [t|];
    rewrite ?list_elem_of_filter, elem_of_values; split.
  - intros [[Hc Ht] Hin]. split_and!; [done| |]; by intros ? [= <-].
  - intros (Hin & Hc & Ht). split; [split|]; auto.
  - intros [Hc Hin]. split_and!; [done| |]; [by intros ? [= <-] | done].
  - intros (Hin & Hc & Ht). split; auto.
  - intros [Ht Hin]. split_and!; [done| |]; [done | by intros ? [= <-]].
  - intros (Hin & Hc & Ht). split; auto.
  - intros Hin. split_and!; done.
  - by intros (Hin & _).
Qed.

Lemma elem_of_getAssessmentsForClass s classId a :
  a ∈ getAssessmentsForClass classId s
  <-> (exists k, assessments s !! k = Some a)
      /\ exists k student, students s !! k = Some student
                           /\ student_classId student = classId
                           /\ student_id student = assessment_studentId a.
Proof.
  unfold getAssessmentsForClass. cbv zeta.
  rewrite list_elem_of_filter, elem_of_values, list_elem_of_fmap.
  split.
  - intros [(student & Hid & Hin) Ha]. split; [done|].
    apply list_elem_of_filter in Hin as [Hc Hin]. apply elem_of_values in Hin as [k Hk].
    by exists k, student.
  - intros [Ha (k & student & Hk & Hc & Hid)]. split; [|done].
    exists student. split; [done|]. apply list_elem_of_filter. split; [done|].
    apply elem_of_values. by exists k.
Qed.

Lemma getAssessmentWithRelations_Some id s r :
  getAssessmentWithRelations id s = Some r ->
  assessments s !! id = Some (awr_assessment r)
  /\ students s !! assessment_studentId (awr_assessment r) = Some (swu_student (awr_student r))
  /\ users s !! student_userId (swu_student (awr_student r)) = Some (swu_user (awr_student r))
  /\ assessors s !! assessment_assessorId (awr_assessment r)
     = Some (awu_assessor (awr_assessor r))
  /\ users s !! assessor_userId (awu_assessor (awr_assessor r))
     = Some (awu_user (awr_assessor r))
  /\ tasks s !! assessment_taskId (awr_assessment r) = Some (twr_task (awr_task r))
  /\ rubricTemplates s !! task_rubricTemplateId (twr_task (awr_task r))
     = Some (twr_rubricTemplate (awr_task r)).
Proof.
  unfold getAssessmentWithRelations. intros Hr.
  destruct (assessments s !! id) as [assessment|]; [|done]. cbn in Hr.
  destruct (students s !! _) as [student|] eqn:E1; [|done]. cbn in Hr.
  destruct (users s !! student_userId student) as [studentUser|] eqn:E2; [|done]. cbn in Hr.
  destruct (assessors s !! _) as [assessor|] eqn:E3; [|done]. cbn in Hr.
  destruct (users s !! assessor_userId assessor) as [assessorUser|] eqn:E4; [|done].
  cbn in Hr.
  destruct (tasks s !! _) as [task|] eqn:E5; [|done]. cbn in Hr.
  destruct (rubricTemplates s !! _) as [rubricTemplate|] eqn:E6; [|done]. cbn in Hr.
  injection Hr as <-. by cbn.
Qed.

Lemma listing_resolves {Body} (req : Request Body) s y :
  y ∈ listing req s ->
  exists k, getAssessmentWithRelations k s = Some y.
Proof.
  intros Hy. apply elem_of_listing in Hy as (a & _ & Hy). by eexists.
Qed.

Lemma getUserByUsername_Some username s user :
  getUserByUsername username s = Some user ->
  (exists id, users s !! id = Some user) /\ user_username user = username.
Proof.
  unfold getUserByUsername. intros Hf. apply find_some in Hf as [Hin Hu].
  split.
  - apply elem_of_values. by apply list_elem_of_In.
  - by apply bool_decide_eq_true in Hu.
Qed.

Lemma getUserByUsername_None username s :
  getUserByUsername username s = None
  <-> forall id user, users s !! id = Some user -> user_username user <> username.
Proof.
  unfold getUserByUsername. split.
  - intros Hf id user Hu. 
    assert (Hin : In user (values (users s))).
    { apply list_elem_of_In, elem_of_values. by exists id. }
    pose proof (find_none _ _ Hf user Hin) as Hb. cbn in Hb.
    by apply bool_decide_eq_false in Hb.
  - intros Hno. destruct (List.find _ _) as [user|] eqn:Hf; [|done].
    apply find_some in Hf as [Hin Hu]. apply bool_decide_eq_true in Hu.
    apply list_elem_of_In, elem_of_values in Hin as [id Hid]. by destruct (Hno id user Hid).
Qed.

Lemma elem_of_getClassesForAssessor assessorId s cls :
  cls ∈ getClassesForAssessor assessorId s
  <-> exists assessor, assessors s !! assessorId = Some assessor
                       /\ (exists k, classes s !! k = Some cls)
                       /\ class_schoolId cls ∈ assessor_schoolIds assessor.
Proof.
  unfold getClassesForAssessor. destruct (assessors s !! assessorId) as [assessor|].
  - rewrite list_elem_of_filter, elem_of_values. split.
    + intros [Hin Hk]. by exists assessor.
    + by intros (? & [= <-] & Hk & Hin).
  - split; [by intros ?%elem_of_nil | by intros (? & ? & _)].
Qed.

Lemma elem_of_getStudentsForClass classId s student user :
  (student, user) ∈ getStudentsForClass classId s
  <-> (exists k, students s !! k = Some student)
      /\ student_classId student = classId
      /\ user = users s !! student_userId student.
Proof.
  unfold getStudentsForClass. cbv zeta. rewrite list_elem_of_fmap. split.
  - intros (x & [= -> ->] & Hin). apply list_elem_of_filter in Hin as [Hc Hin].
    by apply elem_of_values in Hin.
  - intros (Hk & Hc & ->). exists student. split; [done|].
    apply list_elem_of_filter. split; [done|]. by apply elem_of_values.
Qed.

Lemma elem_of_getTasksForClass classId s task :
  task ∈ getTasksForClass classId s
  <-> exists k classTask, classTasks s !! k = Some classTask
                          /\ classTask_classId classTask = classId
                          /\ tasks s !! classTask_taskId classTask = Some task.
Proof.
  unfold getTasksForClass. cbv zeta. rewrite list_elem_of_omap. split.
  - intros (o & Hin & Ho). cbn in Ho. subst o.
    apply list_elem_of_fmap in Hin as (ct & Ht & Hin).
    apply list_elem_of_filter in Hin as [Hc Hin]. apply elem_of_values in Hin as [k Hk].
    by exists k, ct.
  - intros (k & ct & Hk & Hc & Ht). exists (Some task). split; [|done].
    apply list_elem_of_fmap. exists ct. split; [done|].
    apply list_elem_of_filter. split; [done|]. apply elem_of_values. by exists k.
Qed.

Lemma getAssessmentWithRelations_assessment id s r :
  getAssessmentWithRelations id s = Some r -> assessments s !! id = Some (awr_assessment r).
Proof. intros Hr. by apply getAssessmentWithRelations_Some in Hr as (? & _). Qed.

End QueryFacts.

(** * What the routes answer *)

Module ApiFacts.
Import JS Schema Storage Routes Props StorageFacts RoutesFacts QueryFacts.
Local Open Scope Z_scope.

Lemma set_classTasks_same s : set_classTasks (classTasks s) (classTaskId s) s = s.
Proof. by destruct s. Qed.

Section Sent.
Context {Body : Type} `{Api.InsertSchemas Body} `{Node}.
Variable cwd : string.
Variable clock : nat -> Date.

Lemma generatePDF_missing id w :
  getAssessmentWithRelations id (storage w) = None ->
  generatePDF cwd id w = (inl (Error "Assessment not found"), w).
Proof.
  intros Hn. unfold generatePDF, mbind, M_bind, query. by rewrite Hn.
Qed.

Lemma generatePDF_found id w r :
  getAssessmentWithRelations id (storage w) = Some r ->
  generatePDF cwd id w
  = match write_error (pdf_file cwd r) with
    | Some message => (inl (Error message), w)
    | None =>
        (inr (pdf_path r),
         {| storage := storage w;
            files := <[pdf_file cwd r := "Mock PDF content"]> (files w) |})
    end.
Proof.
  intros Hr. unfold generatePDF, mbind, M_bind, query, writeFileSync. rewrite Hr.
  unfold pdf_file, pdf_path, pdf_name. cbv zeta.
  by destruct (write_error _).
Qed.

Lemma Api_isAdmin_pass (next : Api.Route Body) req :
  admin_request req -> Api.isAdmin next req = next req.
Proof.
  intros (user & Hu & Hr). unfold Api.isAdmin. rewrite Hu.
  by rewrite bool_decide_eq_true_2.
Qed.

Lemma Api_isAdmin_block (next : Api.Route Body) req w :
  ~ admin_request req ->
  Api.isAdmin next req w = (inr (Api.Json (status_json 403 (Message "Forbidden"))), w).
Proof.
  intros Hn. unfold Api.isAdmin. destruct (req_user req) as [user|] eqn:Hu; [|done].
  rewrite bool_decide_eq_false_2; [done|]. intros Hr. apply Hn. by exists user.
Qed.

Lemma Api_isAssessor_pass (next : Api.Route Body) req :
  assessor_request req -> Api.isAssessor next req = next req.
Proof.
  intros (user & Hu & Hr). unfold Api.isAssessor. rewrite Hu.
  destruct Hr as [Hr|Hr]; rewrite Hr; done.
Qed.

Lemma Api_isAssessor_block (next : Api.Route Body) req w :
  ~ assessor_request req ->
  Api.isAssessor next req w = (inr (Api.Json (status_json 403 (Message "Forbidden"))), w).
Proof.
  intros Hn. unfold Api.isAssessor. destruct (req_user req) as [user|] eqn:Hu; [|done].
  destruct (bool_decide (user_role user = role_assessor)) eqn:E1;
    [apply bool_decide_eq_true in E1; exfalso; apply Hn; exists user; auto|].
  destruct (bool_decide (user_role user = role_admin)) eqn:E2;
    [apply bool_decide_eq_true in E2; exfalso; apply Hn; exists user; auto|].
  done.
Qed.

(** A delete route run past its gate. *)
Ltac delete_route :=
  unfold target, at_id, call, mbind, M_bind, mret, M_ret;
  destruct (parseInt _) as [id|]; [|by rewrite world_eta];
  unfold deleteSchool, deleteClass, deleteStudent, deleteAssessor, deleteRubricTemplate,
    deleteTask, deleteClassTask, deleteAssessment, Map_delete; cbv zeta.

Ltac delete_present :=
  rewrite bool_decide_eq_true_2 by (by eexists); cbn;
  eexists; split_and!; [reflexivity| |reflexivity]; cbn; apply lookup_delete_eq.

Ltac delete_absent :=
  rewrite bool_decide_eq_false_2 by (by intros [? ?]); cbn;
  rewrite delete_id by done.

Lemma delete_school_answers (req : Request Body) w :
  admin_request req -> delete_answers Api.delete_school schools "School not found" req w.
Proof.
  intros Ha. unfold delete_answers, Api.delete_school. rewrite Api_isAdmin_pass by done.
  delete_route. destruct (schools (storage w) !! id) as [x|] eqn:E.
  - delete_present.
  - delete_absent. by rewrite set_schools_same, world_eta.
Qed.

Lemma delete_class_answers (req : Request Body) w :
  admin_request req -> delete_answers Api.delete_class classes "Class not found" req w.
Proof.
  intros Ha. unfold delete_answers, Api.delete_class. rewrite Api_isAdmin_pass by done.
  delete_route. destruct (classes (storage w) !! id) as [x|] eqn:E.
  - delete_present.
  - delete_absent. by rewrite set_classes_same, world_eta.
Qed.

Lemma delete_student_answers (req : Request Body) w :
  admin_request req -> delete_answers Api.delete_student students "Student not found" req w.
Proof.
  intros Ha. unfold delete_answers, Api.delete_student. rewrite Api_isAdmin_pass by done.
  delete_route. destruct (students (storage w) !! id) as [x|] eqn:E.
  - cbn [students set_users]. rewrite E. delete_present.
  - rewrite E. delete_absent. by rewrite set_students_same, world_eta.
Qed.

Lemma delete_assessor_answers (req : Request Body) w :
  admin_request req ->
  delete_answers Api.delete_assessor assessors "Assessor not found" req w.
Proof.
  intros Ha. unfold delete_answers, Api.delete_assessor. rewrite Api_isAdmin_pass by done.
  delete_route. destruct (assessors (storage w) !! id) as [x|] eqn:E.
  - cbn [assessors set_users]. rewrite E. delete_present.
  - rewrite E. delete_absent. by rewrite set_assessors_same, world_eta.
Qed.

Lemma delete_rubricTemplate_answers (req : Request Body) w :
  admin_request req ->
  delete_answers Api.delete_rubricTemplate rubricTemplates "Rubric template not found" req w.
Proof.
  intros Ha. unfold delete_answers, Api.delete_rubricTemplate.
  rewrite Api_isAdmin_pass by done.
  delete_route. destruct (rubricTemplates (storage w) !! id) as [x|] eqn:E.
  - delete_present.
  - delete_absent. by rewrite set_rubricTemplates_same, world_eta.
Qed.

Lemma delete_task_answers (req : Request Body) w :
  admin_request req -> delete_answers Api.delete_task tasks "Task not found" req w.
Proof.
  intros Ha. unfold delete_answers, Api.delete_task. rewrite Api_isAdmin_pass by done.
  delete_route. destruct (tasks (storage w) !! id) as [x|] eqn:E.
  - delete_present.
  - delete_absent. by rewrite set_tasks_same, world_eta.
Qed.

Lemma delete_classTask_answers (req : Request Body) w :
  admin_request req ->
  delete_answers Api.delete_classTask classTasks "Class task not found" req w.
Proof.
  intros Ha. unfold delete_answers, Api.delete_classTask. rewrite Api_isAdmin_pass by done.
  delete_route. destruct (classTasks (storage w) !! id) as [x|] eqn:E.
  - delete_present.
  - delete_absent. by rewrite set_classTasks_same, world_eta.
Qed.

Lemma delete_assessment_answers (req : Request Body) w :
  assessor_request req ->
  delete_answers Api.delete_assessment assessments "Assessment not found" req w.
Proof.
  intros Ha. unfold delete_answers, Api.delete_assessment.
  rewrite Api_isAssessor_pass by done.
  delete_route. destruct (assessments (storage w) !! id) as [x|] eqn:E.
  - delete_present.
  - delete_absent. by rewrite set_assessments_same, world_eta.
Qed.

Lemma createAssessment_eq now data s :
  createAssessment now data s
  = ((createAssessment now data s).1,
     set_assessments (<[assessmentId s := (createAssessment now data s).1]> (assessments s))
       (assessmentId s + 1) s).
Proof. reflexivity. Qed.

Lemma post_assessment_run (req : Request Body) w data :
  assessor_request req -> Api.parse_assessment (req_body req) = inr data ->
  let a := (createAssessment (clock 0) data (storage w)).1 in
  let s1 := (createAssessment (clock 0) data (storage w)).2 in
  let w1 := {| storage := s1; files := files w |} in
  Api.post_assessment cwd clock req w
  = if bool_decide (assessment_status a = Some status_completed) then
      match getAssessmentWithRelations (assessment_id a) s1 with
      | None => (inr (Api.Json (status_json 500 (Message "Error creating assessment"))), w1)
      | Some r =>
          match write_error (pdf_file cwd r) with
          | Some _ =>
              (inr (Api.Json (status_json 500 (Message "Error creating assessment"))), w1)
          | None =>
              let s2 := (updateAssessment (clock 1) (assessment_id a)
                           (only_pdfPath (pdf_path r)) s1).2 in
              (inr (Api.Json (status_json 201
                                 (OfAssessment
                                    (getAssessmentWithRelations (assessment_id a) s2)))),
               {| storage := s2;
                  files := <[pdf_file cwd r := "Mock PDF content"]> (files w) |})
          end
      end
    else (inr (Api.Json (status_json 201
                           (OfAssessment (getAssessmentWithRelations (assessment_id a) s1)))),
          w1).
Proof.
  intros Ha Hp a s1 w1. unfold Api.post_assessment. rewrite Api_isAssessor_pass by done.
  unfold try_catch. unfold mbind at 1. unfold M_bind at 1. unfold parse. rewrite Hp.
  unfold mret at 1. unfold M_ret at 1.
  unfold mbind at 1. unfold M_bind at 1. unfold call at 1.
  destruct (createAssessment (clock 0) data (storage w)) as [a' s1'] eqn:Ec.
  subst a s1 w1. cbn [fst snd].
  destruct (bool_decide (assessment_status a' = Some status_completed)) eqn:Ed.
  - unfold mbind at 1. unfold M_bind at 1. unfold mbind at 1. unfold M_bind at 1.
    destruct (getAssessmentWithRelations (assessment_id a') s1') as [r|] eqn:Er.
    + rewrite (generatePDF_found _ _ r) by exact Er.
      destruct (write_error (pdf_file cwd r)) as [message|]; [reflexivity|].
      unfold mbind, M_bind, call, query, mret, M_ret. cbn [storage files].
      destruct (updateAssessment _ _ _ s1') as [u s2]. reflexivity.
    + rewrite generatePDF_missing by exact Er. reflexivity.
  - reflexivity.
Qed.

End Sent.

Section PutsDone.
Context {Body : Type} `{Schemas Body} `{Node}.
Variable cwd : string.
Variable clock : nat -> Date.

(** [PUT /api/assessments/:id] past its gate, on a valid body and a
    present id. *)
Lemma put_assessment_run (req : Request Body) w data k current :
  assessor_request req -> parse_partial_assessment (req_body req) = inr data ->
  parseInt (req_params_id req) = Some k ->
  assessments (storage w) !! k = Some current ->
  let u := spread_assessment (clock 0) current data in
  let s1 := set_assessments (<[k := u]> (assessments (storage w)))
              (assessmentId (storage w)) (storage w) in
  put_assessment cwd clock req w
  = if generates_pdf current u then
      match getAssessmentWithRelations (assessment_id u) s1 with
      | None => (inr (status_json 500 (Message "Error updating assessment")),
                 {| storage := s1; files := files w |})
      | Some r =>
          match write_error (pdf_file cwd r) with
          | Some _ => (inr (status_json 500 (Message "Error updating assessment")),
                       {| storage := s1; files := files w |})
          | None =>
              let s2 := (updateAssessment (clock 1) (assessment_id u)
                           (only_pdfPath (pdf_path r)) s1).2 in
              (inr (json (OfAssessment (getAssessmentWithRelations (assessment_id u) s2))),
               {| storage := s2;
                  files := <[pdf_file cwd r := "Mock PDF content"]> (files w) |})
          end
      end
    else (inr (json (OfAssessment (getAssessmentWithRelations (assessment_id u) s1))),
          {| storage := s1; files := files w |}).
Proof.
  intros Ha Hp Hk Hc u s1. unfold put_assessment. rewrite isAssessor_pass by done.
  unfold try_catch. unfold mbind at 1. unfold M_bind at 1. unfold parse. rewrite Hp.
  unfold mret at 1. unfold M_ret at 1.
  unfold mbind at 1. unfold M_bind at 1. unfold query at 1.
  rewrite Hk. cbn [at_id]. unfold getAssessment. rewrite Hc.
  unfold mbind at 1. unfold M_bind at 1. unfold call at 1.
  rewrite (updateAssessment_present _ _ _ _ data Hc). fold u. fold s1.
  unfold generates_pdf.
  destruct (bool_decide (assessment_status u = Some status_completed)
            && (negb (bool_decide (assessment_status current = Some status_completed))
                || no_pdfPath current)) eqn:Eg.
  - unfold mbind at 1. unfold M_bind at 1. unfold mbind at 1. unfold M_bind at 1.
    destruct (getAssessmentWithRelations (assessment_id u) s1) as [r|] eqn:Er.
    + rewrite (generatePDF_found _ _ _ r) by exact Er.
      destruct (write_error (pdf_file cwd r)) as [message|]; [reflexivity|].
      unfold mbind, M_bind, call, query, mret, M_ret. cbn [storage files].
      destruct (updateAssessment _ _ _ s1) as [u2 s2]. reflexivity.
    + rewrite generatePDF_missing by exact Er. reflexivity.
  - reflexivity.
Qed.

(** Once completed with a PDF, an assessment is not given another. *)
Lemma generates_pdf_once current updated :
  assessment_status current = Some status_completed -> no_pdfPath current = false ->
  generates_pdf current updated = false.
Proof.
  intros Hs Hp. unfold generates_pdf. rewrite Hp.
  rewrite (bool_decide_eq_true_2 _ Hs). apply andb_false_r.
Qed.

(** A PUT route run past its gate on a valid body and a present id. *)
Ltac updated_target Hparse Hid Hpresent :=
  unfold update_answers, try_catch, mbind, M_bind, parse, throw, mret, M_ret, call, query;
  rewrite Hparse, Hid; cbn [at_id];
  first [ rewrite (updateSchool_present _ _ _ _ Hpresent)
        | rewrite (updateClass_present _ _ _ _ Hpresent)
        | rewrite (updateStudent_present _ _ _ _ Hpresent)
        | rewrite (updateAssessor_present _ _ _ _ Hpresent)
        | rewrite (updateRubricTemplate_present _ _ _ _ Hpresent)
        | rewrite (updateTask_present _ _ _ _ Hpresent) ];
  eexists {| storage := _; files := _ |}; split_and!;
  [ reflexivity
  | apply lookup_insert_eq
  | intros k' Hk'; by apply lookup_insert_ne
  | reflexivity ].

Lemma put_school_updates req w data k existing :
  admin_request req -> parse_partial_school (req_body req) = inr data ->
  parseInt (req_params_id req) = Some k -> schools (storage w) !! k = Some existing ->
  update_answers put_school getSchool k (spread_school existing data)
    (fun _ => OfSchool (spread_school existing data)) req w.
Proof.
  intros Ha Hp Hk He. unfold update_answers, put_school. rewrite isAdmin_pass by done.
  updated_target Hp Hk He.
Qed.

Lemma put_class_updates req w data k existing :
  admin_request req -> parse_partial_class (req_body req) = inr data ->
  parseInt (req_params_id req) = Some k -> classes (storage w) !! k = Some existing ->
  update_answers put_class getClass k (spread_class existing data)
    (fun _ => OfClass (spread_class existing data)) req w.
Proof.
  intros Ha Hp Hk He. unfold update_answers, put_class. rewrite isAdmin_pass by done.
  updated_target Hp Hk He.
Qed.

Lemma put_student_updates req w data k existing :
  admin_request req -> parse_partial_student (req_body req) = inr data ->
  parseInt (req_params_id req) = Some k -> students (storage w) !! k = Some existing ->
  update_answers put_student getStudent k (spread_student existing data)
    (fun s => OfStudent (spread_student existing data)
                (getUser (student_userId (spread_student existing data)) s)) req w.
Proof.
  intros Ha Hp Hk He. unfold update_answers, put_student. rewrite isAdmin_pass by done.
  updated_target Hp Hk He.
Qed.

Lemma put_assessor_updates req w data k existing :
  admin_request req -> parse_partial_assessor (req_body req) = inr data ->
  parseInt (req_params_id req) = Some k -> assessors (storage w) !! k = Some existing ->
  update_answers put_assessor getAssessor k (spread_assessor existing data)
    (fun s => OfAssessor (spread_assessor existing data)
                (getUser (assessor_userId (spread_assessor existing data)) s)) req w.
Proof.
  intros Ha Hp Hk He. unfold update_answers, put_assessor. rewrite isAdmin_pass by done.
  updated_target Hp Hk He.
Qed.

Lemma put_rubricTemplate_updates req w data k existing :
  admin_request req -> parse_partial_rubricTemplate (req_body req) = inr data ->
  parseInt (req_params_id req) = Some k ->
  rubricTemplates (storage w) !! k = Some existing ->
  update_answers put_rubricTemplate getRubricTemplate k
    (spread_rubricTemplate existing data)
    (fun _ => OfRubricTemplate (spread_rubricTemplate existing data)) req w.
Proof.
  intros Ha Hp Hk He. unfold update_answers, put_rubricTemplate. rewrite isAdmin_pass by done.
  updated_target Hp Hk He.
Qed.

Lemma put_task_updates req w data k existing :
  admin_request req -> parse_partial_task (req_body req) = inr data ->
  parseInt (req_params_id req) = Some k -> tasks (storage w) !! k = Some existing ->
  update_answers put_task getTask k (spread_task existing data)
    (fun _ => OfTask (spread_task existing data)) req w.
Proof.
  intros Ha Hp Hk He. unfold update_answers, put_task. rewrite isAdmin_pass by done.
  updated_target Hp Hk He.
Qed.

End PutsDone.

End ApiFacts.

(** * Ids in request parameters *)

Module ParseFacts.
Import JS Schema Storage Routes Props.
Local Open Scope Z_scope.

Lemma parse_digits_no_digit acc rest : no_digit_ahead rest -> parse_digits 10 acc rest = acc.
Proof. destruct rest as [|c rest]; [done|]. intros Hc. cbn. by rewrite Hc. Qed.

Lemma append_cons c s t : String c s +:+ t = String c (s +:+ t).
Proof. reflexivity. Qed.

Lemma parse_digits_step c d acc s :
  digit_value 10 c = Some d ->
  parse_digits 10 acc (String c s) = parse_digits 10 (Some (default 0 acc * 10 + d)) s.
Proof. intros Hc. cbn [parse_digits]. by rewrite Hc. Qed.

Lemma parse_digits_acc d : forall acc rest,
  no_digit_ahead rest ->
  parse_digits 10 (Some (Zpos acc)) (NilEmpty.string_of_uint d +:+ rest)
  = Some (Zpos (Pos.of_uint_acc d acc)).
Proof.
  induction d; intros acc rest Hr; cbn [NilEmpty.string_of_uint Pos.of_uint_acc];
    [by apply parse_digits_no_digit|..];
    rewrite append_cons, <- (IHd _ rest) by done;
    erewrite parse_digits_step by (vm_compute; reflexivity);
    cbn [default from_option]; unfold id; do 2 f_equal; lia.
Qed.

Lemma parse_digits_uint d rest :
  no_digit_ahead rest ->
  parse_digits 10 (Some 0) (NilEmpty.string_of_uint d +:+ rest)
  = Some (Z.of_N (Pos.of_uint d)).
Proof.
  induction d; intros Hr; cbn [NilEmpty.string_of_uint Pos.of_uint];
    [by apply parse_digits_no_digit|..]; rewrite append_cons;
    erewrite parse_digits_step by (vm_compute; reflexivity);
    cbn [default from_option]; unfold id;
    first [ exact (IHd Hr) | exact (parse_digits_acc d _ rest Hr) ].
Qed.

(** The digits of a number from 1 on start with a digit from 1 to 9. *)
Lemma to_uint_head (n : N) :
  (1 <= n)%N ->
  match N.to_uint n with
  | Decimal.Nil | Decimal.D0 _ => False
  | _ => True
  end.
Proof.
  intros Hn.
  assert (Hnorm : Decimal.unorm (N.to_uint n) = N.to_uint n).
  { rewrite <- DecimalN.Unsigned.to_of. by rewrite DecimalN.Unsigned.of_to. }
  destruct (N.to_uint n) as [|d| | | | | | | | |] eqn:E; try done.
  unfold Decimal.unorm in Hnorm. rewrite DecimalFacts.nzhead_D0 in Hnorm.
  destruct (Decimal.nzhead d) eqn:Ez; try discriminate Hnorm.
  - injection Hnorm as <-.
    assert (H0 : N.of_uint (N.to_uint n) = 0%N) by (by rewrite E).
    rewrite DecimalN.Unsigned.of_to in H0. lia.
  - by apply DecimalFacts.nzhead_nonzero in Ez.
Qed.

Lemma parseInt_digits (n : Z) (rest : string) :
  1 <= n -> no_digit_ahead rest -> parseInt (digits n +:+ rest) = Some n.
Proof.
  intros Hn Hr. unfold digits.
  assert (Hh := to_uint_head (Z.to_N n) ltac:(lia)).
  assert (Hv : Z.of_N (Pos.of_uint (N.to_uint (Z.to_N n))) = n).
  { change (Pos.of_uint (N.to_uint (Z.to_N n))) with (N.of_uint (N.to_uint (Z.to_N n))).
    rewrite DecimalN.Unsigned.of_to. lia. }
  revert Hh Hv. generalize (N.to_uint (Z.to_N n)) as d. intros d Hh Hv.
  pose proof (parse_digits_uint d rest Hr) as Hp. rewrite Hv in Hp.
  destruct d; try done;
    cbn [NilZero.string_of_uint NilEmpty.string_of_uint] in Hp |- *;
    rewrite append_cons in Hp |- *;
    unfold parseInt; cbn [JS.trimStart];
    match goal with |- context [is_space ?c] => change (is_space c) with false end;
    cbv iota beta;
    (erewrite parse_digits_step in Hp by (vm_compute; reflexivity));
    (erewrite parse_digits_step by (vm_compute; reflexivity));
    cbn [default from_option] in Hp |- *; unfold id in Hp; rewrite Hp; reflexivity.
Qed.

Lemma parseInt_no_digit c s :
  is_space c = false -> c <> "-"%char -> c <> "+"%char -> digit_value 10 c = None ->
  parseInt (String c s) = None.
Proof.
  intros Hsp Hm Hp Hd. unfold parseInt. cbn [JS.trimStart]. rewrite Hsp.
  destruct c as [[|] [|] [|] [|] [|] [|] [|] [|]];
    first [ by destruct Hm | by destruct Hp | discriminate Hd
          | cbv iota beta; cbn [parse_digits]; rewrite Hd; reflexivity ].
Qed.

End ParseFacts.

(** * Further properties of the code *)

Module Extras.
Import JS FormatData Schema Storage Routes PdfGenerator Props.
Import NumberFacts PdfFacts StorageFacts RoutesFacts.
Import FormatFacts PagesFacts InvariantFacts QueryFacts ApiFacts ParseFacts.

(** ** The formatting helpers *)

(** X1: [formatRelativeTime] of an Invalid Date is "just now": every
    comparison with NaN fails and the loop over the units runs out.  For a
    valid date less than 2^53 milliseconds from now: of a date after now it
    is "in the future"; of a date less than a minute ago, "just now";
    otherwise it counts whole units of the largest unit that fits (a year of
    365 days, a month of 30 days, a week, a day, an hour, a minute), the
    unit in the singular exactly when the count is 1.  The counts stay
    within 1..59 minutes, 1..23 hours, 1..6 days, 1..4 weeks and 1..12
    months: 360 to 364 days are "12 months ago", not a year. *)
Theorem X1_relative_time (now date : Z) :
  let seconds := ((now - date) / 1000)%Z in
  let ago (n : Z) (unit : string) :=
    if (n =? 1)%Z then "1 " +:+ unit +:+ " ago" else digits n +:+ " " +:+ unit +:+ "s ago" in
  formatRelativeTime now None = "just now"
  /\ ((Z.abs (now - date) < 2 ^ 53)%Z ->
      ((now < date)%Z -> formatRelativeTime now (Some date) = "in the future")
      /\ ((0 <= now - date < 60000)%Z -> formatRelativeTime now (Some date) = "just now")
      /\ ((60 <= seconds < 3600)%Z ->
          formatRelativeTime now (Some date) = ago (seconds / 60)%Z "minute"
          /\ (1 <= seconds / 60 <= 59)%Z)
      /\ ((3600 <= seconds < 86400)%Z ->
          formatRelativeTime now (Some date) = ago (seconds / 3600)%Z "hour"
          /\ (1 <= seconds / 3600 <= 23)%Z)
      /\ ((86400 <= seconds < 604800)%Z ->
          formatRelativeTime now (Some date) = ago (seconds / 86400)%Z "day"
          /\ (1 <= seconds / 86400 <= 6)%Z)
      /\ ((604800 <= seconds < 2592000)%Z ->
          formatRelativeTime now (Some date) = ago (seconds / 604800)%Z "week"
          /\ (1 <= seconds / 604800 <= 4)%Z)
      /\ ((2592000 <= seconds < 31536000)%Z ->
          formatRelativeTime now (Some date) = ago (seconds / 2592000)%Z "month"
          /\ (1 <= seconds / 2592000 <= 12)%Z)
      /\ ((31536000 <= seconds)%Z ->
          formatRelativeTime now (Some date) = ago (seconds / 31536000)%Z "year"
          /\ (1 <= seconds / 31536000)%Z)).
Proof.
  intros seconds ago.
  split.
  { unfold formatRelativeTime. cbn [floor_div lt_number].
    by rewrite first_interval_NaN. }
  intros _.
  assert (Hfut : (now < date)%Z -> (seconds < 0)%Z).
  { intros Hlt. unfold seconds. apply Z.div_lt_upper_bound; lia. }
  assert (Hrun : (60 <= seconds)%Z ->
                 formatRelativeTime now (Some date)
                 = default "just now" (first_interval (Some seconds) intervals)).
  { intros Hs. unfold formatRelativeTime. cbn [floor_div lt_number]. fold seconds.
    rewrite (proj2 (Z.ltb_ge seconds 0)) by lia.
    rewrite (proj2 (Z.ltb_ge seconds 60)) by lia. reflexivity. }
  assert (Hbound : forall u k, (0 < u)%Z -> (u <= seconds < (k + 1) * u)%Z ->
                               (1 <= seconds / u <= k)%Z).
  { intros u k Hu Hs. split; [apply Z.div_le_lower_bound; lia|].
    assert (seconds / u < k + 1)%Z by (apply Z.div_lt_upper_bound; lia). lia. }
  unfold intervals in Hrun.
  split_and!.
  - intros Hlt. unfold formatRelativeTime. cbn [floor_div lt_number]. fold seconds.
    by rewrite (proj2 (Z.ltb_lt seconds 0)) by auto.
  - intros Hs. unfold formatRelativeTime. cbn [floor_div lt_number]. fold seconds.
    assert (0 <= seconds < 60)%Z.
    { unfold seconds. split; [apply Z.div_pos; lia | apply Z.div_lt_upper_bound; lia]. }
    rewrite (proj2 (Z.ltb_ge seconds 0)) by lia.
    by rewrite (proj2 (Z.ltb_lt seconds 60)) by lia.
  - intros Hs. split; [|apply Hbound; lia]. rewrite Hrun by lia.
    rewrite !first_interval_skip by lia. by rewrite first_interval_take by lia.
  - intros Hs. split; [|apply Hbound; lia]. rewrite Hrun by lia.
    rewrite !first_interval_skip by lia. by rewrite first_interval_take by lia.
  - intros Hs. split; [|apply Hbound; lia]. rewrite Hrun by lia.
    rewrite !first_interval_skip by lia. by rewrite first_interval_take by lia.
  - intros Hs. split; [|apply Hbound; lia]. rewrite Hrun by lia.
    rewrite !first_interval_skip by lia. by rewrite first_interval_take by lia.
  - intros Hs. split; [|apply Hbound; lia]. rewrite Hrun by lia.
    rewrite !first_interval_skip by lia. by rewrite first_interval_take by lia.
  - intros Hs. split; [|apply Z.div_le_lower_bound; lia]. rewrite Hrun by lia.
    by rewrite first_interval_take by lia.
Qed.

(** X1 on 14 November 2023: an Invalid Date reads "just now", a date three
    days and a few minutes before "3 days ago", and one 364 days before
    "12 months ago". *)
Lemma X1_relative_time_witness :
  formatRelativeTime 1700000000000%Z None = "just now"
  /\ formatRelativeTime 1700000000000%Z (Some 1699740000000%Z) = "3 days ago"
  /\ formatRelativeTime 1700000000000%Z (Some 1668550400000%Z) = "12 months ago".
Proof.
  destruct (X1_relative_time 1700000000000%Z 1699740000000%Z) as [Hnan Hdays].
  destruct (X1_relative_time 1700000000000%Z 1668550400000%Z) as [_ Hmonths].
  destruct Hdays as (_ & _ & _ & _ & Hdays & _); [vm_compute; reflexivity|].
  destruct Hmonths as (_ & _ & _ & _ & _ & _ & Hmonths & _); [vm_compute; reflexivity|].
  split_and!.
  - exact Hnan.
  - destruct Hdays as [-> _]; [|vm_compute; reflexivity].
    split; [apply Z.leb_le | apply Z.ltb_lt]; vm_compute; reflexivity.
  - destruct Hmonths as [-> _]; [|vm_compute; reflexivity].
    split; [apply Z.leb_le | apply Z.ltb_lt]; vm_compute; reflexivity.
Defined.

(** X2: the colour helpers follow the level [formatScoreLevel] gives the
    same score: red for Needs Improvement, orange for Developing, blue for
    Proficient, and one green for both Advanced and Exemplary;
    [getScoreColor] is [getScoreColorClass]. *)
Theorem X2_colour_follows_level (s : float) :
  let level := formatScoreLevel s in
  let colours := (getScoreColorClass s, getScoreBadgeColor s) in
  getScoreColor s = getScoreColorClass s
  /\ (level = "Needs Improvement" ->
      colours = ("text-red-500", "bg-red-100 text-red-800"))
  /\ (level = "Developing" ->
      colours = ("text-orange-500", "bg-orange-100 text-orange-800"))
  /\ (level = "Proficient" ->
      colours = ("text-blue-500", "bg-blue-100 text-blue-800"))
  /\ (level = "Advanced" \/ level = "Exemplary" ->
      colours = ("text-green-500", "bg-green-100 text-green-800")).
Proof.
  intros level colours. subst level colours.
  unfold getScoreColor, getScoreColorClass,
    getScoreBadgeColor, formatScoreLevel.
  split; [reflexivity|].
  destruct (s <? 2)%float, (s <? 3)%float, (s <? 4)%float, (s <? 4.5)%float;
    split_and!; intros Hl; try reflexivity; try discriminate Hl;
    destruct Hl as [Hl|Hl]; discriminate Hl.
Qed.

(** ** The two PDF documents *)

Section Documents.
Variable toLocaleDateString : Date -> string.
Variable toISOString : Date -> string.
Variable pageSize_width pageSize_height : float.
Variable layout : jsPDF -> AutoTableOptions -> float * nat.

Local Open Scope float_scope.

(** X3: whatever its input, the document [generatePDFPreview] returns has
    at least one page, and each of its pages, from 1 to the number of pages,
    carries the footer with the generation date and "Page i of n", [n] being
    the final number of pages, centred at (105, 285). *)
Theorem X3_preview_footer_on_every_page now o :
  let doc := PdfGenerator.generatePDFPreview toLocaleDateString layout now o in
  (1 <= numberOfPages doc)%nat
  /\ Forall (fun i =>
       (i, Text ("Assessment Feedback Platform | Generated on " +:+ toLocaleDateString now
                 +:+ " | Page " +:+ nat_toString i +:+ " of "
                 +:+ nat_toString (numberOfPages doc))
             105 285 (Some AlignCenter)) ∈ ops doc)
       (seq 1 (numberOfPages doc)).
Proof.
  cbv zeta. split; [apply generatePDFPreview_pages|].
  unfold PdfGenerator.generatePDFPreview. cbv zeta.
  destruct (preview_score _ _) as [[d1 y1] fc].
  destruct (preview_criteria _ _ _ _ _) as [d2 y2].
  set (d := preview_overall _ _ _ _).
  destruct (preview_footers_every_page toLocaleDateString now d) as [Hn Hf].
  rewrite Hn. apply Forall_forall. intros i Hi. apply elem_of_seq in Hi.
  apply Hf. lia.
Qed.

(** X4: [generatePdf] saves the report under the file name it returns, as
    its last call.  The name is the title with each run of white space
    replaced by one underscore (so that part has no white space, and a title
    without white space is kept as it is), then an underscore, the date part
    of the ISO time stamp and ".pdf".  White space is what [\s] matches; the
    title is any string of the embedding, that is of characters up to
    U+00FF, where the white space is TAB, LF, VT, FF, CR, SP and the
    no-break space.  The report has at least one page and each page carries
    "Page i of n", centred 10 units above the bottom. *)
Theorem X4_report_is_saved_with_page_numbers now o :
  let saved :=
    PdfGenerator.generatePdf toLocaleDateString toISOString pageSize_width pageSize_height
      layout now o in
  let filename := saved.1 in
  let doc := saved.2 in
  (exists stem,
     filename = stem +:+ "_" +:+ before_T (toISOString now) +:+ ".pdf"
     /\ no_space stem /\ (no_space (title o) -> stem = title o))
  /\ (exists l, ops doc = l ++ [(page doc, SaveAs filename)])
  /\ (1 <= numberOfPages doc)%nat
  /\ Forall (fun i =>
       (i, Text ("Page " +:+ nat_toString i +:+ " of " +:+ nat_toString (numberOfPages doc))
             (pageSize_width / 2) (pageSize_height - 10) (Some AlignCenter)) ∈ ops doc)
       (seq 1 (numberOfPages doc)).
Proof.
  cbv zeta. unfold PdfGenerator.generatePdf. cbv zeta. cbn [fst snd].
  set (body := report_details _ _ _ _).
  split_and!.
  - exists (replace_spaces "_" false (title o)). split_and!; [done| |].
    + apply replace_spaces_no_space. by repeat constructor.
    + apply replace_spaces_id.
  - unfold doc_save, draw. cbn [ops page]. by eexists.
  - unfold doc_save, for_1_to. cbn [numberOfPages draw]. rewrite report_footers_pages.
    apply report_body_pages.
  - unfold doc_save, for_1_to. cbn [numberOfPages draw]. rewrite report_footers_pages.
    apply Forall_forall. intros i Hi. apply elem_of_seq in Hi.
    cbn [ops]. apply elem_of_app. left.
    apply report_footers_texts.
    + apply elem_of_seq. lia.
    + intros k Hk. apply elem_of_seq in Hk. lia.
Qed.

(** X5: the report [generatePdf] saves holds the details table, with one
    row per assessment of the input, in the input's order.  A row has six
    cells; a completed assessment shows "Completed" and its total score to
    one decimal over 5, any other status shows "Draft" and "N/A" for the
    score; a missing or empty student name shows as "Unknown", a missing
    update date as "N/A". *)
Theorem X5_report_details_rows now o :
  let doc :=
    (PdfGenerator.generatePdf toLocaleDateString toISOString pageSize_width pageSize_height
       layout now o).2 in
  (exists p t, (p, AutoTable t) ∈ ops doc
     /\ tbl_head t = [[ cell "Student"; cell "Task"; cell "Assessor"; cell "Status";
                        cell "Score"; cell "Last Updated" ]]
     /\ tbl_body t = map (assessmentTableRow toLocaleDateString) (assessmentData o))
  /\ forall a, let row := assessmentTableRow toLocaleDateString a in
       length row = 6%nat
       /\ (data_status a = "completed" ->
           row !! 3%nat = Some (cell "Completed")
           /\ row !! 4%nat = Some (cell (toFixed 1 (data_totalScore a) +:+ "/5")))
       /\ (data_status a <> "completed" ->
           row !! 3%nat = Some (cell "Draft") /\ row !! 4%nat = Some (cell "N/A"))
       /\ (data_student_fullName a = None \/ data_student_fullName a = Some "" ->
           row !! 0%nat = Some (cell "Unknown"))
       /\ (data_updatedAt a = None -> row !! 5%nat = Some (cell "N/A")).
Proof.
  cbv zeta. split.
  - unfold PdfGenerator.generatePdf. cbv zeta. cbn [snd].
    eexists _, _. split.
    { eapply extends_elem.
      { eapply adds_trans; [|unfold doc_save; apply draw_adds; exact I].
        apply report_footers_extends. }
      unfold report_details. cbv zeta. rewrite autoTable_ops.
      apply elem_of_app. right. by apply list_elem_of_singleton. }
    by split.
  - intros a. unfold assessmentTableRow. split_and!; [done| | | |].
    + intros Hc. by rewrite !decide_True.
    + intros Hc. by rewrite !decide_False.
    + by intros [-> | ->].
    + by intros ->.
Qed.

End Documents.

(** X4 on a sample: the report titled "Term 2" with a no-break space
    (U+00A0) between the two words is saved as Term_2_2025-05-18.pdf. *)
Lemma X4_report_is_saved_witness :
  let o := {| title := "Term" +:+ String (Ascii.ascii_of_nat 160) "2"; period := None;
              schoolFilter := None; classFilter := None;
              assessmentData := [Samples.completed_19] |} in
  let saved := PdfGenerator.generatePdf Samples.toLocaleDateString Samples.toISOString
                 210 297 Samples.layout 0%Z o in
  saved.1 = "Term_2_2025-05-18.pdf"
  /\ (exists stem, saved.1 = stem +:+ "_2025-05-18.pdf" /\ no_space stem)
  /\ (exists l, ops saved.2 = l ++ [(page saved.2, SaveAs saved.1)]).
Proof.
  intros o saved.
  destruct (X4_report_is_saved_with_page_numbers Samples.toLocaleDateString
              Samples.toISOString 210 297 Samples.layout 0%Z o)
    as ((stem & Hname & Hstem & _) & Hsaved & _).
  split_and!.
  - vm_compute. reflexivity.
  - exists stem. split; [exact Hname | exact Hstem].
  - exact Hsaved.
Defined.

(** ** The store *)

Local Open Scope Z_scope.

(** X6: in the store the constructor builds, and after any sequence of
    create, update and delete operations on it, every record of every map is
    stored under its own id, and every id in use is at least 1 and below the
    counter that hands out the next id of its map.  Each operation keeps
    this, from any store that has it. *)
Theorem X6_ids_are_keys (now : Date) (history : list (Date * StoreOp)) :
  store_inv (run_ops history (new_MemStorage now))
  /\ forall s, store_inv s -> store_inv (run_ops history s).
Proof.
  split.
  - apply store_inv_run_ops, store_inv_new.
  - apply store_inv_run_ops.
Qed.

Ltac created_simple K :=
  unfold created; cbn [fst snd];
  split_and!;
  [ exact (keyed_fresh _ _ _ K)
  | apply lookup_insert_eq
  | intros k Hk; apply lookup_insert_ne; intros E; apply Hk; by rewrite <- E ].

(** X7: on a store whose ids are keys, each create operation adds exactly
    one entry to its map: the id of the record it returns was not in use, a
    lookup of that id then returns the record, and the lookup of every other
    id is unchanged.  No create overwrites an entry. *)
Theorem X7_create_adds_one_entry now s :
  store_inv s ->
  (forall user, created getUser user_id s (createUser now user s))
  /\ (forall school, created getSchool school_id s (createSchool now school s))
  /\ (forall cls, created getClass class_id s (createClass now cls s))
  /\ (forall student userData,
        created getStudent student_id s (createStudent now student userData s))
  /\ (forall assessor userData,
        created getAssessor assessor_id s (createAssessor now assessor userData s))
  /\ (forall template,
        created getRubricTemplate rubricTemplate_id s (createRubricTemplate now template s))
  /\ (forall task, created getTask task_id s (createTask now task s))
  /\ (forall classTask,
        created getClassTask classTask_id s (createClassTask now classTask s))
  /\ (forall assessment,
        created getAssessment assessment_id s (createAssessment now assessment s)).
Proof.
  intros (H1 & H2 & H3 & H4 & H5 & H6 & H7 & H8 & H9).
  split_and!; intros.
  - created_simple H1.
  - created_simple H2.
  - created_simple H3.
  - created_simple H4.
  - created_simple H5.
  - created_simple H6.
  - created_simple H7.
  - created_simple H8.
  - created_simple H9.
Qed.

(** X7 on the demo data: creating a school on a fresh store. *)
Lemma X7_create_witness :
  store_inv (new_MemStorage 0)
  /\ created getSchool school_id (new_MemStorage 0)
       (createSchool 5 Samples.northside (new_MemStorage 0)).
Proof.
  split; [apply store_inv_new|].
  destruct (X7_create_adds_one_entry 5 (new_MemStorage 0) (store_inv_new 0))
    as (_ & Hschool & _).
  apply Hschool.
Defined.

(** X8: [getClasses], [getStudents], [getTasks] and [getClassTasks] return
    exactly the stored records that satisfy each filter that is supplied;
    a filter whose value is 0 counts as not supplied, so asking for the
    classes of school 0 lists every class. *)
Theorem X8_listing_filters s :
  (forall schoolId cls,
     cls ∈ getClasses schoolId s
     <-> (exists k, classes s !! k = Some cls)
         /\ (forall v, truthy_id schoolId = Some v -> class_schoolId cls = v))
  /\ (forall classId student,
        student ∈ getStudents classId s
        <-> (exists k, students s !! k = Some student)
            /\ (forall v, truthy_id classId = Some v -> student_classId student = v))
  /\ (forall rubricTemplateId task,
        task ∈ getTasks rubricTemplateId s
        <-> (exists k, tasks s !! k = Some task)
            /\ (forall v, truthy_id rubricTemplateId = Some v ->
                  task_rubricTemplateId task = v))
  /\ (forall classId taskId ct,
        ct ∈ getClassTasks classId taskId s
        <-> (exists k, classTasks s !! k = Some ct)
            /\ (forall v, truthy_id classId = Some v -> classTask_classId ct = v)
            /\ (forall v, truthy_id taskId = Some v -> classTask_taskId ct = v))
  /\ getClasses (Some 0) s = getClasses None s
  /\ getStudents (Some 0) s = getStudents None s
  /\ getTasks (Some 0) s = getTasks None s
  /\ (forall taskId, getClassTasks (Some 0) taskId s = getClassTasks None taskId s).
Proof.
  split_and!; try reflexivity.
  - intros schoolId cls. unfold getClasses. cbv zeta.
    by rewrite elem_of_filter_by, elem_of_values.
  - intros classId student. unfold getStudents. cbv zeta.
    by rewrite elem_of_filter_by, elem_of_values.
  - intros rubricTemplateId task. unfold getTasks. cbv zeta.
    by rewrite elem_of_filter_by, elem_of_values.
  - intros classId taskId ct. apply elem_of_getClassTasks.
Qed.

(** X9: the joins.  [getClassesForAssessor] lists the stored classes whose
    school is among the assessor's schools, and nothing for an id that is
    no assessor's; [getStudentsForClass] lists the students of the class,
    each paired with the user its [userId] names, or with none when that
    user is not stored; [getTasksForClass] lists the tasks the class's
    assignments name, leaving out the ones that are not stored. *)
Theorem X9_joins s :
  (forall assessorId cls,
     cls ∈ getClassesForAssessor assessorId s
     <-> exists assessor, assessors s !! assessorId = Some assessor
                          /\ (exists k, classes s !! k = Some cls)
                          /\ class_schoolId cls ∈ assessor_schoolIds assessor)
  /\ (forall assessorId,
        getAssessor assessorId s = None -> getClassesForAssessor assessorId s = [])
  /\ (forall classId student user,
        (student, user) ∈ getStudentsForClass classId s
        <-> (exists k, students s !! k = Some student)
            /\ student_classId student = classId
            /\ user = getUser (student_userId student) s)
  /\ (forall classId task,
        task ∈ getTasksForClass classId s
        <-> exists k classTask, classTasks s !! k = Some classTask
                                /\ classTask_classId classTask = classId
                                /\ getTask (classTask_taskId classTask) s = Some task).
Proof.
  split_and!.
  - intros. apply elem_of_getClassesForAssessor.
  - intros assessorId Hn. unfold getClassesForAssessor, getAssessor in *. by rewrite Hn.
  - intros. apply elem_of_getStudentsForClass.
  - intros. apply elem_of_getTasksForClass.
Qed.

(** X10: [getAssessmentsForStudent] returns the stored assessments of the
    student, and for a student id other than 0 it is the listing query
    [getAssessments] with that student as its only filter; with student id 0
    the listing query returns every assessment instead. *)
Theorem X10_assessments_of_a_student s (studentId : Z) :
  let only := {| filters_studentId := Some studentId; filters_assessorId := None;
                 filters_taskId := None; filters_status := None |} in
  (studentId <> 0 -> getAssessments (Some only) s = getAssessmentsForStudent studentId s)
  /\ (studentId = 0 -> getAssessments (Some only) s = getAssessments None s)
  /\ (forall a, a ∈ getAssessmentsForStudent studentId s
                <-> (exists k, assessments s !! k = Some a)
                    /\ assessment_studentId a = studentId).
Proof.
  intros only. split_and!.
  - intros Hne. unfold getAssessments, getAssessmentsForStudent, only.
    cbn [filters_studentId filters_assessorId filters_taskId filters_status].
    destruct studentId; [done| |]; reflexivity.
  - intros ->. reflexivity.
  - intros a. unfold getAssessmentsForStudent.
    rewrite list_elem_of_filter, elem_of_values. tauto.
Qed.

(** X11: on a store whose ids are keys, [getAssessmentsForClass] returns
    exactly the stored assessments whose student is stored and belongs to
    the class. *)
Theorem X11_assessments_of_a_class s classId a :
  store_inv s ->
  a ∈ getAssessmentsForClass classId s
  <-> (exists k, assessments s !! k = Some a)
      /\ exists student, getStudent (assessment_studentId a) s = Some student
                         /\ student_classId student = classId.
Proof.
  intros (_ & _ & _ & [_ Hst] & _).
  rewrite elem_of_getAssessmentsForClass. split.
  - intros [Ha (k & student & Hk & Hc & Hid)]. split; [done|].
    exists student. split; [|done].
    destruct (Hst k student Hk) as [Hkey _]. unfold getStudent. by rewrite <- Hid, Hkey.
  - intros [Ha (student & Hk & Hc)]. split; [done|].
    exists (assessment_studentId a), student. split_and!; try done.
    by destruct (Hst _ _ Hk).
Qed.

(** X11 on the demo data: assessment 1 is among the assessments of class
    1, the class of its student. *)
Lemma X11_assessments_of_a_class_witness :
  exists a, assessments (new_MemStorage 0) !! 1 = Some a
            /\ a ∈ getAssessmentsForClass 1 (new_MemStorage 0).
Proof.
  destruct (assessments (new_MemStorage 0) !! 1) as [a|] eqn:Ha;
    [|vm_compute in Ha; discriminate Ha].
  exists a. split; [reflexivity|].
  destruct (X11_assessments_of_a_class (new_MemStorage 0) 1 a (store_inv_new 0))
    as [_ Hback].
  apply Hback. split; [by exists 1|].
  assert (Hid : assessment_studentId <$> assessments (new_MemStorage 0) !! 1 = Some 1)
    by (vm_compute; reflexivity).
  rewrite Ha in Hid. injection Hid as Hid. rewrite Hid.
  assert (Hc : student_classId <$> getStudent 1 (new_MemStorage 0) = Some 1)
    by (vm_compute; reflexivity).
  destruct (getStudent 1 (new_MemStorage 0)) as [student|]; [|discriminate Hc].
  exists student. split; [reflexivity|]. by injection Hc.
Defined.

(** X12: what [getClassWithRelations] returns is what the single queries
    return: the class and its school as [getClass] and [getSchool] find
    them, the students as [getStudentsForClass] lists them, the tasks of the
    assignments as [getTasksForClass] lists them, and (for a class id other
    than 0) the assignments as [getClassTasks] filtered by the class. *)
Theorem X12_class_details_compose s id r :
  getClassWithRelations id s = Some r ->
  getClass id s = Some (cwr_class r)
  /\ getSchool (class_schoolId (cwr_class r)) s = Some (cwr_school r)
  /\ cwr_students r = getStudentsForClass id s
  /\ omap snd (cwr_classTasks r) = getTasksForClass id s
  /\ (id <> 0 -> (cwr_classTasks r).*1 = getClassTasks (Some id) None s).
Proof.
  unfold getClassWithRelations. intros Hr.
  destruct (classes s !! id) as [cls|] eqn:Ec; [|done]. cbn in Hr.
  destruct (schools s !! class_schoolId cls) as [school|] eqn:Es; [|done]. cbn in Hr.
  injection Hr as <-. cbn [cwr_class cwr_school cwr_students cwr_classTasks].
  split_and!; try done.
  - unfold getTasksForClass. cbv zeta.
    induction (filter _ (values (classTasks s))) as [|ct l IH]; [done|].
    cbn. destruct (tasks s !! classTask_taskId ct); cbn; by rewrite IH.
  - intros Hid. unfold getClassTasks. cbv zeta.
    replace (truthy_id (Some id)) with (Some id) by (by destruct id).
    cbn [truthy_id]. rewrite <- list_fmap_compose.
    induction (filter _ (values (classTasks s))) as [|ct l IH]; [done|].
    cbn. by rewrite IH.
Qed.

(** X12 on the demo data: class 1 with its relations. *)
Lemma X12_class_details_witness :
  exists r, getClassWithRelations 1 (new_MemStorage 0) = Some r
            /\ cwr_students r = getStudentsForClass 1 (new_MemStorage 0).
Proof.
  destruct (getClassWithRelations 1 (new_MemStorage 0)) as [r|] eqn:Hr;
    [|vm_compute in Hr; discriminate Hr].
  exists r. split; [reflexivity|].
  destruct (X12_class_details_compose (new_MemStorage 0) 1 r Hr) as (_ & _ & Hs & _).
  exact Hs.
Defined.

(** X13: deleting the student, the assessor or the task of a stored
    assessment does not delete the assessment: it stays in the map and in
    [getAssessments], but [getAssessmentWithRelations] no longer resolves
    it, and no listing of GET /api/assessments shows it. *)
Theorem X13_deleting_hides_assessments s a x :
  assessments s !! a = Some x ->
  let hidden s' :=
    assessments s' !! a = Some x
    /\ x ∈ getAssessments None s'
    /\ getAssessmentWithRelations a s' = None
    /\ forall Body (req : Request Body) y, y ∈ listing req s' -> awr_assessment y <> x in
  hidden (deleteStudent (assessment_studentId x) s).2
  /\ hidden (deleteAssessor (assessment_assessorId x) s).2
  /\ hidden (deleteTask (assessment_taskId x) s).2.
Proof.
  intros Ha hidden.
  assert (Hmiss : forall s',
             assessments s' !! a = Some x ->
             students s' !! assessment_studentId x = None
             \/ assessors s' !! assessment_assessorId x = None
             \/ tasks s' !! assessment_taskId x = None ->
             hidden s').
  { intros s' Ha' Hnone. unfold hidden. split_and!.
    - done.
    - apply getAssessments_all. by exists a.
    - unfold getAssessmentWithRelations. rewrite Ha'. cbn.
      destruct Hnone as [->|[Hn|Hn]]; [done| |].
      + destruct (students s' !! _); [|done]. cbn. destruct (users s' !! _); [|done]. cbn.
        by rewrite Hn.
      + destruct (students s' !! _); [|done]. cbn. destruct (users s' !! _); [|done]. cbn.
        destruct (assessors s' !! _); [|done]. cbn. destruct (users s' !! _); [|done]. cbn.
        by rewrite Hn.
    - intros Body req y Hy <-. apply listing_resolves in Hy as [k Hy].
      apply getAssessmentWithRelations_Some in Hy as (_ & H1 & _ & H2 & _ & H3 & _).
      destruct Hnone as [Hn|[Hn|Hn]]; congruence. }
  split_and!; apply Hmiss.
  - unfold deleteStudent, Map_delete. by destruct (students s !! _).
  - left. unfold deleteStudent, Map_delete.
    destruct (students s !! _); cbn; apply lookup_delete_eq.
  - unfold deleteAssessor, Map_delete. by destruct (assessors s !! _).
  - right; left. unfold deleteAssessor, Map_delete.
    destruct (assessors s !! _); cbn; apply lookup_delete_eq.
  - done.
  - right; right. unfold deleteTask, Map_delete. cbn. apply lookup_delete_eq.
Qed.

(** X13 on the demo data: after student 1 is deleted, assessment 1 is
    still stored and can no longer be read with its relations. *)
Lemma X13_deleting_hides_witness :
  exists x, assessments (new_MemStorage 0) !! 1 = Some x
            /\ assessments (deleteStudent (assessment_studentId x) (new_MemStorage 0)).2 !! 1
               = Some x
            /\ getAssessmentWithRelations 1
                 (deleteStudent (assessment_studentId x) (new_MemStorage 0)).2 = None.
Proof.
  destruct (assessments (new_MemStorage 0) !! 1) as [x|] eqn:Hx;
    [|vm_compute in Hx; discriminate Hx].
  exists x. split; [reflexivity|].
  destruct (X13_deleting_hides_assessments (new_MemStorage 0) 1 x Hx)
    as ((H1 & _ & H2 & _) & _ & _).
  by split.
Defined.

(** X14: deleting a school does not delete its classes: a class of the
    deleted school is still returned by [getClass] and listed by
    [getClasses], but [getClassWithRelations] no longer finds it. *)
Theorem X14_deleting_a_school_orphans_its_classes s c cls :
  classes s !! c = Some cls ->
  let s' := (deleteSchool (class_schoolId cls) s).2 in
  getClass c s' = Some cls
  /\ cls ∈ getClasses None s'
  /\ getClassWithRelations c s' = None.
Proof.
  intros Hc s'. subst s'. unfold deleteSchool, Map_delete. cbn [snd].
  split_and!.
  - exact Hc.
  - apply elem_of_values. by exists c.
  - unfold getClassWithRelations. cbn [classes schools set_schools]. rewrite Hc. cbn.
    by rewrite lookup_delete_eq.
Qed.

(** X14 on the demo data: class 1 after its school is deleted. *)
Lemma X14_orphaned_class_witness :
  exists cls, classes (new_MemStorage 0) !! 1 = Some cls
              /\ getClass 1 (deleteSchool (class_schoolId cls) (new_MemStorage 0)).2 = Some cls
              /\ getClassWithRelations 1
                   (deleteSchool (class_schoolId cls) (new_MemStorage 0)).2 = None.
Proof.
  destruct (classes (new_MemStorage 0) !! 1) as [cls|] eqn:Hc;
    [|vm_compute in Hc; discriminate Hc].
  exists cls. split; [reflexivity|].
  destruct (X14_deleting_a_school_orphans_its_classes (new_MemStorage 0) 1 cls Hc)
    as (H1 & _ & H2).
  by split.
Defined.

(** ** Logging in *)

(** X15: the verify callback of the local strategy.  A user it
    authenticates is stored and has the username and the password given;
    it answers "Invalid username" exactly when no stored user has the
    username; and when exactly one stored user has the username and the
    password is that user's, it authenticates that user. *)
Theorem X15_login s username password :
  (forall user,
     Api.verify username password s = Api.Authenticated user ->
     (exists id, users s !! id = Some user)
     /\ user_username user = username /\ user_password user = password)
  /\ (Api.verify username password s = Api.Rejected "Invalid username"
      <-> forall id user, users s !! id = Some user -> user_username user <> username)
  /\ (forall id user,
        users s !! id = Some user ->
        user_username user = username -> user_password user = password ->
        (forall id' user', users s !! id' = Some user' -> user_username user' = username ->
                           user' = user) ->
        Api.verify username password s = Api.Authenticated user).
Proof.
  unfold Api.verify. split_and!.
  - intros user Hv. destruct (getUserByUsername username s) as [u|] eqn:Hf; [|done].
    destruct (bool_decide (user_password u <> password)) eqn:Hp; [done|].
    injection Hv as <-. apply getUserByUsername_Some in Hf as [Hs Hu].
    split_and!; [done..|]. apply bool_decide_eq_false in Hp.
    by destruct (decide (user_password u = password)).
  - rewrite <- getUserByUsername_None.
    destruct (getUserByUsername username s) as [u|]; [|done].
    split; [|done]. by destruct (bool_decide _).
  - intros id user Hid Hu Hp Huniq.
    destruct (getUserByUsername username s) as [u|] eqn:Hf.
    + apply getUserByUsername_Some in Hf as [[id' Hid'] Hu'].
      rewrite (Huniq id' u Hid' Hu'). rewrite bool_decide_eq_false_2; [done|].
      intros Hne. by apply Hne.
    + exfalso. by apply (proj1 (getUserByUsername_None _ _) Hf id user).
Qed.

(** ** The routes *)

Section Sent.
Context {Body : Type} `{Api.InsertSchemas Body} `{Node}.
Variable cwd : string.
Variable clock : nat -> Date.

(** X16: the delete routes.  For an admin (an assessor or an admin for
    assessments), DELETE answers 204 without a body when the entry the id
    names was stored, and the entry is then gone and no file is touched; it
    answers 404 and changes nothing when the id names no entry (an id that
    is not a number included).  For anyone else it answers 403 and changes
    nothing. *)
Theorem X16_delete_routes (req : Request Body) (w : World) :
  (admin_request req ->
     delete_answers Api.delete_school schools "School not found" req w
     /\ delete_answers Api.delete_class classes "Class not found" req w
     /\ delete_answers Api.delete_student students "Student not found" req w
     /\ delete_answers Api.delete_assessor assessors "Assessor not found" req w
     /\ delete_answers Api.delete_rubricTemplate rubricTemplates "Rubric template not found"
          req w
     /\ delete_answers Api.delete_task tasks "Task not found" req w
     /\ delete_answers Api.delete_classTask classTasks "Class task not found" req w)
  /\ (assessor_request req ->
        delete_answers Api.delete_assessment assessments "Assessment not found" req w)
  /\ (~ admin_request req ->
        let forbidden := (inr (Api.Json (status_json 403 (Message "Forbidden"))), w) in
        Api.delete_school req w = forbidden /\ Api.delete_class req w = forbidden
        /\ Api.delete_student req w = forbidden /\ Api.delete_assessor req w = forbidden
        /\ Api.delete_rubricTemplate req w = forbidden /\ Api.delete_task req w = forbidden
        /\ Api.delete_classTask req w = forbidden)
  /\ (~ assessor_request req ->
        Api.delete_assessment req w
        = (inr (Api.Json (status_json 403 (Message "Forbidden"))), w)).
Proof.
  split_and!.
  - intros Ha. split_and!.
    + by apply delete_school_answers.
    + by apply delete_class_answers.
    + by apply delete_student_answers.
    + by apply delete_assessor_answers.
    + by apply delete_rubricTemplate_answers.
    + by apply delete_task_answers.
    + by apply delete_classTask_answers.
  - intros Ha. by apply delete_assessment_answers.
  - intros Hn forbidden. split_and!; by apply Api_isAdmin_block.
  - intros Hn. by apply Api_isAssessor_block.
Qed.

(** X17: POST /api/assessments by an assessor or an admin with a body the
    schema accepts always stores the assessment, under the next id and with
    the student, assessor, task and status of the body.  When the body says
    completed and the PDF cannot be generated (the student, assessor, task
    or rubric template does not resolve, or the file system refuses the
    write), the answer is 500 "Error creating assessment" although the
    assessment stays stored, and no file is written; in every other case the
    answer is 201. *)
Theorem X17_post_stores_before_it_answers (req : Request Body) (w : World) data :
  assessor_request req -> Api.parse_assessment (req_body req) = inr data ->
  let id := assessmentId (storage w) in
  let s1 := (createAssessment (clock 0) data (storage w)).2 in
  let unresolved := getAssessmentWithRelations id s1 = None in
  let unwritten := exists r, getAssessmentWithRelations id s1 = Some r
                             /\ write_error (pdf_file cwd r) <> None in
  let no_pdf := insertAssessment_status data = Some status_completed
                /\ (unresolved \/ unwritten) in
  exists sent w',
    Api.post_assessment cwd clock req w = (inr sent, w')
    /\ (exists stored,
          getAssessment id (storage w') = Some stored
          /\ assessment_studentId stored = insertAssessment_studentId data
          /\ assessment_assessorId stored = insertAssessment_assessorId data
          /\ assessment_taskId stored = insertAssessment_taskId data
          /\ assessment_status stored = insertAssessment_status data)
    /\ (no_pdf ->
        sent = Api.Json (status_json 500 (Message "Error creating assessment"))
        /\ w' = {| storage := s1; files := files w |})
    /\ (~ no_pdf -> Api.sent_status sent = 201%nat).
Proof.
  intros Ha Hp id s1 unresolved unwritten no_pdf.
  rewrite (post_assessment_run cwd clock req w data Ha Hp). cbv zeta.
  change (assessment_id (createAssessment (clock 0) data (storage w)).1) with id.
  change (assessment_status (createAssessment (clock 0) data (storage w)).1)
    with (insertAssessment_status data).
  fold s1.
  assert (Hs1 : assessments s1 !! id = Some (createAssessment (clock 0) data (storage w)).1)
    by apply lookup_insert_eq.
  subst no_pdf unresolved unwritten.
  destruct (bool_decide (insertAssessment_status data = Some status_completed)) eqn:Ed.
  - apply bool_decide_eq_true in Ed.
    destruct (getAssessmentWithRelations id s1) as [r|] eqn:Er.
    + destruct (write_error (pdf_file cwd r)) as [message|] eqn:Ew.
      * eexists _, _. split_and!.
        -- reflexivity.
        -- eexists. split; [exact Hs1|]. by cbn.
        -- done.
        -- intros Hn. destruct Hn. split; [done|]. right. exists r. by rewrite Ew.
      * rewrite (updateAssessment_present _ _ _ _ _ Hs1). cbn [snd].
        eexists _, {| storage := _; files := _ |}. split_and!.
        -- reflexivity.
        -- eexists. split; [apply lookup_insert_eq|]. by cbn.
        -- intros [_ [Hn|(r' & Hr' & Hw)]]; [done|].
           injection Hr' as <-. by destruct Hw.
        -- intros _. reflexivity.
    + eexists _, _. split_and!.
      * reflexivity.
      * eexists. split; [exact Hs1|]. by cbn.
      * done.
      * intros Hn. destruct Hn. split; [done|]. by left.
  - apply bool_decide_eq_false in Ed. eexists _, _. split_and!.
    + reflexivity.
    + eexists. split; [exact Hs1|]. by cbn.
    + by intros [? _].
    + intros _. reflexivity.
Qed.


(** X22: the mock PDF generation.  For an assessment that does not
    resolve, [generatePDF] throws "Assessment not found" and writes
    nothing.  For one that resolves, the file is [path.join] of the working
    directory, "pdfs" and the file name, which is the student's name and the
    task's name without their white space, joined by an underscore, with
    ".pdf".  When the file system takes the write, that one file is written,
    the store is left as it is and the path returned is "/" and [path.join]
    of "pdfs" and the file name; when it refuses, its error is thrown and
    nothing is written.  As the name is made of the two names only, two
    assessments of students of one name on tasks of one name get the same
    path, and the second file replaces the first. *)
Theorem X22_pdf_file (w : World) :
  (forall id, getAssessmentWithRelations id (storage w) = None ->
     generatePDF cwd id w = (inl (Error "Assessment not found"), w))
  /\ (forall id r, getAssessmentWithRelations id (storage w) = Some r ->
        (write_error (pdf_file cwd r) = None ->
         generatePDF cwd id w
         = (inr (pdf_path r),
            {| storage := storage w;
               files := <[pdf_file cwd r := "Mock PDF content"]> (files w) |}))
        /\ (forall message, write_error (pdf_file cwd r) = Some message ->
              generatePDF cwd id w = (inl (Error message), w)))
  /\ (forall id id' r r',
        getAssessmentWithRelations id (storage w) = Some r ->
        getAssessmentWithRelations id' (storage w) = Some r' ->
        user_fullName (swu_user (awr_student r)) = user_fullName (swu_user (awr_student r')) ->
        task_name (twr_task (awr_task r)) = task_name (twr_task (awr_task r')) ->
        (generatePDF cwd id w).1 = (generatePDF cwd id' w).1
        /\ files (generatePDF cwd id' (generatePDF cwd id w).2).2
           = files (generatePDF cwd id w).2).
Proof.
  split_and!.
  - intros id Hn. by apply generatePDF_missing.
  - intros id r Hr. rewrite (generatePDF_found cwd id w r Hr).
    split; [by intros -> | by intros message ->].
  - intros id id' r r' Hr Hr' Hu Ht.
    assert (Hname : pdf_name r' = pdf_name r) by (unfold pdf_name; by rewrite Hu, Ht).
    assert (Hfile : pdf_file cwd r' = pdf_file cwd r) by (unfold pdf_file; by rewrite Hname).
    assert (Hpath : pdf_path r' = pdf_path r) by (unfold pdf_path; by rewrite Hname).
    rewrite (generatePDF_found cwd id w r Hr), (generatePDF_found cwd id' w r' Hr').
    rewrite Hfile, Hpath.
    destruct (write_error (pdf_file cwd r)) as [message|] eqn:Ew; cbn [fst snd].
    + split; [done|]. rewrite (generatePDF_found cwd id' w r' Hr'), Hfile, Ew. done.
    + split; [done|]. rewrite (generatePDF_found cwd id' _ r') by exact Hr'.
      rewrite Hfile, Ew. cbn [snd files]. apply insert_insert_eq.
Qed.

End Sent.

(** X17 on the demo data: an assessor posts a completed assessment for
    student 99, who does not exist, and one for student 3, who is named
    A/B, so that the file would go to the directory /app/pdfs/A, which does
    not exist.  Both answers are 500, both assessments are stored as
    assessment 2 all the same, and no file is written. *)
Lemma X17_post_witness :
  (exists w',
     Api.post_assessment (H0 := Samples.node) "/app" Samples.clock
       (Samples.put_by Samples.assessor_user "" (Samples.assessment_body 99 "completed"))
       Samples.world
     = (inr (Api.Json (status_json 500 (Message "Error creating assessment"))), w')
     /\ assessment_studentId <$> getAssessment 2 (storage w') = Some 99)
  /\ (exists w',
        Api.post_assessment (H0 := Samples.node) "/app" Samples.clock
          (Samples.put_by Samples.assessor_user "" (Samples.assessment_body 3 "completed"))
          Samples.world_with_slash
        = (inr (Api.Json (status_json 500 (Message "Error creating assessment"))), w')
        /\ assessment_studentId <$> getAssessment 2 (storage w') = Some 3
        /\ files w' = files Samples.world_with_slash).
Proof.
  split.
  - assert (Ha : assessor_request
                   (Samples.put_by Samples.assessor_user ""
                      (Samples.assessment_body 99 "completed"))).
    { exists Samples.assessor_user. split; [reflexivity|]. by left. }
    assert (Hp : Api.parse_assessment
                   (req_body (Samples.put_by Samples.assessor_user ""
                                (Samples.assessment_body 99 "completed")))
                 = inr (Samples.assessment_data 99 status_completed))
      by (vm_compute; reflexivity).
    destruct (X17_post_stores_before_it_answers (H0 := Samples.node)
                "/app" Samples.clock _ Samples.world _ Ha Hp)
      as (sent & w' & Hrun & (stored & Hstored & Hstudent & _) & Hno_pdf & _).
    assert (Hid : assessmentId (storage Samples.world) = 2) by (vm_compute; reflexivity).
    rewrite Hid in Hstored.
    destruct Hno_pdf as [-> _].
    { split; [reflexivity|]. left. rewrite Hid. vm_compute. reflexivity. }
    exists w'. split; [exact Hrun|]. rewrite Hstored. cbn [fmap option_fmap option_map].
    by rewrite Hstudent.
  - assert (Ha : assessor_request
                   (Samples.put_by Samples.assessor_user ""
                      (Samples.assessment_body 3 "completed"))).
    { exists Samples.assessor_user. split; [reflexivity|]. by left. }
    assert (Hp : Api.parse_assessment
                   (req_body (Samples.put_by Samples.assessor_user ""
                                (Samples.assessment_body 3 "completed")))
                 = inr (Samples.assessment_data 3 status_completed))
      by (vm_compute; reflexivity).
    destruct (X17_post_stores_before_it_answers (H0 := Samples.node)
                "/app" Samples.clock _ Samples.world_with_slash _ Ha Hp)
      as (sent & w' & Hrun & (stored & Hstored & Hstudent & _) & Hno_pdf & _).
    assert (Hid : assessmentId (storage Samples.world_with_slash) = 2)
      by (vm_compute; reflexivity).
    rewrite Hid in Hstored.
    destruct Hno_pdf as [-> ->].
    { split; [reflexivity|]. right. rewrite Hid.
      match goal with
      | |- context [getAssessmentWithRelations 2 ?s] =>
          assert (Hname : pdf_name <$> getAssessmentWithRelations 2 s
                          = Some "A/B_TextResponseEssay.pdf") by (vm_compute; reflexivity);
          destruct (getAssessmentWithRelations 2 s) as [r|]; [|discriminate Hname]
      end.
      injection Hname as Hname. exists r. split; [reflexivity|].
      unfold pdf_file. cbn [path_join write_error Samples.node]. rewrite Hname.
      vm_compute. discriminate. }
    eexists. split; [exact Hrun|]. split; [|reflexivity].
    rewrite Hstored. cbn [fmap option_fmap option_map]. by rewrite Hstudent.
Defined.

(** X22 on the demo data: for assessment 1, of Jordan Smith on Text
    Response Essay, a Node that takes the write is given
    /app/pdfs/JordanSmith_TextResponseEssay.pdf and the path returned is
    /pdfs/JordanSmith_TextResponseEssay.pdf; one whose disk is full throws
    and nothing is written; assessment 99 is not found. *)
Lemma X22_pdf_file_witness :
  generatePDF (H0 := Samples.node) "/app" 1 Samples.world
  = (inr "/pdfs/JordanSmith_TextResponseEssay.pdf",
     {| storage := storage Samples.world;
        files := <["/app/pdfs/JordanSmith_TextResponseEssay.pdf" := "Mock PDF content"]>
                   (files Samples.world) |})
  /\ generatePDF (H0 := Samples.full_disk) "/app" 1 Samples.world
     = (inl (Error "ENOSPC: no space left on device, write"), Samples.world)
  /\ generatePDF (H0 := Samples.node) "/app" 99 Samples.world
     = (inl (Error "Assessment not found"), Samples.world).
Proof.
  assert (Hname : pdf_name <$> getAssessmentWithRelations 1 (storage Samples.world)
                  = Some "JordanSmith_TextResponseEssay.pdf") by (vm_compute; reflexivity).
  assert (Hnone : getAssessmentWithRelations 99 (storage Samples.world) = None)
    by (vm_compute; reflexivity).
  destruct (X22_pdf_file (H0 := Samples.node) "/app" Samples.world) as (Hmissing & Hfound & _).
  destruct (X22_pdf_file (H0 := Samples.full_disk) "/app" Samples.world) as (_ & Hfull & _).
  destruct (getAssessmentWithRelations 1 (storage Samples.world)) as [r|] eqn:Hr;
    [|discriminate Hname].
  injection Hname as Hname.
  destruct (Hfound 1 r Hr) as [Hwritten _].
  destruct (Hfull 1 r Hr) as [_ Hthrown].
  split_and!.
  - rewrite Hwritten.
    + unfold pdf_path, pdf_file. cbn [path_join Samples.node]. rewrite Hname.
      vm_compute. reflexivity.
    + unfold pdf_file. cbn [path_join write_error Samples.node]. rewrite Hname.
      vm_compute. reflexivity.
  - exact (Hthrown _ eq_refl).
  - exact (Hmissing 99 Hnone).
Defined.

Section Puts.
Context {Body : Type} `{Schemas Body} `{Node}.
Variable cwd : string.
Variable clock : nat -> Date.

(** X18: PUT /api/assessments/:id that completes an assessment whose
    student, assessor, task or rubric template does not resolve answers 500
    "Error updating assessment", but the update is not undone: the
    assessment is stored as completed, and no file is written. *)
Theorem X18_put_keeps_the_update_when_the_pdf_fails (req : Request Body) w data k current :
  assessor_request req -> parse_partial_assessment (req_body req) = inr data ->
  parseInt (req_params_id req) = Some k ->
  assessments (storage w) !! k = Some current ->
  let updated := spread_assessment (clock 0) current data in
  let s1 := set_assessments (<[k := updated]> (assessments (storage w)))
              (assessmentId (storage w)) (storage w) in
  generates_pdf current updated = true ->
  getAssessmentWithRelations (assessment_id updated) s1 = None ->
  exists w',
    put_assessment cwd clock req w
    = (inr (status_json 500 (Message "Error updating assessment")), w')
    /\ getAssessment k (storage w') = Some updated
    /\ assessment_status updated = Some status_completed
    /\ files w' = files w.
Proof.
  intros Ha Hp Hk Hc updated s1 Hg Hn.
  rewrite (put_assessment_run cwd clock req w data k current Ha Hp Hk Hc).
  fold updated. fold s1. rewrite Hg, Hn. eexists. split_and!.
  - reflexivity.
  - apply lookup_insert_eq.
  - unfold generates_pdf in Hg. apply andb_true_iff in Hg as [Hg _].
    by apply bool_decide_eq_true in Hg.
  - reflexivity.
Qed.

(** X19: PUT /api/assessments/:id generates the PDF exactly when the
    update leaves the assessment completed and it was not completed before
    or had no PDF path.  When it does not, the answer is the updated
    assessment and no file is written.  When it does, the assessment
    resolves and the file system takes the write, the one file
    [path.join] of the working directory, "pdfs" and the file name is
    written, the path "/" and [path.join] of "pdfs" and the file name is
    stored in the assessment, which is what the answer shows, and the next
    update of that assessment, whatever its body, generates no PDF.  When the
    file system refuses the write, the answer is 500 "Error updating
    assessment", the update stays stored and no file is written. *)
Theorem X19_put_generates_the_pdf_once (req : Request Body) w data k current :
  assessor_request req -> parse_partial_assessment (req_body req) = inr data ->
  parseInt (req_params_id req) = Some k ->
  assessments (storage w) !! k = Some current ->
  assessment_id current = k ->
  let updated := spread_assessment (clock 0) current data in
  let s1 := set_assessments (<[k := updated]> (assessments (storage w)))
              (assessmentId (storage w)) (storage w) in
  (generates_pdf current updated = false ->
   put_assessment cwd clock req w
   = (inr (json (OfAssessment (getAssessmentWithRelations k s1))),
      {| storage := s1; files := files w |}))
  /\ (forall r,
        generates_pdf current updated = true ->
        getAssessmentWithRelations k s1 = Some r ->
        (write_error (pdf_file cwd r) = None ->
         exists w' stored,
           put_assessment cwd clock req w
           = (inr (json (OfAssessment (getAssessmentWithRelations k (storage w')))), w')
           /\ getAssessment k (storage w') = Some stored
           /\ assessment_status stored = Some status_completed
           /\ assessment_pdfPath stored = Some (pdf_path r)
           /\ generatePDF cwd k {| storage := s1; files := files w |}
              = (inr (pdf_path r), {| storage := s1; files := files w' |})
           /\ files w' = <[pdf_file cwd r := "Mock PDF content"]> (files w)
           /\ forall later, generates_pdf stored later = false)
        /\ (write_error (pdf_file cwd r) <> None ->
            put_assessment cwd clock req w
            = (inr (status_json 500 (Message "Error updating assessment")),
               {| storage := s1; files := files w |})
            /\ getAssessment k s1 = Some updated)).
Proof.
  intros Ha Hp Hk Hc Hid updated s1.
  assert (Hu : assessment_id updated = k) by exact Hid.
  pose proof (put_assessment_run cwd clock req w data k current Ha Hp Hk Hc) as Hrun.
  cbv zeta in Hrun. fold updated in Hrun. fold s1 in Hrun. rewrite Hu in Hrun.
  assert (Hs1 : assessments s1 !! k = Some updated) by apply lookup_insert_eq.
  split.
  - intros Hg. by rewrite Hrun, Hg.
  - intros r Hg Hr. rewrite Hrun, Hg, Hr. split.
    + intros Hw. rewrite Hw.
      rewrite (updateAssessment_present _ _ _ _ _ Hs1). cbn [snd].
      eexists {| storage := _; files := _ |}, _. split_and!.
      * reflexivity.
      * apply lookup_insert_eq.
      * cbn. unfold generates_pdf in Hg. apply andb_true_iff in Hg as [Hg _].
        by apply bool_decide_eq_true in Hg.
      * reflexivity.
      * rewrite (generatePDF_found cwd k {| storage := s1; files := files w |} r Hr).
        cbn [storage files]. by rewrite Hw.
      * reflexivity.
      * intros later. apply generates_pdf_once.
        -- cbn. unfold generates_pdf in Hg. apply andb_true_iff in Hg as [Hg _].
           by apply bool_decide_eq_true in Hg.
        -- reflexivity.
    + intros Hw. destruct (write_error (pdf_file cwd r)) as [message|]; [|done].
      split; [reflexivity|exact Hs1].
Qed.

(** X21: a PUT by an admin with a body the schema accepts, on an id that
    names a stored entry, answers 200 with the stored entry merged with the
    body (for a student or an assessor, together with the user the merged
    record names, if stored).  The merged record is then what a lookup of
    the id finds; the other entries of the map and the files are as they
    were. *)
Theorem X21_put_answers_with_the_update (req : Request Body) (w : World) (k : Z) :
  admin_request req -> parseInt (req_params_id req) = Some k ->
  (forall data existing,
     parse_partial_school (req_body req) = inr data ->
     schools (storage w) !! k = Some existing ->
     update_answers put_school getSchool k (spread_school existing data)
       (fun _ => OfSchool (spread_school existing data)) req w)
  /\ (forall data existing,
        parse_partial_class (req_body req) = inr data ->
        classes (storage w) !! k = Some existing ->
        update_answers put_class getClass k (spread_class existing data)
          (fun _ => OfClass (spread_class existing data)) req w)
  /\ (forall data existing,
        parse_partial_student (req_body req) = inr data ->
        students (storage w) !! k = Some existing ->
        update_answers put_student getStudent k (spread_student existing data)
          (fun s => OfStudent (spread_student existing data)
                      (getUser (student_userId (spread_student existing data)) s)) req w)
  /\ (forall data existing,
        parse_partial_assessor (req_body req) = inr data ->
        assessors (storage w) !! k = Some existing ->
        update_answers put_assessor getAssessor k (spread_assessor existing data)
          (fun s => OfAssessor (spread_assessor existing data)
                      (getUser (assessor_userId (spread_assessor existing data)) s)) req w)
  /\ (forall data existing,
        parse_partial_rubricTemplate (req_body req) = inr data ->
        rubricTemplates (storage w) !! k = Some existing ->
        update_answers put_rubricTemplate getRubricTemplate k
          (spread_rubricTemplate existing data)
          (fun _ => OfRubricTemplate (spread_rubricTemplate existing data)) req w)
  /\ (forall data existing,
        parse_partial_task (req_body req) = inr data ->
        tasks (storage w) !! k = Some existing ->
        update_answers put_task getTask k (spread_task existing data)
          (fun _ => OfTask (spread_task existing data)) req w).
Proof.
  intros Ha Hk. split_and!; intros data existing Hp He.
  - by apply put_school_updates.
  - by apply put_class_updates.
  - by apply put_student_updates.
  - by apply put_assessor_updates.
  - by apply put_rubricTemplate_updates.
  - by apply put_task_updates.
Qed.

End Puts.

(** X18 on the demo data: a draft for student 99, who does not exist, is
    completed by an assessor.  The answer is 500 and the assessment is
    stored as completed. *)
Lemma X18_put_failing_pdf_witness :
  exists w',
    put_assessment (H0 := Samples.node) "/app" Samples.clock
      (Samples.put_by Samples.assessor_user "2" Samples.completing_body)
      (Samples.world_with_draft 99)
    = (inr (status_json 500 (Message "Error updating assessment")), w')
    /\ assessment_status <$> getAssessment 2 (storage w') = Some (Some status_completed).
Proof.
  assert (Ha : assessor_request
                 (Samples.put_by Samples.assessor_user "2" Samples.completing_body)).
  { exists Samples.assessor_user. split; [reflexivity|]. by left. }
  assert (Hp : parse_partial_assessment
                 (req_body (Samples.put_by Samples.assessor_user "2"
                              Samples.completing_body))
               = inr Samples.completing_data)
    by (vm_compute; reflexivity).
  assert (Hk : parseInt (req_params_id (Samples.put_by Samples.assessor_user "2"
                                          Samples.completing_body)) = Some 2)
    by (vm_compute; reflexivity).
  assert (Hc : assessments (storage (Samples.world_with_draft 99)) !! 2
               = Some (createAssessment 0 (Samples.assessment_data 99 status_draft)
                         (new_MemStorage 0)).1)
    by (vm_compute; reflexivity).
  destruct (X18_put_keeps_the_update_when_the_pdf_fails (H0 := Samples.node)
              "/app" Samples.clock _ _ _ _ _ Ha Hp Hk Hc)
    as (w' & Hrun & Hget & Hstatus & _).
  - vm_compute. reflexivity.
  - vm_compute. reflexivity.
  - exists w'. split; [exact Hrun|]. rewrite Hget. cbn [fmap option_fmap option_map].
    by rewrite Hstatus.
Defined.

(** X19 on the demo data: a draft for student 1 is completed by an
    assessor.  The PDF is written and its path stored in assessment 2. *)
Lemma X19_put_generates_witness :
  exists w' stored path file,
    getAssessment 2 (storage w') = Some stored
    /\ assessment_status stored = Some status_completed
    /\ assessment_pdfPath stored = Some path
    /\ files w' = <[file := "Mock PDF content"]> (files (Samples.world_with_draft 1)).
Proof.
  assert (Ha : assessor_request
                 (Samples.put_by Samples.assessor_user "2" Samples.completing_body)).
  { exists Samples.assessor_user. split; [reflexivity|]. by left. }
  assert (Hp : parse_partial_assessment
                 (req_body (Samples.put_by Samples.assessor_user "2"
                              Samples.completing_body))
               = inr Samples.completing_data)
    by (vm_compute; reflexivity).
  assert (Hk : parseInt (req_params_id (Samples.put_by Samples.assessor_user "2"
                                          Samples.completing_body)) = Some 2)
    by (vm_compute; reflexivity).
  assert (Hc : assessments (storage (Samples.world_with_draft 1)) !! 2
               = Some (createAssessment 0 (Samples.assessment_data 1 status_draft)
                         (new_MemStorage 0)).1)
    by (vm_compute; reflexivity).
  assert (Hid : assessment_id (createAssessment 0 (Samples.assessment_data 1 status_draft)
                                 (new_MemStorage 0)).1 = 2)
    by (vm_compute; reflexivity).
  destruct (X19_put_generates_the_pdf_once (H0 := Samples.node)
              "/app" Samples.clock _ _ _ _ _ Ha Hp Hk Hc Hid) as [_ Hgenerates].
  edestruct Hgenerates as [Hwritten _].
  - vm_compute. reflexivity.
  - vm_compute. reflexivity.
  - destruct Hwritten
      as (w' & stored & _ & Hget & Hstatus & Hpath & _ & Hfiles & _);
      [vm_compute; reflexivity|].
    eexists w', stored, _, _. split_and!; [exact Hget|exact Hstatus|exact Hpath|exact Hfiles].
Defined.

(** X21 on the demo data: an admin renames school 1. *)
Lemma X21_put_school_witness :
  exists existing w',
    schools (storage Samples.world) !! 1 = Some existing
    /\ put_school (Samples.put_by Samples.admin_user "1" Samples.good_school_body)
         Samples.world
       = (inr (json (OfSchool
                       (spread_school existing
                          {| partialSchool_name := Some "Northside High";
                             partialSchool_address := None |}))), w')
    /\ school_name <$> getSchool 1 (storage w') = Some "Northside High"
    /\ school_address <$> getSchool 1 (storage w') = Some (school_address existing).
Proof.
  assert (Ha : admin_request
                 (Samples.put_by Samples.admin_user "1" Samples.good_school_body)).
  { exists Samples.admin_user. split; reflexivity. }
  assert (Hk : parseInt (req_params_id (Samples.put_by Samples.admin_user "1"
                                          Samples.good_school_body)) = Some 1)
    by (vm_compute; reflexivity).
  assert (Hp : parse_partial_school
                 (req_body (Samples.put_by Samples.admin_user "1"
                              Samples.good_school_body))
               = inr {| partialSchool_name := Some "Northside High";
                        partialSchool_address := None |})
    by (vm_compute; reflexivity).
  destruct (schools (storage Samples.world) !! 1) as [existing|] eqn:He;
    [|vm_compute in He; discriminate He].
  destruct (X21_put_answers_with_the_update _ Samples.world 1 Ha Hk) as (Hschool & _).
  destruct (Hschool _ existing Hp He) as (w' & Hrun & Hget & _).
  exists existing, w'. split_and!.
  - reflexivity.
  - exact Hrun.
  - by rewrite Hget.
  - by rewrite Hget.
Defined.

(** ** Ids in request parameters *)

(** X23: [parseInt] reads back the id a route is given.  The decimal
    digits of an id from 1 on (below 2^53, where the number is printed
    exactly), followed by nothing or by anything that does not start with a
    digit, parse to that id, so the request names the entry stored under it:
    /api/schools/12abc names school 12.  A parameter that is empty, or that
    starts with a character that is neither white space, a sign nor a
    digit, parses to NaN and names no entry.  White space is what [parseInt]
    strips; the parameter is any string of the embedding, that is of
    characters up to U+00FF, where the white space is TAB, LF, VT, FF, CR,
    SP and the no-break space. *)
Theorem X23_parseInt_reads_an_id {Body A : Type} (req : Request Body) (m : gmap Z A) :
  (forall n rest,
     1 <= n < 2 ^ 53 -> no_digit_ahead rest ->
     parseInt (digits n +:+ rest) = Some n
     /\ (req_params_id req = digits n +:+ rest -> target req m = m !! n))
  /\ parseInt "" = None
  /\ (forall c s,
        is_space c = false -> c <> "-"%char -> c <> "+"%char -> digit_value 10 c = None ->
        parseInt (String c s) = None
        /\ (req_params_id req = String c s -> target req m = None)).
Proof.
  split_and!.
  - intros n rest [Hn _] Hr.
    assert (Hp : parseInt (digits n +:+ rest) = Some n) by (by apply parseInt_digits).
    split; [done|]. intros Hid. unfold target. by rewrite Hid, Hp.
  - reflexivity.
  - intros c s Hsp Hm Hp Hd.
    assert (Hn : parseInt (String c s) = None) by (by apply parseInt_no_digit).
    split; [done|]. intros Hid. unfold target. by rewrite Hid, Hn.
Qed.

(** X23 on samples: "12abc" reads as 12 and "abc" as NaN; "12" after a
    no-break space (U+00A0) reads as 12. *)
Lemma X23_parseInt_witness :
  parseInt "12abc" = Some 12
  /\ parseInt "abc" = None
  /\ parseInt (String (Ascii.ascii_of_nat 160) "12") = Some 12.
Proof.
  destruct (X23_parseInt_reads_an_id (Samples.put_by Samples.admin_user "12abc" JNull)
              (∅ : gmap Z School))
    as (Hdigits & _ & Hnone).
  split_and!.
  - destruct (Hdigits 12 "abc") as [Hread _].
    + split; [apply Z.leb_le | apply Z.ltb_lt]; vm_compute; reflexivity.
    + vm_compute. reflexivity.
    + exact Hread.
  - destruct (Hnone "a"%char "bc") as [Hread _].
    + reflexivity.
    + discriminate.
    + discriminate.
    + reflexivity.
    + exact Hread.
  - vm_compute. reflexivity.
Defined.

(** ** Creating an entry and reading it back *)

Section Served.
Context {Body : Type} `{Api.InsertSchemas Body}.
Variable clock : nat -> Date.

Lemma append_empty s : s +:+ "" = s.
Proof. induction s as [|c s IH]; [done|]. by rewrite append_cons, IH. Qed.

(** A GET of one entry, for a signed-in reader who names [id] in decimal. *)
Ltac read_by_id Hu Hid Hn :=
  unfold Api.isAuthenticated;
  destruct (req_user _) as [user|]; [|by destruct Hu];
  unfold mbind, M_bind, query, mret, M_ret;
  rewrite Hid, (parseInt_digits _ "" Hn I); cbn [at_id].

(** A POST past its gate, on a body the schema accepts. *)
Ltac post_valid Ha Hp :=
  rewrite Api_isAdmin_pass by done;
  unfold try_catch, mbind, M_bind, parse, call, mret, M_ret; rewrite Hp;
  unfold createSchool, createClass, createRubricTemplate; cbn [fst snd];
  eexists {| storage := _; files := _ |}; split_and!; [reflexivity..|].

Lemma post_school_served (req : Request Body) w data :
  admin_request req -> keyed school_id (schools (storage w)) (schoolId (storage w)) ->
  Api.parse_school (req_body req) = inr data ->
  created_and_served (Api.post_school clock) Api.get_school (schoolId (storage w))
    (OfSchool (createSchool (clock 0) data (storage w)).1) "School not found" req w.
Proof.
  intros Ha Hk Hp. unfold created_and_served, Api.post_school. post_valid Ha Hp.
  intros reader Hu Hid. unfold Api.get_school.
  assert (Hn : 1 <= schoolId (storage w)) by apply Hk.
  rewrite <- (append_empty (digits _)) in Hid.
  split; read_by_id Hu Hid Hn; unfold getSchool; cbn [storage schools set_schools].
  - by rewrite (keyed_fresh _ _ _ Hk).
  - by rewrite lookup_insert_eq.
Qed.

Lemma post_class_served (req : Request Body) w data :
  admin_request req -> keyed class_id (classes (storage w)) (classId (storage w)) ->
  Api.parse_class (req_body req) = inr data ->
  created_and_served (Api.post_class clock) Api.get_class (classId (storage w))
    (OfClass (createClass (clock 0) data (storage w)).1) "Class not found" req w.
Proof.
  intros Ha Hk Hp. unfold created_and_served, Api.post_class. post_valid Ha Hp.
  intros reader Hu Hid. unfold Api.get_class.
  assert (Hn : 1 <= classId (storage w)) by apply Hk.
  rewrite <- (append_empty (digits _)) in Hid.
  split; read_by_id Hu Hid Hn; unfold getClass; cbn [storage classes set_classes].
  - by rewrite (keyed_fresh _ _ _ Hk).
  - by rewrite lookup_insert_eq.
Qed.

Lemma post_rubricTemplate_served (req : Request Body) w data :
  admin_request req ->
  keyed rubricTemplate_id (rubricTemplates (storage w)) (rubricTemplateId (storage w)) ->
  Api.parse_rubricTemplate (req_body req) = inr data ->
  created_and_served (Api.post_rubricTemplate clock) Api.get_rubricTemplate
    (rubricTemplateId (storage w))
    (OfRubricTemplate (createRubricTemplate (clock 0) data (storage w)).1)
    "Rubric template not found" req w.
Proof.
  intros Ha Hk Hp. unfold created_and_served, Api.post_rubricTemplate. post_valid Ha Hp.
  intros reader Hu Hid. unfold Api.get_rubricTemplate.
  assert (Hn : 1 <= rubricTemplateId (storage w)) by apply Hk.
  rewrite <- (append_empty (digits _)) in Hid.
  split; read_by_id Hu Hid Hn; unfold getRubricTemplate;
    cbn [storage rubricTemplates set_rubricTemplates].
  - by rewrite (keyed_fresh _ _ _ Hk).
  - by rewrite lookup_insert_eq.
Qed.

(** X24: creating a school, a class or a rubric template and reading it
    back.  On a store whose ids are keys (with counters below 2^53, where
    an id and its decimal spelling are exact), a POST by an admin with a
    body the schema accepts answers 201 with the new record, whose id is
    the next id of the store, and touches no file; a GET of that id by any
    signed-in user was answered with 404 before the POST and is answered
    with the same record after it.  A body the schema rejects is answered
    with 400 and the issues, and nothing is stored. *)
Theorem X24_post_then_get (req : Request Body) (w : World) :
  admin_request req -> store_inv (storage w) ->
  (forall data,
     Api.parse_school (req_body req) = inr data -> schoolId (storage w) < 2 ^ 53 ->
     created_and_served (Api.post_school clock) Api.get_school (schoolId (storage w))
       (OfSchool (createSchool (clock 0) data (storage w)).1) "School not found" req w)
  /\ (forall data,
        Api.parse_class (req_body req) = inr data -> classId (storage w) < 2 ^ 53 ->
        created_and_served (Api.post_class clock) Api.get_class (classId (storage w))
          (OfClass (createClass (clock 0) data (storage w)).1) "Class not found" req w)
  /\ (forall data,
        Api.parse_rubricTemplate (req_body req) = inr data ->
        rubricTemplateId (storage w) < 2 ^ 53 ->
        created_and_served (Api.post_rubricTemplate clock) Api.get_rubricTemplate
          (rubricTemplateId (storage w))
          (OfRubricTemplate (createRubricTemplate (clock 0) data (storage w)).1)
          "Rubric template not found" req w)
  /\ (forall errors,
        Api.parse_school (req_body req) = inl errors ->
        Api.post_school clock req w
        = (inr (Api.Json (status_json 400 (Invalid "Invalid school data" errors))), w))
  /\ (forall errors,
        Api.parse_class (req_body req) = inl errors ->
        Api.post_class clock req w
        = (inr (Api.Json (status_json 400 (Invalid "Invalid class data" errors))), w))
  /\ (forall errors,
        Api.parse_rubricTemplate (req_body req) = inl errors ->
        Api.post_rubricTemplate clock req w
        = (inr (Api.Json (status_json 400 (Invalid "Invalid rubric template data" errors))),
           w)).
Proof.
  intros Ha (_ & Hschools & Hclasses & _ & _ & Htemplates & _).
  split_and!.
  - intros data Hp _. by apply post_school_served.
  - intros data Hp _. by apply post_class_served.
  - intros data Hp _. by apply post_rubricTemplate_served.
  - intros errors Hp. unfold Api.post_school. rewrite Api_isAdmin_pass by done.
    unfold try_catch, mbind, M_bind, parse, throw, mret, M_ret. by rewrite Hp.
  - intros errors Hp. unfold Api.post_class. rewrite Api_isAdmin_pass by done.
    unfold try_catch, mbind, M_bind, parse, throw, mret, M_ret. by rewrite Hp.
  - intros errors Hp. unfold Api.post_rubricTemplate. rewrite Api_isAdmin_pass by done.
    unfold try_catch, mbind, M_bind, parse, throw, mret, M_ret. by rewrite Hp.
Qed.

End Served.

(** X24 on the demo data: an admin posts a school, which gets id 3; a
    student's GET /api/schools/3 was answered with 404 before and shows the
    school after. *)
Lemma X24_post_then_get_witness :
  exists w',
    Api.post_school Samples.clock
      (Samples.put_by Samples.admin_user "" Samples.good_school_body) Samples.world
    = (inr (Api.Json (status_json 201
                        (OfSchool (createSchool (Samples.clock 0) Samples.northside
                                     (storage Samples.world)).1))), w')
    /\ Api.get_school (Samples.put_by Samples.student_user "3" JNull) Samples.world
       = (inr (Api.Json (status_json 404 (Message "School not found"))), Samples.world)
    /\ Api.get_school (Samples.put_by Samples.student_user "3" JNull) w'
       = (inr (Api.Json (json (OfSchool (createSchool (Samples.clock 0) Samples.northside
                                           (storage Samples.world)).1))), w').
Proof.
  assert (Ha : admin_request
                 (Samples.put_by Samples.admin_user "" Samples.good_school_body)).
  { exists Samples.admin_user. split; reflexivity. }
  assert (Hinv : store_inv (storage Samples.world)) by apply store_inv_new.
  assert (Hp : Api.parse_school
                 (req_body (Samples.put_by Samples.admin_user "" Samples.good_school_body))
               = inr Samples.northside)
    by (vm_compute; reflexivity).
  assert (Hbound : schoolId (storage Samples.world) < 2 ^ 53) by (vm_compute; reflexivity).
  assert (Hid : req_params_id (Samples.put_by Samples.student_user "3" JNull)
                = digits (schoolId (storage Samples.world)))
    by (vm_compute; reflexivity).
  destruct (X24_post_then_get Samples.clock _ Samples.world Ha Hinv) as (Hschool & _).
  destruct (Hschool _ Hp Hbound) as (w' & Hpost & _ & Hget).
  destruct (Hget (Samples.put_by Samples.student_user "3" JNull)) as [Hbefore Hafter];
    [discriminate | exact Hid |].
  exists w'. by split_and!.
Defined.

(** ** The listing query of the server *)



End Extras.
